(** * scipy-cluster: a shallow embedding of [cluster.py]

    The Python module [trunk/src/cluster.py] is embedded function by
    function: [randdm], [linkage], [cnode], [totree], [squareform],
    [pdist], [cophenet], [inconsistent], [from_mlab_linkage],
    [to_mlab_linkage] and the three [is_valid_*].  Python values are an inductive type, NumPy arrays are a
    dtype, a shape and a row-major buffer of IEEE binary64 numbers
    ([spec_float] at precision 53), exceptions are values of a sum type, and
    the observable effects of a call (text printed, entries into the C
    extension [_cluster_wrap], calls of a user metric, [cnode] objects
    constructed) are recorded in a trace. *)

From Stdlib Require Import ZArith List String Ascii Bool Lia.
From Stdlib Require Import Floats.SpecFloat.
From stdpp Require Import base list sorting gmap strings.

#[local] Open Scope string_scope.
#[local] Open Scope list_scope.
#[local] Open Scope Z_scope.

(** ** IEEE doubles *)

Abbreviation double := spec_float.

Definition fadd : double -> double -> double := SFadd 53 1024.
Definition fsub : double -> double -> double := SFsub 53 1024.
Definition fmul : double -> double -> double := SFmul 53 1024.
Definition fdiv : double -> double -> double := SFdiv 53 1024.
Definition fsqrt : double -> double := SFsqrt 53 1024.
Definition fabs : double -> double := SFabs.

#[global] Arguments fadd : simpl never.
#[global] Arguments fsub : simpl never.
#[global] Arguments fmul : simpl never.
#[global] Arguments fdiv : simpl never.
#[global] Arguments fsqrt : simpl never.

Definition pzero : double := S754_zero false.
Definition nzero : double := S754_zero true.

(** Conversion of a Python int to a double (round to nearest even). *)
Definition of_int (z : Z) : double := binary_normalize 53 1024 z 0 false.

(** [x == y], [x != y] and [x > y] on doubles; every comparison with a NaN
    is false, except [!=]. *)
Definition feq (x y : double) : bool := SFeqb x y.
Definition fne (x y : double) : bool := negb (SFeqb x y).
Definition fgt (x y : double) : bool := SFltb y x.

Definition is_nan (x : double) : bool :=
  match x with S754_nan => true | _ => false end.

(** Comparison of a double with a Python int.  NumPy converts the int to a
    double first; that conversion is exact below 2^53, far beyond any array
    dimension, so the comparison is made on the exact values. *)
Definition cmp_int (x : double) (z : Z) : option comparison :=
  match x with
  | S754_nan => None
  | S754_infinity s => Some (if s then Lt else Gt)
  | S754_zero _ => Some (0 ?= z)
  | S754_finite s m e =>
      let v := cond_Zopp s (Zpos m) in
      Some (if 0 <=? e then (v * 2 ^ e ?= z) else (v ?= z * 2 ^ (- e)))
  end.

Definition lt_int (x : double) (z : Z) : bool :=
  match cmp_int x z with Some Lt => true | _ => false end.
Definition ge_int (x : double) (z : Z) : bool :=
  match cmp_int x z with Some Gt | Some Eq => true | _ => false end.
Definition ne_int (x : double) (z : Z) : bool :=
  match cmp_int x z with Some Eq => false | _ => true end.

(** The Python int a double is equal to, if any: [hash] and [==] make a
    float key of a [dict] find the int key of the same value. *)
Definition as_int (x : double) : option Z :=
  match x with
  | S754_zero _ => Some 0
  | S754_finite s m e =>
      if 0 <=? e then Some (cond_Zopp s (Zpos m * 2 ^ e))
      else if Zpos m mod 2 ^ (- e) =? 0
           then Some (cond_Zopp s (Zpos m / 2 ^ (- e)))
           else None
  | _ => None
  end.

(** ** Exceptions, [cnode] objects and the trace *)

Inductive exn : Type :=
| AttributeError (msg : string)
| ValueError (msg : string)
| TypeError (msg : string)
| IndexError (msg : string)
| KeyError
| OverflowError
| ZeroDivisionError
| UnboundLocalError (var : string).

(** [class cnode]: [__init__(self, id, left=None, right=None, dist=0,
    count=1)] stores its five arguments. *)
#[warnings="-register-all"]
Inductive cnode : Type :=
| CNode (id : Z) (left right : option cnode) (dist count : Z).

Definition cnode_id (nd : cnode) : Z := let '(CNode i _ _ _ _) := nd in i.
Definition cnode_count (nd : cnode) : Z := let '(CNode _ _ _ _ c) := nd in c.

Definition default_dist : Z := 0.
Definition default_count : Z := 1.

Inductive event : Type :=
| EPrint (vals : list Z)          (* a [print] statement *)
| ECall (fn : string)             (* an entry into [_cluster_wrap] *)
| EMetric (u v : list double)     (* a call of the user-supplied metric *)
| ENode (nd : cnode).             (* a [cnode] object was constructed *)

(** A Python computation: the trace it leaves and either the exception it
    raised or the value it returned. *)
Definition Py (A : Type) : Type := (list event * (exn + A))%type.

Definition ret {A} (a : A) : Py A := ([], inr a).
Definition raise {A} (e : exn) : Py A := ([], inl e).
Definition tell (ev : event) : Py unit := ([ev], inr tt).
Definition bind {A B} (c : Py A) (k : A -> Py B) : Py B :=
  match c with
  | (t, inl e) => (t, inl e)
  | (t, inr a) => let '(t', r) := k a in (t ++ t', r)
  end.

Notation "'let*' x := c 'in' k" := (bind c (fun x => k))
  (at level 10, x name, c at level 100, k at level 200).
Notation "c ;;; k" := (bind c (fun _ => k))
  (at level 100, k at level 200, right associativity).

Definition trace {A} (c : Py A) : list event := fst c.
Definition outcome {A} (c : Py A) : exn + A := snd c.
Definition fails {A} (c : Py A) : Prop := exists e, outcome c = inl e.

(** [for x in xs: s = body(x, s)], stopping at the first exception. *)
Fixpoint for_each {A S} (xs : list A) (body : A -> S -> Py S) (s : S) : Py S :=
  match xs with
  | [] => ret s
  | x :: xs' => let* s' := body x s in for_each xs' body s'
  end.

(** The [cnode] objects constructed, in order. *)
Fixpoint nodes_built (t : list event) : list cnode :=
  match t with
  | [] => []
  | ENode nd :: t' => nd :: nodes_built t'
  | _ :: t' => nodes_built t'
  end.

(** ** NumPy arrays and Python values *)

Inductive dtype : Type := Float64 | Bool8 | OtherDtype.

Record ndarray : Type := mk_ndarray {
  dtype_of : dtype;
  shape : list nat;
  data : list double   (* row-major *)
}.

Definition is_double (a : ndarray) : bool :=
  match dtype_of a with Float64 => true | _ => false end.

Definition size_of (sh : list nat) : nat := fold_right Nat.mul 1%nat sh.

Definition well_formed (a : ndarray) : Prop :=
  length (data a) = size_of (shape a).

Definition zeros (sh : list nat) : ndarray :=
  mk_ndarray Float64 sh (repeat pzero (size_of sh)).

Definition vector (xs : list double) : ndarray :=
  mk_ndarray Float64 [length xs] xs.

Definition ncols (a : ndarray) : nat :=
  match shape a with [_; c] => c | _ => 0%nat end.
Definition nrows (a : ndarray) : nat :=
  match shape a with r :: _ => r | _ => 0%nat end.

(** [a[k]] and [a[i, j]]. *)
Definition get1 (a : ndarray) (k : nat) : double := nth k (data a) pzero.
Definition get2 (a : ndarray) (i j : nat) : double :=
  nth (i * ncols a + j)%nat (data a) pzero.

(** [a[i, :]] *)
Definition row (a : ndarray) (i : nat) : list double :=
  take (ncols a) (drop (i * ncols a)%nat (data a)).

(** [a[:, j]] *)
Definition column (a : ndarray) (j : nat) : list double :=
  map (fun i => get2 a i j) (seq 0 (nrows a)).

(** The values [f i j], [i < r] and [j < c], in row-major order, and the
    [r] by [c] array whose entry [(i, j)] is [f i j]. *)
Definition table {B} (r c : nat) (f : nat -> nat -> B) : list B :=
  flat_map (fun i => map (f i) (seq 0 c)) (seq 0 r).

Definition mk2 (r c : nat) (f : nat -> nat -> double) : ndarray :=
  mk_ndarray Float64 [r; c] (table r c f).

Definition transpose (a : ndarray) : ndarray :=
  mk2 (ncols a) (nrows a) (fun i j => get2 a j i).

(** The pairs [(i, j)], [i < j < m], [i] ascending outer and [j] ascending
    inner: [for i in xrange(0, m - 1): for j in xrange(i + 1, m)]. *)
Definition pairs (m : nat) : list (nat * nat) :=
  flat_map (fun i => map (pair i) (seq (i + 1) (m - (i + 1)))) (seq 0 (m - 1)).

(** [p] comes before [q] when [i] ascends in the outer loop and [j] in the
    inner one. *)
Definition pair_before (p q : nat * nat) : Prop :=
  (fst p < fst q)%nat \/ (fst p = fst q /\ (snd p < snd q)%nat).

(** The condensed index of the pair [(i, j)] among [m] points. *)
Definition condensed_index (m i j : nat) : Z :=
  Z.of_nat i * Z.of_nat m - Z.of_nat i * (Z.of_nat i + 1) / 2
  + (Z.of_nat j - Z.of_nat i - 1).

(** [m * (m - 1) / 2] on Python ints. *)
Definition choose2 (m : nat) : nat :=
  Z.to_nat (Z.of_nat m * (Z.of_nat m - 1) / 2).

#[warnings="-register-all"]
Inductive pyobj : Type :=
| PyNone
| PyInt (z : Z)
| PyFloat (x : double)
| PyStr (s : string)
| PyFunction (f : list double -> list double -> Py double)
| PyArray (a : ndarray)
| PyTuple (items : list pyobj).

(** [str.lower] on an ASCII string. *)
Definition lower_ascii (c : ascii) : ascii :=
  let n := nat_of_ascii c in
  if ((65 <=? n) && (n <=? 90))%nat then ascii_of_nat (n + 32) else c.

Fixpoint lower (s : string) : string :=
  match s with
  | EmptyString => EmptyString
  | String c s' => String (lower_ascii c) (lower s')
  end.

Definition mem_str (s : string) (l : list string) : bool :=
  existsb (String.eqb s) l.

(** [o == s] for a string literal [s]. *)
Definition is_str (o : pyobj) (s : string) : bool :=
  match o with
  | PyStr t => String.eqb t s
  | _ => false
  end.

(** The truth value of an array used as a condition: an empty array is
    false, a one-element array is its element, any other raises. *)
Definition truth (bs : list bool) : Py bool :=
  match bs with
  | [] => ret false
  | [b] => ret b
  | _ => raise (ValueError "The truth value of an array with more than one element is ambiguous. Use a.any() or a.all()")
  end.

(** ** The C extension [_cluster_wrap] and the numeric library

    [_cluster_wrap] is a module object: an attribute is looked up by name
    when the call is made.  Each of its functions fills an output array
    that the caller allocated; the embedding of a function maps the
    arguments to the new contents of that array, which keeps its shape. *)

Abbreviation extension := (gmap string (list pyobj -> list double)).
Abbreviation library := (gmap string (list pyobj -> Py pyobj)).

Definition write_back (out : ndarray) (new : list double) : ndarray :=
  mk_ndarray (dtype_of out) (shape out)
    (take (length (data out)) (new ++ drop (length new) (data out))).

Definition call_wrap (W : extension) (fn : string) (args : list pyobj)
    (out : ndarray) : Py ndarray :=
  match W !! fn with
  | None => raise (AttributeError "'module' object has no attribute")
  | Some f => tell (ECall fn) ;;; ret (write_back out (f args))
  end.

(** A function of [scipy], [scipy.stats], [scipy.linalg] or [math] that is
    not written out below. *)
Definition call_lib (L : library) (fn : string) (args : list pyobj) : Py pyobj :=
  match L !! fn with
  | None => raise (AttributeError "'module' object has no attribute")
  | Some f => f args
  end.

Definition as_array (o : pyobj) : Py ndarray :=
  match o with
  | PyArray a => ret a
  | _ => raise (TypeError "an array is required")
  end.

Definition as_float (o : pyobj) : Py double :=
  match o with
  | PyFloat x => ret x
  | PyInt z => ret (of_int z)
  | _ => raise (TypeError "a float is required")
  end.

(** ** Elementwise arithmetic on one-dimensional arrays *)

Definition vsub (u v : list double) : list double := zip_with fsub u v.
Definition vmul (u v : list double) : list double := zip_with fmul u v.
Definition vabs (u : list double) : list double := map fabs u.
Definition vne (u v : list double) : list bool := zip_with fne u v.
Definition vne_int (u : list double) (z : Z) : list bool :=
  map (fun x => ne_int x z) u.

(** [a.sum()]: [add.reduce], left to right from the first element. *)
Definition vsum (u : list double) : double :=
  match u with
  | [] => pzero
  | x :: u' => fold_left fadd u' x
  end.

(** [a.mean()] *)
Definition vmean (u : list double) : double :=
  fdiv (vsum u) (of_int (Z.of_nat (length u))).

(** The number of [True] entries: [.sum()] of a boolean array. *)
Definition count_true (bs : list bool) : Z :=
  Z.of_nat (length (filter (fun b => b = true) bs)).

(** [a + b] and [a / b] on arrays of one shape (broadcasting between
    different shapes is not modelled: it raises). *)
Definition same_shape (a b : ndarray) : bool :=
  bool_decide (shape a = shape b).

Definition add_arrays (a b : ndarray) : Py ndarray :=
  if same_shape a b
  then ret (mk_ndarray Float64 (shape a) (zip_with fadd (data a) (data b)))
  else raise (ValueError "shape mismatch: objects cannot be broadcast to a single shape").

Definition div_arrays (a b : ndarray) : Py ndarray :=
  if same_shape a b
  then ret (mk_ndarray Float64 (shape a) (zip_with fdiv (data a) (data b)))
  else raise (ValueError "shape mismatch: objects cannot be broadcast to a single shape").

(** [scipy.sqrt] of a scalar: a negative argument gives a complex number,
    which no double array can store. *)
Definition scipy_sqrt (x : double) : Py double :=
  if lt_int x 0 then raise (TypeError "can't convert complex to float")
  else ret (fsqrt x).

(** [math.sqrt] *)
Definition math_sqrt (x : double) : Py double :=
  if lt_int x 0 then raise (ValueError "math domain error")
  else ret (fsqrt x).

(** [int(scipy.ceil(scipy.sqrt(k)))] for a Python int [k >= 0]; the
    correctly rounded square root of an array length has the same ceiling
    as the exact one. *)
Definition ceil_sqrt (k : Z) : Z :=
  let r := Z.sqrt k in if r * r =? k then r else r + 1.

(** [a[k] = x] *)
Definition setitem1 (a : ndarray) (k : nat) (x : double) : Py ndarray :=
  if (k <? length (data a))%nat
  then ret (mk_ndarray (dtype_of a) (shape a) (<[k := x]> (data a)))
  else raise (IndexError "index out of bounds").

(** [a[xrange(0, m), xrange(0, m)] = 0] *)
Definition zero_diagonal (a : ndarray) (m : nat) : Py ndarray :=
  match shape a with
  | [r; c] =>
      if ((m <=? r) && (m <=? c))%nat
      then ret (mk_ndarray (dtype_of a) (shape a)
                  (data (mk2 r c (fun i j =>
                     if ((i =? j) && (i <? m))%nat then pzero else get2 a i j))))
      else raise (IndexError "index out of bounds")
  | _ => raise (IndexError "too many indices")
  end.

(** ** The kernels of [_cluster_wrap] the specification describes *)

(** Modelled from the spec: [pdist_hamming_wrap] is C code outside
    [cluster.py]; "hamming: mean fraction of disagreeing components
    (numeric tolerance for doubles: unequal iff exactly unequal)", one entry
    per pair of rows in the canonical order. *)
Definition hamming (u v : list double) : double :=
  fdiv (of_int (count_true (vne u v))) (of_int (Z.of_nat (length u))).

Definition pdist_hamming (args : list pyobj) : list double :=
  match args with
  | [PyArray X; PyArray dm] =>
      map (fun p => hamming (row X (fst p)) (row X (snd p))) (pairs (nrows X))
  | _ => []
  end.

(** Modelled from the spec: [to_squareform_from_vector_wrap] is C code
    outside [cluster.py]; "place entry k(i,j) at both [i,j] and [j,i];
    diagonal is zero".  [squareform] adds the transpose to what this
    function leaves in [M], so the function writes entry k(i,j) at [i,j]
    and nothing else. *)
Definition to_squareform_from_vector (args : list pyobj) : list double :=
  match args with
  | [PyArray M; PyArray v] =>
      let d := nrows M in
      data (mk2 d d (fun i j =>
              if (i <? j)%nat
              then get1 v (Z.to_nat (condensed_index d i j))
              else get2 M i j))
  | _ => []
  end.

(** Modelled from the spec: [to_vector_from_squareform_wrap] is C code
    outside [cluster.py]; "extract entries in canonical order". *)
Definition to_vector_from_squareform (args : list pyobj) : list double :=
  match args with
  | [PyArray X; PyArray v] =>
      map (fun p => get2 X (fst p) (snd p)) (pairs (nrows X))
  | _ => []
  end.

(** Modelled from the spec: [cophenetic_distances_wrap] is C code outside
    [cluster.py]; "for each unordered pair of original observations (p,q),
    the cophenetic distance is the merge distance of the smallest cluster
    (in the dendrogram) containing both", in canonical order.  Row [i] of
    [Z] forms cluster [n + i]; the first row whose cluster holds both
    observations is the smallest such cluster. *)
Definition members_of (n : Z) (formed : list (list Z)) (x : double) : list Z :=
  match as_int x with
  | Some a => if a <? n then [a] else nth (Z.to_nat (a - n)) formed []
  | None => []
  end.

Fixpoint merged_members (Zm : ndarray) (n : Z) (rows : list nat)
    (formed : list (list Z)) : list (list Z) :=
  match rows with
  | [] => formed
  | i :: rows' =>
      merged_members Zm n rows'
        (formed ++ [members_of n formed (get2 Zm i 0)
                    ++ members_of n formed (get2 Zm i 1)])
  end.

Definition cophenetic_distance (Zm : ndarray) (clusters : list (list Z))
    (p q : nat) : double :=
  let holds (i : nat) :=
    let c := nth i clusters [] in
    existsb (Z.eqb (Z.of_nat p)) c && existsb (Z.eqb (Z.of_nat q)) c in
  match List.find holds (seq 0 (nrows Zm)) with
  | Some i => get2 Zm i 2
  | None => pzero
  end.

Definition cophenetic_distances (args : list pyobj) : list double :=
  match args with
  | [PyArray Zm; PyArray zz; PyInt n] =>
      let clusters := merged_members Zm n (seq 0 (nrows Zm)) [] in
      map (fun p => cophenetic_distance Zm clusters (fst p) (snd p))
          (pairs (Z.to_nat n))
  | _ => []
  end.

(** The extension restricted to the kernels modelled above. *)
Definition reference_wrap : extension :=
  <["pdist_hamming_wrap" := pdist_hamming]>
  (<["to_squareform_from_vector_wrap" := to_squareform_from_vector]>
  (<["to_vector_from_squareform_wrap" := to_vector_from_squareform]>
  (<["cophenetic_distances_wrap" := cophenetic_distances]> ∅))).

(** ** [squareform] *)

Definition squareform (W : extension) (X : pyobj) (force : string)
    (checks : bool) : Py ndarray :=
  match X with
  | PyArray X =>
      if negb (is_double X)
      then raise (AttributeError "A double array must be passed.")
      else
      let s := shape X in
      if (length s =? 1)%nat && negb (String.eqb force "tomatrix") then
        let s0 := Z.of_nat (nrows X) in
        let d := ceil_sqrt (s0 * 2) in
        tell (EPrint [d; s0]) ;;;
        if negb (d * (d - 1) / 2 =? s0)
        then raise (AttributeError "Incompatible vector size. It must be a binomial coefficient n choose 2 for some integer n >= 2.")
        else
          let M := zeros [Z.to_nat d; Z.to_nat d] in
          let* M := call_wrap W "to_squareform_from_vector_wrap"
                      [PyArray M; PyArray X] M in
          add_arrays M (transpose M)
      else if negb (length s =? 1)%nat && String.eqb (lower force) "tomatrix"
      then raise (AttributeError "Forcing 'tomatrix' but input X is not a distance vector.")
      else if (length s =? 2)%nat && negb (String.eqb (lower force) "tovector")
      then
        if negb (nrows X =? ncols X)%nat
        then raise (AttributeError "The matrix argument must be square.")
        else
          (if checks then
             if negb (count_true (zip_with feq (data X) (data (transpose X)))
                      =? Z.of_nat (size_of (shape X)))
             then raise (AttributeError "The distance matrix must be symmetrical.")
             else if existsb (fun i => ne_int (get2 X i i) 0) (seq 0 (nrows X))
             then raise (AttributeError "The distance matrix must have zeros along the diagonal.")
             else ret tt
           else ret tt) ;;;
          let d := nrows X in
          let v := zeros [choose2 d] in
          call_wrap W "to_vector_from_squareform_wrap" [PyArray X; PyArray v] v
      else if negb (length s =? 2)%nat && String.eqb (lower force) "tomatrix"
      then raise (AttributeError "Forcing 'tomatrix' but input X is not a distance vector.")
      else raise (AttributeError "The first argument must be a vector or matrix. A %d-dimensional array is not permitted")
  | _ => raise (AttributeError "The parameter passed must be an array.")
  end.

(** [squareform(squareform(X))] *)
Definition squareform_twice (W : extension) (X : pyobj) : Py ndarray :=
  let* Y := squareform W X "no" true in
  squareform W (PyArray Y) "no" true.

(** What [squareform] adds to its transpose to make the matrix of the
    vector [v]: entry [k(i, j)] above the diagonal, zero elsewhere. *)
Definition upper (d : nat) (v : list double) (i j : nat) : double :=
  if (i <? j)%nat then nth (Z.to_nat (condensed_index d i j)) v pzero
  else pzero.

(** The dimension [squareform] finds for a vector of length d(d-1)/2: [d]
    itself, or 0 when the vector is empty. *)
Definition found_dimension (d : nat) : nat :=
  if (d <=? 1)%nat then 0%nat else d.

(** The distance matrix of the condensed vector (2, 3, 5). *)
Definition distance_example : ndarray :=
  mk_ndarray Float64 [3%nat; 3%nat] (map of_int [0; 2; 3; 2; 0; 5; 3; 5; 0]).

(** ** [pdist] *)

(** [scipy.sqrt(scipy.sum(X * X, axis=1))] *)
Definition row_norms (X : ndarray) : ndarray :=
  vector (map (fun i => fsqrt (vsum (vmul (row X i) (row X i))))
              (seq 0 (nrows X))).

(** The [lambda]s of the [test_*] metrics and of [mahalanobis]. *)
Definition lambda_test_euclidean (u v : list double) : Py double :=
  scipy_sqrt (vsum (vmul (vsub u v) (vsub u v))).

Definition lambda_quadratic_form (DI : ndarray) (u v : list double) : Py double :=
  let w := vsub u v in
  if negb (ncols DI =? length w)%nat
  then raise (ValueError "shape mismatch: objects cannot be broadcast to a single shape")
  else scipy_sqrt (vsum (flat_map (fun i =>
         map (fun j => fmul (fmul (nth j w pzero) (get2 DI i j)) (nth j w pzero))
             (seq 0 (ncols DI))) (seq 0 (nrows DI)))).

Definition lambda_mahalanobis (L : library) (VI : ndarray)
    (u v : list double) : Py double :=
  let w := PyArray (vector (vsub u v)) in
  let* a := call_lib L "dot" [w; PyArray VI] in
  let* b := call_lib L "dot" [a; w] in
  let* x := as_float b in
  scipy_sqrt x.

Definition lambda_test_cityblock (u v : list double) : Py double :=
  ret (vsum (vabs (vsub u v))).

Definition lambda_test_minkowski (L : library) (p : pyobj)
    (u v : list double) : Py double :=
  let* powers := for_each (vabs (vsub u v)) (fun x acc =>
                   let* y := call_lib L "pow" [PyFloat x; p] in
                   let* y := as_float y in
                   ret (acc ++ [y])) [] in
  let* pf := as_float p in
  if negb (ne_int pf 0) then raise ZeroDivisionError
  else
    let* r := call_lib L "pow" [PyFloat (vsum powers); PyFloat (fdiv (of_int 1) pf)] in
    as_float r.

Definition dot1 (L : library) (u v : list double) : Py double :=
  let* r := call_lib L "dot" [PyArray (vector u); PyArray (vector v)] in
  as_float r.

Definition lambda_test_cosine (L : library) (u v : list double) : Py double :=
  let* uv := dot1 L u v in
  let* uu := dot1 L u u in
  let* nu := math_sqrt uu in
  let* vv := dot1 L v v in
  let* nv := math_sqrt vv in
  ret (fsub (of_int 1) (fdiv uv (fmul nu nv))).

Definition lambda_test_correlation (L : library) (u v : list double) : Py double :=
  let uc := map (fun x => fsub x (vmean u)) u in
  let vc := map (fun x => fsub x (vmean v)) v in
  lambda_test_cosine L uc vc.

Definition lambda_test_hamming (u v : list double) : Py double :=
  ret (fdiv (of_int (count_true (vne u v))) (of_int (Z.of_nat (length u)))).

(** The quotient of two integer counts: [/] on integers is floor division
    here, and NumPy gives 0 for a zero divisor. *)
Definition lambda_test_jaccard (u v : list double) : Py double :=
  let nonzero := zip_with orb (vne_int u 0) (vne_int v 0) in
  let num := count_true (zip_with andb (vne u v) nonzero) in
  let den := count_true nonzero in
  ret (of_int (if den =? 0 then 0 else num / den)).

(** The builtin [max] over the elements. *)
Definition lambda_test_chebyshev (u v : list double) : Py double :=
  match vabs (vsub u v) with
  | [] => raise (ValueError "max() arg is an empty sequence")
  | x :: w => ret (fold_left (fun best y => if fgt y best then y else best) w x)
  end.

(** The two nested loops of the function branch. *)
Definition pdist_loop (f : list double -> list double -> Py double)
    (X : ndarray) (m : nat) (dm : ndarray) : Py ndarray :=
  let* st := for_each (seq 0 (m - 1)) (fun i st =>
               for_each (seq (i + 1) (m - (i + 1))) (fun j st =>
                 let u := row X i in
                 let v := row X j in
                 tell (EMetric u v) ;;;
                 let* x := f u v in
                 let* dm' := setitem1 (snd st) (fst st) x in
                 ret (S (fst st), dm')) st) (0%nat, dm) in
  ret (snd st).

(** [pdist(X, f)] for a function [f]: the recursive calls of the [test_*]
    branches, which pass no [p]. *)
Definition pdist_function (X : pyobj)
    (f : list double -> list double -> Py double) : Py ndarray :=
  match X with
  | PyArray X =>
      if negb (length (shape X) =? 2)%nat
      then raise (AttributeError "A matrix must be passed.")
      else
        let m := nrows X in
        pdist_loop f X m (zeros [choose2 m])
  | _ => raise (AttributeError "The parameter passed must be an array.")
  end.

Definition unknown_metric : exn := AttributeError "Unknown Distance Metric: %s".

(** The names the dispatch of [pdist] knows: those compared with the
    lower-cased argument, and those compared with the argument itself. *)
Definition metric_names : list string :=
  ["euclidean"; "euclid"; "eu"; "e"] ++ ["cityblock"; "cblock"; "cb"; "c"]
  ++ ["hamming"; "hamm"; "ha"; "h"] ++ ["jaccard"; "jacc"; "ja"; "j"]
  ++ ["chebyshev"; "cheby"; "cheb"; "ch"] ++ ["minkowski"; "mi"; "m"]
  ++ ["seuclidean"; "se"; "s"] ++ ["cosine_old"; "cos_old"]
  ++ ["cosine"; "cos"] ++ ["correlation"; "co"] ++ ["stub_mahalanobis"].

Definition exact_metric_names : list string :=
  ["test_euclidean"; "test_seuclidean"; "mahalanobis"; "test_cityblock";
   "test_minkowski"; "test_cosine"; "test_correlation"; "test_hamming";
   "test_jaccard"; "test_chebyshev"].

Definition recognized (metric : string) : bool :=
  mem_str (lower metric) metric_names || mem_str metric exact_metric_names.

(** The Jaccard distance as the specification states it:
    "|{k: u_k≠v_k}| / |{k: u_k≠0 ∨ v_k≠0}| (defined as 0 when denominator
    is 0)". *)
Definition jaccard (u v : list double) : double :=
  let den := count_true (zip_with orb (vne_int u 0) (vne_int v 0)) in
  if den =? 0 then pzero
  else fdiv (of_int (count_true (vne u v))) (of_int den).

Definition pdist (W : extension) (L : library) (X metric p : pyobj) : Py ndarray :=
  match X with
  | PyArray Xa =>
      if negb (length (shape Xa) =? 2)%nat
      then raise (AttributeError "A matrix must be passed.")
      else
      let m := nrows Xa in
      let n := ncols Xa in
      let dm := zeros [choose2 m] in
      match metric with
      | PyFunction f => pdist_loop f Xa m dm
      | PyStr metric =>
          let mstr := lower metric in
          (* line 451 builds an AttributeError and drops it *)
          if mem_str mstr ["euclidean"; "euclid"; "eu"; "e"] then
            call_wrap W "pdist_euclidean_wrap" [X; PyArray dm] dm
          else if mem_str mstr ["cityblock"; "cblock"; "cb"; "c"] then
            call_wrap W "pdist_city_block_wrap" [X; PyArray dm] dm
          else if mem_str mstr ["hamming"; "hamm"; "ha"; "h"] then
            match dtype_of Xa with
            | Float64 => call_wrap W "pdist_hamming_wrap" [X; PyArray dm] dm
            | Bool8 => call_wrap W "pdist_hamming_bool_wrap" [X; PyArray dm] dm
            | _ => raise (AttributeError "Invalid input matrix type %s for hamming.")
            end
          else if mem_str mstr ["jaccard"; "jacc"; "ja"; "j"] then
            match dtype_of Xa with
            | Float64 => call_wrap W "pdist_hamming_wrap" [X; PyArray dm] dm
            | Bool8 => call_wrap W "pdist_hamming_bool_wrap" [X; PyArray dm] dm
            | _ => raise (AttributeError "Invalid input matrix type %s for jaccard.")
            end
          else if mem_str mstr ["chebyshev"; "cheby"; "cheb"; "ch"] then
            call_wrap W "pdist_chebyshev_wrap" [X; PyArray dm] dm
          else if mem_str mstr ["minkowski"; "mi"; "m"] then
            call_wrap W "pdist_minkowski_wrap" [X; PyArray dm; p] dm
          else if mem_str mstr ["seuclidean"; "se"; "s"] then
            let* VV := call_lib L "stats.var" [X; PyInt 0] in
            call_wrap W "pdist_seuclidean_wrap" [X; VV; PyArray dm] dm
          else if mem_str mstr ["cosine_old"; "cos_old"] then
            let norms := row_norms Xa in
            call_wrap W "pdist_cosine_wrap" [X; PyArray dm; PyArray norms] dm
          else if mem_str mstr ["cosine"; "cos"] then
            let norms := row_norms Xa in
            let nV := mk_ndarray Float64 [m; 1%nat] (data norms) in
            let* nm := call_lib L "dot" [X; PyArray (transpose Xa)] in
            let* nm := as_array nm in
            let* de := call_lib L "dot" [PyArray nV; PyArray (transpose nV)] in
            let* de := as_array de in
            let* q := div_arrays nm de in
            let dm := mk_ndarray Float64 (shape q)
                        (map (fun x => fsub (of_int 1) x) (data q)) in
            let* dm := zero_diagonal dm m in
            squareform W (PyArray dm) "no" true
          else if mem_str mstr ["correlation"; "co"] then
            let X2 := mk2 m n (fun i j => fsub (get2 Xa i j) (vmean (row Xa i))) in
            let norms := row_norms X2 in
            call_wrap W "pdist_cosine_wrap" [PyArray X2; PyArray dm; PyArray norms] dm
          else if mem_str mstr ["stub_mahalanobis"] then
            let* V := call_lib L "cov" [PyArray (transpose Xa)] in
            let* XV := call_lib L "dot" [X; V] in
            let* dm := call_lib L "dot" [XV; PyArray (transpose Xa)] in
            let* dm := as_array dm in
            tell (EPrint (map Z.of_nat (shape dm))) ;;;
            let* dm := zero_diagonal dm m in
            squareform W (PyArray dm) "no" false
          else if String.eqb metric "test_euclidean" then
            pdist_function X lambda_test_euclidean
          else if String.eqb metric "test_seuclidean" then
            let* VV := call_lib L "stats.var" [X; PyInt 0] in
            let* D := call_lib L "diagflat" [VV] in
            let* DI := call_lib L "linalg.inv" [D] in
            let* DI := as_array DI in
            pdist_function X (lambda_quadratic_form DI)
          else if String.eqb metric "mahalanobis" then
            let* V := call_lib L "cov" [PyArray (transpose Xa)] in
            let* VI := call_lib L "linalg.inv" [V] in
            let* VI := as_array VI in
            pdist_function X (lambda_mahalanobis L VI)
          else if String.eqb metric "test_cityblock" then
            pdist_function X lambda_test_cityblock
          else if String.eqb metric "test_minkowski" then
            pdist_function X (lambda_test_minkowski L p)
          else if String.eqb metric "test_cosine" then
            pdist_function X (lambda_test_cosine L)
          else if String.eqb metric "test_correlation" then
            pdist_function X (lambda_test_correlation L)
          else if String.eqb metric "test_hamming" then
            pdist_function X lambda_test_hamming
          else if String.eqb metric "test_jaccard" then
            pdist_function X lambda_test_jaccard
          else if String.eqb metric "test_chebyshev" then
            pdist_function X lambda_test_chebyshev
          else raise unknown_metric
      | _ => raise (AttributeError "2nd argument metric must be a string identifier or a function.")
      end
  | _ => raise (AttributeError "The parameter passed must be an array.")
  end.

(** The matrix with rows (1, 0) and (0, 0). *)
Definition jaccard_example : ndarray :=
  mk_ndarray Float64 [2%nat; 2%nat] (map of_int [1; 0; 0; 0]).

(** ** [linkage] *)

Definition cpy_non_euclid_methods : gmap string Z :=
  <["single" := 0]> (<["complete" := 1]> (<["average" := 2]>
  (<["weighted" := 6]> ∅))).

Definition cpy_euclid_methods : gmap string Z :=
  <["centroid" := 3]> (<["median" := 4]> (<["ward" := 5]> ∅)).

Definition cpy_linkage_methods : gset string :=
  dom cpy_non_euclid_methods ∪ dom cpy_euclid_methods.

(** [scipy.zeros((r - 1, 4))] for a Python int [r]. *)
Definition zeros_rows_minus_one (r : Z) : Py ndarray :=
  if r - 1 <? 0 then raise (ValueError "negative dimensions are not allowed")
  else ret (zeros [Z.to_nat (r - 1); 4%nat]).

Definition linkage (W : extension) (L : library) (y method metric : pyobj)
    : Py ndarray :=
  match y with
  | PyArray ya =>
      let s := shape ya in
      match method with
      | PyStr method =>
          if negb (is_double ya)
          then raise (AttributeError "Incompatible data type. y must be a matrix of doubles.")
          else
          match s with
          | [s0] =>
              let d := ceil_sqrt (Z.of_nat s0 * 2) in
              if negb (d * (d - 1) / 2 =? Z.of_nat s0)
              then raise (AttributeError "Incompatible vector size. It must be a binomial coefficient.")
              else
                match cpy_non_euclid_methods !! method with
                | None => raise (AttributeError "Valid methods when the raw observations are omitted are 'single', 'complete', 'weighted', and 'average'.")
                | Some code =>
                    let* Zm := zeros_rows_minus_one d in
                    call_wrap W "linkage_wrap"
                      [y; PyArray Zm; PyInt d; PyInt code] Zm
                end
          | [n; m] =>
              if negb (bool_decide (method ∈ cpy_linkage_methods))
              then raise (AttributeError "Invalid method: %s")
              else
                match cpy_non_euclid_methods !! method with
                | Some code =>
                    let* dm := pdist W L y metric (PyInt 2) in
                    let* Zm := zeros_rows_minus_one (Z.of_nat n) in
                    call_wrap W "linkage_wrap"
                      [PyArray dm; PyArray Zm; PyInt (Z.of_nat n); PyInt code] Zm
                | None =>
                    match cpy_euclid_methods !! method with
                    | Some code =>
                        if negb (is_str metric "euclidean")
                        then
                          (* the message is formatted with the shape [s],
                             a pair, against a single [%s] *)
                          raise (TypeError "not all arguments converted during string formatting")
                        else
                          let* dm := pdist W L y metric (PyInt 2) in
                          let* Zm := zeros_rows_minus_one (Z.of_nat n) in
                          call_wrap W "linkage_euclid_wrap"
                            [PyArray dm; PyArray Zm; y; PyInt (Z.of_nat m);
                             PyInt (Z.of_nat n); PyInt code] Zm
                    | None => raise (UnboundLocalError "Z")
                    end
                end
          | _ => raise (UnboundLocalError "Z")
          end
      | _ => raise (AttributeError "Argument 'method' must be a string.")
      end
  | _ => raise (AttributeError "Incompatible data type. y must be an array.")
  end.

(** ** [totree] *)

(** [scipy.unique]: the sorted values, one of each (adjacent entries of the
    sorted array that compare unequal are kept).  NaNs sort last. *)
Definition sorts_before (x y : double) : bool :=
  if is_nan y then true else if is_nan x then false else SFleb x y.

Fixpoint insert_sorted (x : double) (l : list double) : list double :=
  match l with
  | [] => [x]
  | y :: l' => if sorts_before x y then x :: l else y :: insert_sorted x l'
  end.

Fixpoint keep_changes (prev : double) (l : list double) : list double :=
  match l with
  | [] => []
  | x :: l' => if fne x prev then x :: keep_changes x l' else keep_changes x l'
  end.

Definition unique (l : list double) : list double :=
  match fold_right insert_sorted [] l with
  | [] => []
  | x :: l' => x :: keep_changes x l'
  end.

(** [d[x]] for a double [x], and [d[k]] for an int [k]. *)
Definition dict_get_int (d : gmap Z cnode) (k : Z) : Py cnode :=
  match d !! k with
  | Some nd => ret nd
  | None => raise KeyError
  end.

Definition dict_get (d : gmap Z cnode) (x : double) : Py cnode :=
  match as_int x with
  | Some k => dict_get_int d k
  | None => raise KeyError
  end.

(** [int(x)] *)
Definition py_int (x : double) : Py Z :=
  match x with
  | S754_nan => raise (ValueError "cannot convert float NaN to integer")
  | S754_infinity _ => raise OverflowError
  | S754_zero _ => ret 0
  | S754_finite s m e =>
      ret (cond_Zopp s (if 0 <=? e then Zpos m * 2 ^ e else Zpos m / 2 ^ (- e)))
  end.

(** The call [cnode(id, left, right, dist, count)]. *)
Definition new_cnode (id : Z) (left right : option cnode) (dist count : Z)
    : Py cnode :=
  let nd := CNode id left right dist count in
  tell (ENode nd) ;;; ret nd.

(** [if d[..].count + d[..].count != nd.count: raise ...] *)
Definition count_check (a b nd : cnode) : Py unit :=
  if negb (cnode_count a + cnode_count b =? cnode_count nd)
  then raise (AttributeError "Corrupt matrix Z. The count Z[%d,3] is incorrect.")
  else ret tt.

(** The body of the second loop, for row [i]; the state is the dictionary
    [d] and the variable [nd]. *)
Definition totree_row (Zm : ndarray) (n : Z) (i : nat)
    (st : gmap Z cnode * option cnode) : Py (gmap Z cnode * option cnode) :=
  let d := fst st in
  let fi := get2 Zm i 0 in
  let fj := get2 Zm i 1 in
  if lt_int fi (Z.of_nat i + n)
  then raise (AttributeError "Corrupt matrix Z. Index to derivative cluster is used before it is formed. See row %d, column 0")
  else if lt_int fi (Z.of_nat i + n)
  then raise (AttributeError "Corrupt matrix Z. Index to derivative cluster is used before it is formed. See row %d, column 1")
  else
    let* l := dict_get d (get2 Zm i 0) in
    let* r := dict_get d (get2 Zm i 1) in
    let* nd := new_cnode (Z.of_nat i + n) (Some l) (Some r)
                 default_dist default_count in
    let* ki := py_int (get2 Zm i 0) in
    let* a := dict_get_int d ki in
    let* kj := py_int (get2 Zm i 1) in
    let* b := dict_get_int d kj in
    count_check a b nd ;;;
    ret (<[n + Z.of_nat i := nd]> d, Some nd).

(** The body of the first loop: [d[i] = cnode(i)]. *)
Definition leaves_body (i : nat) (d : gmap Z cnode) : Py (gmap Z cnode) :=
  let* nd := new_cnode (Z.of_nat i) None None default_dist default_count in
  ret (<[Z.of_nat i := nd]> d).

(** [Z[:, 0:2].reshape((2 * (n - 1),))] *)
Definition id_columns (Zm : ndarray) : list double :=
  flat_map (fun i => [get2 Zm i 0; get2 Zm i 1]) (seq 0 (nrows Zm)).

(** [totree(Z)]; the body never reads the second parameter [return_dict].
    The result is the value of [nd] at the [return]: [None] or a node. *)
Definition totree (Zo : pyobj) : Py (option cnode) :=
  match Zo with
  | PyArray Zm =>
      if negb (is_double Zm)
      then raise (AttributeError "Z must have double elements, not %s")
      else if negb (length (shape Zm) =? 2)%nat
      then raise (AttributeError "Z must be a matrix")
      else if negb (ncols Zm =? 4)%nat
      then raise (AttributeError "Z must be a (n-1) by 4 matrix")
      else
        let n := Z.of_nat (nrows Zm) + 1 in
        let d : gmap Z cnode := ∅ in
        let ids := id_columns Zm in
        let* c := truth (map (fun x => ne_int x (2 * (n - 1))) (unique ids)) in
        if c then raise (AttributeError "Corrupt matrix Z. Some clusters are more than once.")
        else if count_true (map (fun x => ge_int x (2 * n - 1)) ids) >? 0
        then raise (AttributeError "Corrupt matrix Z. Some cluster indices (first and second) are out of bounds.")
        else if count_true (map (fun x => lt_int x 0) ids) >? 0
        then raise (AttributeError "Corrupt matrix Z. Some cluster indices (first and second columns) are negative.")
        else
        let* c := truth (map (fun x => lt_int x 0) (column Zm 2)) in
        if c then raise (AttributeError "Corrupt matrix Z. Some distances (third column) are negative.")
        else
        let* c := truth (map (fun x => lt_int x 0) (column Zm 3)) in
        if c then raise (AttributeError "Counts (fourth column) are invalid.")
        else
        let* d := for_each (seq 0 (Z.to_nat n)) leaves_body d in
        let* st := for_each (seq 0 (Z.to_nat (n - 1))) (totree_row Zm n)
                     (d, None) in
        ret (snd st)
  | _ => raise (AttributeError "Z must be a numpy.ndarray")
  end.

(** The node [cnode(i)] of an original observation. *)
Definition leaf (i : Z) : cnode := CNode i None None default_dist default_count.

(** The exceptions raised at the head of the second loop of [totree], for
    column 0 and for column 1. *)
Definition used_before_formed (c : nat) : exn :=
  match c with
  | 0%nat => AttributeError "Corrupt matrix Z. Index to derivative cluster is used before it is formed. See row %d, column 0"
  | _ => AttributeError "Corrupt matrix Z. Index to derivative cluster is used before it is formed. See row %d, column 1"
  end.

(** The events of the first loop of [totree] on a matrix with [r] rows. *)
Definition leaves_built (r : nat) : list event :=
  map (fun i => ENode (leaf (Z.of_nat i))) (seq 0 (S r)).

(** A call of [totree] either raises before it has built a node, and then
    not with the error of the test at the head of the second loop, or it
    builds the leaves and nothing else: it then returns [None] or raises
    the [KeyError] of the dictionary. *)
Definition leaves_at_most (Zm : ndarray) (c : Py (option cnode)) : Prop :=
  (trace c = []
   /\ exists e, outcome c = inl e
        /\ e <> used_before_formed 0 /\ e <> used_before_formed 1)
  \/ (trace c = leaves_built (nrows Zm)
      /\ outcome c = match nrows Zm with
                     | O => inr None
                     | S _ => inl KeyError
                     end).

(** The linkage of two observations at distance 1, [[0, 1, 1, 2]]; the
    one-row matrix [[2, 2, 1, 2]], whose row refers twice to the cluster it
    forms; and a row [[5, 6, 7, 2]] with a dictionary that holds nodes 5
    and 6. *)
Definition linkage_example : ndarray :=
  mk_ndarray Float64 [1%nat; 4%nat] (map of_int [0; 1; 1; 2]).

Definition self_reference_example : ndarray :=
  mk_ndarray Float64 [1%nat; 4%nat] (map of_int [2; 2; 1; 2]).

Definition late_row_example : ndarray :=
  mk_ndarray Float64 [1%nat; 4%nat] (map of_int [5; 6; 7; 2]).

Definition two_leaves (a b : Z) : gmap Z cnode :=
  <[a := leaf a]> (<[b := leaf b]> ∅).

(** ** [cophenet] *)

(** [xs - xs.mean()] and [xs ** 2]. *)
Definition centered (xs : list double) : list double :=
  map (fun x => fsub x (vmean xs)) xs.

Definition squares (xs : list double) : list double :=
  map (fun x => fmul x x) xs.

(** [c = numerator.sum() / scipy.sqrt(denomA.sum() * denomB.sum())].  The
    argument of [scipy.sqrt] is a product of two sums of squares, which is
    never negative (lemma [product_of_sums_of_squares_not_negative]), so
    [scipy.sqrt] is the real square root here. *)
Definition correlation (Y zz : list double) : double :=
  let Yy := centered Y in
  let Zz := centered zz in
  let numerator := vmul Yy Zz in
  let denomA := squares Yy in
  let denomB := squares Zz in
  fdiv (vsum numerator) (fsqrt (fmul (vsum denomA) (vsum denomB))).

(** A zero, of either sign; a NaN or an infinity; a number that is a NaN
    or carries no minus sign. *)
Definition is_zero (x : double) : bool :=
  match x with S754_zero _ => true | _ => false end.

Definition not_finite (x : double) : Prop :=
  match x with S754_nan | S754_infinity _ => True | _ => False end.

Definition sign_clear (x : double) : Prop :=
  match x with
  | S754_nan => True
  | S754_zero s | S754_infinity s | S754_finite s _ _ => s = false
  end.

(** The linkage [[0, 1, 1, 2], [2, 3, 2, 3]] of three observations. *)
Definition three_point_linkage : ndarray :=
  mk_ndarray Float64 [2%nat; 4%nat] (map of_int [0; 1; 1; 2; 2; 3; 2; 3]).

Definition cophenet (W : extension) (args : list pyobj) : Py pyobj :=
  match args with
  | [] => raise (AttributeError "At least one argument must be passed to cophenet.")
  | PyArray Zm :: rest =>
      if negb (is_double Zm)
      then raise (AttributeError "First argument Z must be an array of doubles.")
      else if negb (length (shape Zm) =? 2)%nat
      then raise (AttributeError "First argument Z must be a 2-dimensional array.")
      else if negb (ncols Zm =? 4)%nat
      then raise (AttributeError "First argument Z must have exactly 4 columns.")
      else
        let n := Z.of_nat (nrows Zm) + 1 in
        let zz := zeros [choose2 (Z.to_nat n)] in
        let* zz := call_wrap W "cophenetic_distances_wrap"
                     [PyArray Zm; PyArray zz; PyInt n] zz in
        match rest with
        | [] => ret (PyArray zz)
        | PyArray Y :: rest' =>
            (* [type(Y) is not array_type] is false: the test of the dtype
               after [and] is not made *)
            match shape Y with
            | [Ys0] =>
                if negb (Z.of_nat Ys0 =? n * (n - 1) / 2)
                then raise (AttributeError "Incorrect size of Y. It must be a distance vector containing n*(n-1) elements.")
                else
                  let c := correlation (data Y) (data zz) in
                  match rest' with
                  | [] => ret (PyFloat c)
                  | [_] => ret (PyTuple [PyFloat c; PyArray zz])
                  | _ => ret PyNone
                  end
            | _ => raise (AttributeError "Second argument Y must be a 1-D array.")
            end
        | _ :: _ =>
            (* not an array: evaluating [Y.dtype] raises *)
            raise (AttributeError "object has no attribute 'dtype'")
        end
  | _ :: _ => raise (AttributeError "First argument Z must be an array of doubles.")
  end.

(** ** [randdm] *)

(** [randdm(pnts)] for a Python int [pnts].  [scipy.rand] is a function of
    the numeric library; it is called with the number of values to draw. *)
Definition randdm (L : library) (pnts : Z) : Py pyobj :=
  if 2 <=? pnts
  then call_lib L "rand" [PyInt (pnts * (pnts - 1) / 2)]
  else raise (AttributeError "The number of points in the distance matrix must be at least 2.").

(** [squareform(randdm(pnts))] *)
Definition squareform_of_randdm (W : extension) (L : library) (pnts : Z)
    : Py ndarray :=
  let* D := randdm L pnts in
  squareform W D "no" true.

(** ** [inconsistent], [is_valid_linkage], [is_valid_y], [is_valid_dm]

    The body of [inconsistent] is a docstring and the bodies of the three
    others are [pass]: each returns [None]. *)

Definition inconsistent (Zo d : pyobj) : Py pyobj := ret PyNone.
Definition is_valid_linkage (Zo : pyobj) : Py pyobj := ret PyNone.
Definition is_valid_y (y : pyobj) : Py pyobj := ret PyNone.
Definition is_valid_dm (D : pyobj) : Py pyobj := ret PyNone.

(** ** [from_mlab_linkage] and [to_mlab_linkage] *)

(** [a.min()] and [a.max()]: [minimum.reduce] and [maximum.reduce] from the
    first element on; a NaN, once met, stays.  An empty array has
    neither. *)
Definition fmin (x y : double) : double :=
  if SFltb x y || is_nan x then x else y.
Definition fmax (x y : double) : double :=
  if SFleb y x || is_nan x then x else y.

Definition array_min (u : list double) : Py double :=
  match u with
  | [] => raise (ValueError "zero-size array to reduction operation minimum which has no identity")
  | x :: u' => ret (fold_left fmin u' x)
  end.

Definition array_max (u : list double) : Py double :=
  match u with
  | [] => raise (ValueError "zero-size array to reduction operation maximum which has no identity")
  | x :: u' => ret (fold_left fmax u' x)
  end.

(** The elements under one index of the first axis: [a[i]], flattened. *)
Definition block_size (a : ndarray) : nat := size_of (tail (shape a)).

Definition block (a : ndarray) (i : nat) : list double :=
  take (block_size a) (drop (i * block_size a)%nat (data a)).

(** [a[:, lo:hi]] for an array of two or more dimensions; the bounds of a
    slice are clipped to the axis. *)
Definition slice_columns (a : ndarray) (lo hi : nat) : ndarray :=
  match shape a with
  | r :: c :: rest =>
      let w := size_of rest in
      let hi := Nat.min hi c in
      let lo := Nat.min lo hi in
      mk_ndarray (dtype_of a) (r :: (hi - lo)%nat :: rest)
        (flat_map (fun i => take ((hi - lo) * w) (drop (lo * w) (block a i)))
                  (seq 0 r))
  | _ => a
  end.

(** [a[:, j]] for an array of two or more dimensions and [j] below the
    length of the second axis (the module tests the length before it
    indexes). *)
Definition select_column (a : ndarray) (j : nat) : ndarray :=
  match shape a with
  | r :: c :: rest =>
      let w := size_of rest in
      mk_ndarray (dtype_of a) (r :: rest)
        (flat_map (fun i => take w (drop (j * w) (block a i))) (seq 0 r))
  | _ => a
  end.

(** [a.reshape(sh)] *)
Definition reshape (a : ndarray) (sh : list nat) : Py ndarray :=
  if (size_of sh =? size_of (shape a))%nat
  then ret (mk_ndarray (dtype_of a) sh (data a))
  else raise (ValueError "total size of new array must be unchanged").

(** [a + k] and [a - k] for a Python int [k]. *)
Definition add_int (a : ndarray) (k : Z) : ndarray :=
  mk_ndarray (dtype_of a) (shape a) (map (fun x => fadd x (of_int k)) (data a)).
Definition sub_int (a : ndarray) (k : Z) : ndarray :=
  mk_ndarray (dtype_of a) (shape a) (map (fun x => fsub x (of_int k)) (data a)).

(** [scipy.hstack(arrs)] is [concatenate(map(atleast_1d, arrs), 1)]: the
    arrays must have the same number of dimensions and agree on every axis
    but the second, along which they are put side by side (one-dimensional
    arrays are put end to end).  Every array this module stacks holds
    doubles, and so does the result. *)
Definition atleast_1d (a : ndarray) : ndarray :=
  match shape a with
  | [] => mk_ndarray (dtype_of a) [1%nat] (data a)
  | _ => a
  end.

Definition same_ndim (a b : ndarray) : bool :=
  (length (shape b) =? length (shape a))%nat.

Definition same_but_second_axis (a b : ndarray) : bool :=
  bool_decide (head (shape b) = head (shape a)
               /\ tail (tail (shape b)) = tail (tail (shape a))).

Definition hstack (arrs : list ndarray) : Py ndarray :=
  match map atleast_1d arrs with
  | [] => raise (ValueError "need at least one array to concatenate")
  | a :: rest =>
      if negb (forallb (same_ndim a) rest)
      then raise (ValueError "arrays must have same number of dimensions")
      else
        match shape a with
        | r :: c :: sh =>
            if negb (forallb (same_but_second_axis a) rest)
            then raise (ValueError "array dimensions must agree except for d_0")
            else
              let columns := fold_right Nat.add 0%nat
                               (map (fun b => nth 1 (shape b) 0%nat) (a :: rest)) in
              ret (mk_ndarray Float64 (r :: columns :: sh)
                     (flat_map (fun i => flat_map (fun b => block b i) (a :: rest))
                               (seq 0 r)))
        | _ =>
            ret (vector (flat_map data (a :: rest)))
        end
  end.

(** The attribute [fn] of [_cluster_wrap] is looked up before the arguments
    of the call are evaluated. *)
Definition getattr_wrap (W : extension) (fn : string) : Py unit :=
  match W !! fn with
  | None => raise (AttributeError "'module' object has no attribute")
  | Some _ => ret tt
  end.

(** [Zpart.min() != 1.0 and Zpart.max() != 2 * Zs[0]]; the maximum is
    taken only when the minimum is not 1. *)
Definition not_one_to_n (ids : list double) (r : nat) : Py bool :=
  let* lo := array_min ids in
  if fne lo (of_int 1)
  then let* hi := array_max ids in ret (ne_int hi (2 * Z.of_nat r))
  else ret false.

Definition from_mlab_linkage (W : extension) (Zo : pyobj) : Py ndarray :=
  match Zo with
  | PyArray Zm =>
      if negb (is_double Zm)
      then raise (AttributeError "First argument Z must contain doubles.")
      else
        match shape Zm with
        | r :: c :: _ =>
            if negb (c =? 3)%nat
            then raise (AttributeError "First argument Z must have 3 columns.")
            else if (r <? 1)%nat
            then raise (AttributeError "First argument Z must have at least one row.")
            else
              let Zpart := slice_columns Zm 0 2 in
              let* Zd := reshape (select_column Zm 2) [r; 1%nat] in
              let* bad := not_one_to_n (data Zpart) r in
              if bad
              then raise (AttributeError "The format of the indices is not 1..N")
              else
                let CS := zeros [r; 1%nat] in
                let Zpart := sub_int Zpart 1 in
                getattr_wrap W "calculate_cluster_sizes_wrap" ;;;
                let* H := hstack [Zpart; Zd] in
                let* CS := call_wrap W "calculate_cluster_sizes_wrap"
                             [PyArray H; PyArray CS; PyInt (Z.of_nat r + 1)] CS in
                hstack [Zpart; Zd; CS]
        | _ => raise (IndexError "tuple index out of range")
        end
  | _ => raise (AttributeError "First argument Z must be a two-dimensional array.")
  end.

Definition to_mlab_linkage (Zo : pyobj) : Py ndarray :=
  match Zo with
  | PyArray Zm =>
      if negb (is_double Zm)
      then raise (AttributeError "First argument Z must contain doubles.")
      else
        match shape Zm with
        | r :: c :: _ =>
            if negb (c =? 4)%nat
            then raise (AttributeError "First argument Z must have 4 columns.")
            else if (r <? 1)%nat
            then raise (AttributeError "First argument Z must have at least one row.")
            else hstack [add_int (slice_columns Zm 0 2) 1; select_column Zm 2]
        | _ => raise (IndexError "tuple index out of range")
        end
  | _ => raise (AttributeError "First argument Z must be a two-dimensional array.")
  end.

(** The MATLAB linkage [[1, 2, 0.5]] of two observations, and a one-row
    matrix whose ids 1 and 7 are not of the form 1..N. *)
Definition mlab_example : ndarray :=
  mk_ndarray Float64 [1%nat; 3%nat]
    [of_int 1; of_int 2; fdiv (of_int 1) (of_int 2)].

Definition mlab_odd_example : ndarray :=
  mk_ndarray Float64 [1%nat; 3%nat] (map of_int [1; 7; 3]).

(** * Properties *)

(** ** The monad *)

Section Monad.
Context {A B : Type}.

Lemma bind_ret_l (a : A) (k : A -> Py B) : bind (ret a) k = k a.
Proof. unfold bind, ret. destruct (k a); reflexivity. Qed.

Lemma bind_raise (e : exn) (k : A -> Py B) : bind (raise e) k = raise e.
Proof. reflexivity. Qed.

Lemma bind_returns (c : Py A) (k : A -> Py B) t a :
  c = (t, inr a) -> bind c k = (t ++ trace (k a), outcome (k a)).
Proof. intros ->. unfold bind, trace, outcome. destruct (k a); reflexivity. Qed.

Lemma bind_fails (c : Py A) (k : A -> Py B) :
  fails c -> fails (bind c k).
Proof.
  intros [e He]. destruct c as [t [e'|a]]; simpl in He; [|discriminate].
  exists e'. reflexivity.
Qed.

Lemma raise_fails (e : exn) : fails (@raise A e).
Proof. exists e. reflexivity. Qed.
End Monad.

Lemma bind_tell {B} (ev : event) (k : unit -> Py B) :
  bind (tell ev) k = (ev :: trace (k tt), outcome (k tt)).
Proof. unfold bind, tell, trace, outcome. destruct (k tt); reflexivity. Qed.

(** ** Loops *)

Section Loops.
Context {A B S : Type}.

Lemma for_each_app (xs ys : list A) (body : A -> S -> Py S) (s : S) :
  for_each (xs ++ ys) body s
  = bind (for_each xs body s) (for_each ys body).
Proof.
  revert s. induction xs as [|x xs IH]; intros s; simpl.
  - destruct (for_each ys body s); reflexivity.
  - destruct (body x s) as [t [e|s']]; simpl; [reflexivity|].
    rewrite IH. destruct (for_each xs body s') as [t1 [e1|s1]]; simpl.
    + reflexivity.
    + destruct (for_each ys body s1). now rewrite app_assoc.
Qed.

Lemma for_each_ext (xs : list A) (body body' : A -> S -> Py S) (s : S) :
  (forall x s, body x s = body' x s) ->
  for_each xs body s = for_each xs body' s.
Proof.
  intros E. revert s. induction xs as [|x xs IH]; intros s; simpl;
    [reflexivity|].
  rewrite E. destruct (body' x s) as [t [e|s']]; simpl; [reflexivity|].
  now rewrite IH.
Qed.

Lemma for_each_map (h : B -> A) (ys : list B) (body : A -> S -> Py S) (s : S) :
  for_each (map h ys) body s = for_each ys (fun y => body (h y)) s.
Proof.
  revert s. induction ys as [|y ys IH]; intros s; simpl; [reflexivity|].
  destruct (body (h y) s) as [t [e|s']]; simpl; [reflexivity|].
  now rewrite IH.
Qed.

Lemma for_each_flat_map (h : B -> list A) (ys : list B)
    (body : A -> S -> Py S) (s : S) :
  for_each (flat_map h ys) body s
  = for_each ys (fun y => for_each (h y) body) s.
Proof.
  revert s. induction ys as [|y ys IH]; intros s; simpl; [reflexivity|].
  rewrite for_each_app.
  destruct (for_each (h y) body s) as [t [e|s']]; simpl; [reflexivity|].
  now rewrite IH.
Qed.
End Loops.

(** ** The canonical order of pairs *)

Lemma triangle_succ (a : Z) : (a + 1) * (a + 1 + 1) / 2 = a * (a + 1) / 2 + (a + 1).
Proof.
  replace ((a + 1) * (a + 1 + 1)) with (a * (a + 1) + (a + 1) * 2) by ring.
  now rewrite Z.div_add.
Qed.

Lemma triangle_le (a : Z) : 0 <= a -> 0 <= a * (a + 1) / 2 <= a * a.
Proof.
  intros Ha. split.
  - apply Z.div_pos; nia.
  - apply Z.div_le_upper_bound; nia.
Qed.

Lemma pairs_from_lookup (m n a i j : nat) :
  (a <= i < a + n)%nat -> (i < j < m)%nat ->
  exists k : nat,
    Z.of_nat k = condensed_index m i j - condensed_index m a (a + 1)
    /\ flat_map (fun i => map (pair i) (seq (i + 1) (m - (i + 1)))) (seq a n) !! k
       = Some (i, j).
Proof.
  revert a. induction n as [|n IH]; intros a Hi Hj; [lia|].
  simpl. destruct (decide (i = a)) as [->|Hne].
  - exists (j - a - 1)%nat. split.
    + unfold condensed_index. lia.
    + rewrite lookup_app_l by (rewrite length_map, length_seq; lia).
      rewrite list_lookup_fmap, lookup_seq_lt by lia. simpl. do 2 f_equal. lia.
  - destruct (IH (S a)) as (k & Hk & Hlook); [lia|lia|].
    exists (m - (a + 1) + k)%nat. split.
    + rewrite Nat2Z.inj_add, Hk. unfold condensed_index.
      replace (Z.of_nat (S a)) with (Z.of_nat a + 1) by lia.
      replace (Z.of_nat (S a + 1)) with (Z.of_nat a + 1 + 1) by lia.
      replace (Z.of_nat (a + 1)) with (Z.of_nat a + 1) by lia.
      rewrite triangle_succ. lia.
    + rewrite lookup_app_r by (rewrite length_map, length_seq; lia).
      rewrite length_map, length_seq.
      replace (m - (a + 1) + k - (m - (a + 1)))%nat with k by lia.
      exact Hlook.
Qed.

Lemma pairs_lookup (m i j : nat) :
  (i < j < m)%nat ->
  pairs m !! Z.to_nat (condensed_index m i j) = Some (i, j).
Proof.
  intros H. destruct (pairs_from_lookup m (m - 1) 0 i j) as (k & Hk & Hlook);
    [lia|lia|].
  unfold pairs.
  replace (Z.to_nat (condensed_index m i j)) with k; [exact Hlook|].
  assert (E : condensed_index m 0 (0 + 1) = 0) by reflexivity.
  rewrite E in Hk. lia.
Qed.

Lemma elem_of_pairs (m i j : nat) : (i, j) ∈ pairs m <-> (i < j < m)%nat.
Proof.
  unfold pairs. rewrite list_elem_of_In, in_flat_map. split.
  - intros (a & Ha & Hin). apply in_seq in Ha.
    apply in_map_iff in Hin as (b & Heq & Hb). apply in_seq in Hb.
    inversion Heq; subst. lia.
  - intros H. exists i. split; [apply in_seq; lia|].
    apply in_map_iff. exists j. split; [reflexivity|apply in_seq; lia].
Qed.

Lemma NoDup_pairs (m : nat) : NoDup (pairs m).
Proof.
  enough (H : forall n a : nat,
            NoDup (flat_map (fun i => map (pair i) (seq (i + 1) (m - (i + 1))))
                     (seq a n))) by apply H.
  intros n. induction n as [|n IH]; intros a; simpl; [constructor|].
  apply NoDup_app. split; [|split].
  - apply NoDup_fmap_2; [|apply NoDup_seq]. intros x y Hxy. now inversion Hxy.
  - intros [x y] Hin Hin'. apply list_elem_of_fmap in Hin as (b & Heq & _).
    inversion Heq; subst.
    apply list_elem_of_In, in_flat_map in Hin' as (c & Hc & Hin').
    apply in_seq in Hc. apply in_map_iff in Hin' as (b' & Heq' & _).
    inversion Heq'. lia.
  - apply IH.
Qed.

Lemma length_pairs_from (m n a : nat) :
  (a + n <= m)%nat ->
  Z.of_nat (length (flat_map (fun i => map (pair i) (seq (i + 1) (m - (i + 1))))
                     (seq a n)))
  = Z.of_nat n * Z.of_nat m
    - (Z.of_nat (a + n) * (Z.of_nat (a + n) + 1) / 2
       - Z.of_nat a * (Z.of_nat a + 1) / 2).
Proof.
  revert a. induction n as [|n IH]; intros a H; simpl flat_map.
  - replace (a + 0)%nat with a by lia. simpl. lia.
  - rewrite length_app, length_map, length_seq, Nat2Z.inj_add, IH by lia.
    replace (Z.of_nat (S a + n)) with (Z.of_nat (a + S n)) by lia.
    replace (Z.of_nat (S a)) with (Z.of_nat a + 1) by lia.
    rewrite triangle_succ. lia.
Qed.

Lemma triangle_double (m : nat) :
  2 * (Z.of_nat m * (Z.of_nat m + 1) / 2) = Z.of_nat m * (Z.of_nat m + 1).
Proof.
  induction m as [|m IH]; [reflexivity|].
  replace (Z.of_nat (S m)) with (Z.of_nat m + 1) by lia.
  rewrite triangle_succ. lia.
Qed.

Lemma length_pairs (m : nat) : length (pairs m) = choose2 m.
Proof.
  unfold pairs, choose2. destruct m as [|m]; [reflexivity|].
  apply Nat2Z.inj. rewrite length_pairs_from by lia.
  replace (S m - 1)%nat with m by lia.
  replace (Z.of_nat (S m) - 1) with (Z.of_nat m) by lia.
  replace (Z.of_nat (0 + m)) with (Z.of_nat m) by lia.
  replace (Z.of_nat (S m) * Z.of_nat m)
    with (Z.of_nat m * (Z.of_nat m + 1)) by lia.
  rewrite Z2Nat.id by (apply Z.div_pos; nia).
  change (Z.of_nat 0 * (Z.of_nat 0 + 1) / 2) with 0.
  pose proof (triangle_double m). lia.
Qed.

(** ** [pdist] with a function metric *)

Lemma take_S_insert {A} (l : list A) (k : nat) (x : A) :
  (k < length l)%nat -> take (S k) (<[k := x]> l) = take k l ++ [x].
Proof.
  intros Hk.
  rewrite (take_S_r _ _ x) by (apply list_lookup_insert_eq; lia).
  now rewrite take_insert_ge by lia.
Qed.

Section PdistLoop.
Variable g : list double -> list double -> double.
Variable X : ndarray.

Lemma pdist_inner_loop (ps : list (nat * nat)) (k : nat) (dm : ndarray) :
  (k + length ps <= length (data dm))%nat ->
  for_each ps (fun p st =>
      tell (EMetric (row X (fst p)) (row X (snd p))) ;;;
      let* x := ret (g (row X (fst p)) (row X (snd p))) in
      let* dm' := setitem1 (snd st) (fst st) x in
      ret (S (fst st), dm')) (k, dm)
  = (map (fun p => EMetric (row X (fst p)) (row X (snd p))) ps,
     inr ((k + length ps)%nat,
          mk_ndarray (dtype_of dm) (shape dm)
            (take k (data dm)
             ++ map (fun p => g (row X (fst p)) (row X (snd p))) ps
             ++ drop (k + length ps) (data dm)))).
Proof.
  revert k dm. induction ps as [|p ps IH]; intros k dm Hlen; simpl.
  - unfold ret. rewrite Nat.add_0_r, take_drop. now destruct dm.
  - simpl in Hlen. unfold setitem1. simpl.
    destruct (Nat.ltb_spec k (length (data dm))) as [Hk|Hk]; [|lia].
    simpl. rewrite IH by (simpl; rewrite length_insert; lia). simpl.
    rewrite take_S_insert, drop_insert_lt, <- app_assoc by lia. simpl.
    now replace (k + S (length ps))%nat with (S (k + length ps)) by lia.
Qed.

Lemma pdist_loop_pure (m : nat) :
  pdist_loop (fun u v => ret (g u v)) X m (zeros [choose2 m])
  = (map (fun p => EMetric (row X (fst p)) (row X (snd p))) (pairs m),
     inr (mk_ndarray Float64 [choose2 m]
            (map (fun p => g (row X (fst p)) (row X (snd p))) (pairs m)))).
Proof.
  unfold pdist_loop.
  rewrite (for_each_ext _ _
             (fun i => for_each (map (pair i) (seq (i + 1) (m - (i + 1))))
                (fun p st =>
                   tell (EMetric (row X (fst p)) (row X (snd p))) ;;;
                   let* x := ret (g (row X (fst p)) (row X (snd p))) in
                   let* dm' := setitem1 (snd st) (fst st) x in
                   ret (S (fst st), dm'))))
    by (intros i st; now rewrite for_each_map).
  rewrite <- for_each_flat_map. fold (pairs m).
  rewrite pdist_inner_loop.
  - simpl. rewrite app_nil_r. do 3 f_equal.
    rewrite drop_ge, app_nil_r; [reflexivity|].
    rewrite repeat_length, length_pairs. simpl. lia.
  - simpl. rewrite repeat_length, length_pairs. simpl. lia.
Qed.
End PdistLoop.

Lemma StronglySorted_seq (a n : nat) : StronglySorted lt (seq a n).
Proof.
  revert a. induction n as [|n IH]; intros a; simpl; constructor.
  - apply IH.
  - apply Forall_forall. intros x Hx. apply list_elem_of_In, in_seq in Hx. lia.
Qed.

Lemma pairs_sorted (m : nat) : StronglySorted pair_before (pairs m).
Proof.
  enough (H : forall n a : nat,
            StronglySorted pair_before
              (flat_map (fun i => map (pair i) (seq (i + 1) (m - (i + 1))))
                 (seq a n))) by apply H.
  intros n. induction n as [|n IH]; intros a; simpl; [constructor|].
  apply StronglySorted_app_2.
  - intros [i j] [i' j'] Hin Hin'.
    apply list_elem_of_fmap in Hin as (b & Heq & _). inversion Heq; subst.
    apply list_elem_of_In, in_flat_map in Hin' as (c & Hc & Hin').
    apply in_seq in Hc. apply in_map_iff in Hin' as (b' & Heq' & _).
    inversion Heq'; subst. left. simpl. lia.
  - apply (StronglySorted_fmap _ lt); [|apply StronglySorted_seq].
    intros x y Hxy. right. simpl. split; [reflexivity|exact Hxy].
  - apply IH.
Qed.

(** C9: for an m-by-n matrix [X] and a function [f], [pdist(X, f)] calls [f]
    once for each pair of rows [(i, j)], [i < j], in the order of [i]
    ascending outer and [j] ascending inner, and the value returned for
    [(i, j)] is the entry of the result at the condensed index
    [i*m - i*(i+1)/2 + (j - i - 1)]. *)
Theorem pdist_function_metric_canonical
    (W : extension) (L : library) (dt : dtype) (m n : nat) (xs : list double)
    (g : list double -> list double -> double) (p : pyobj) :
  let X := mk_ndarray dt [m; n] xs in
  exists dm : list double,
    pdist W L (PyArray X) (PyFunction (fun u v => ret (g u v))) p
    = (map (fun ij => EMetric (row X (fst ij)) (row X (snd ij))) (pairs m),
       inr (mk_ndarray Float64 [choose2 m] dm))
    /\ length dm = choose2 m
    /\ NoDup (pairs m)
    /\ StronglySorted pair_before (pairs m)
    /\ (forall i j, (i, j) ∈ pairs m <-> (i < j < m)%nat)
    /\ (forall i j, (i < j < m)%nat ->
          pairs m !! Z.to_nat (condensed_index m i j) = Some (i, j)
          /\ dm !! Z.to_nat (condensed_index m i j)
             = Some (g (row X i) (row X j))).
Proof.
  intros X.
  exists (map (fun ij => g (row X (fst ij)) (row X (snd ij))) (pairs m)).
  split; [|split; [|split; [|split; [|split]]]].
  - unfold pdist. simpl. apply pdist_loop_pure.
  - now rewrite length_map, length_pairs.
  - apply NoDup_pairs.
  - apply pairs_sorted.
  - intros i j. apply elem_of_pairs.
  - intros i j H. split; [now apply pairs_lookup|].
    rewrite list_lookup_fmap, pairs_lookup by exact H. reflexivity.
Qed.

Lemma pdist_function_metric_canonical_witness :
  exists dm : list double,
    pdist ∅ ∅
      (PyArray (mk_ndarray Float64 [3%nat; 2%nat]
                  (map of_int [0; 0; 0; 1; 1; 0])))
      (PyFunction (fun u v => ret (hamming u v))) (PyInt 2)
    = ([EMetric (map of_int [0; 0]) (map of_int [0; 1]);
        EMetric (map of_int [0; 0]) (map of_int [1; 0]);
        EMetric (map of_int [0; 1]) (map of_int [1; 0])],
       inr (mk_ndarray Float64 [3%nat] dm))
    /\ dm !! 2%nat = Some (hamming (map of_int [0; 1]) (map of_int [1; 0])).
Proof.
  destruct (pdist_function_metric_canonical ∅ ∅ Float64 3 2
              (map of_int [0; 0; 0; 1; 1; 0]) hamming (PyInt 2))
    as (dm & Hrun & _ & _ & _ & _ & Hidx).
  exists dm. split; [exact Hrun|].
  exact (proj2 (Hidx 1%nat 2%nat ltac:(lia))).
Defined.

(** ** The failure modes of [pdist] *)

Lemma mem_str_app (s : string) (l1 l2 : list string) :
  mem_str s (l1 ++ l2) = mem_str s l1 || mem_str s l2.
Proof. apply existsb_app. Qed.

Lemma pdist_unknown_metric (W : extension) (L : library) (a : ndarray)
    (s : string) (p : pyobj) :
  length (shape a) = 2%nat -> recognized s = false ->
  pdist W L (PyArray a) (PyStr s) p = raise unknown_metric.
Proof.
  intros Hsh Hrec. unfold pdist. rewrite Hsh. simpl negb. cbv iota.
  unfold recognized, metric_names, exact_metric_names, mem_str in Hrec.
  simpl existsb in Hrec.
  repeat (apply orb_false_iff in Hrec as [? Hrec]).
  repeat match goal with
         | H : _ || _ = false |- _ => apply orb_false_iff in H as [? ?]
         end.
  unfold mem_str. simpl existsb.
  repeat match goal with
         | H : String.eqb _ _ = false |- _ => rewrite H; clear H
         end.
  reflexivity.
Qed.

Lemma pdist_loop_few_rows (f : list double -> list double -> Py double)
    (X : ndarray) (m : nat) (dm : ndarray) :
  (m < 2)%nat -> pdist_loop f X m dm = ret dm.
Proof.
  intros Hm. unfold pdist_loop.
  replace (m - 1)%nat with 0%nat by lia. reflexivity.
Qed.

Lemma pdist_function_few_rows (dt : dtype) (m n : nat) (xs : list double)
    (f : list double -> list double -> Py double) :
  (m < 2)%nat ->
  pdist_function (PyArray (mk_ndarray dt [m; n] xs)) f = ret (zeros [0%nat]).
Proof.
  intros Hm. unfold pdist_function.
  cbn [shape length Nat.eqb negb nrows]. rewrite pdist_loop_few_rows by exact Hm.
  destruct m as [|[|m]]; [reflexivity|reflexivity|lia].
Qed.

(** C7, as amended: [pdist] raises, before doing anything else, when its
    first argument is not an array, when the array is not two-dimensional,
    when the metric is a string that names no known metric, and when the
    metric is neither a string nor a function; it makes no test on the
    number of rows, and for a matrix with fewer than two rows it returns
    the empty vector without calling a function, when the metric is a
    function and when it is one of ['test_euclidean'], ['test_cityblock'],
    ['test_minkowski'], ['test_cosine'], ['test_correlation'],
    ['test_hamming'], ['test_jaccard'] and ['test_chebyshev']. *)
Theorem pdist_failure_modes (W : extension) (L : library) (p : pyobj) :
  (forall X metric, (forall a, X <> PyArray a) ->
     pdist W L X metric p
     = raise (AttributeError "The parameter passed must be an array."))
  /\ (forall a metric, length (shape a) <> 2%nat ->
        pdist W L (PyArray a) metric p
        = raise (AttributeError "A matrix must be passed."))
  /\ (forall a s, length (shape a) = 2%nat -> recognized s = false ->
        pdist W L (PyArray a) (PyStr s) p = raise unknown_metric)
  /\ (forall a metric, length (shape a) = 2%nat ->
        (forall s, metric <> PyStr s) -> (forall f, metric <> PyFunction f) ->
        pdist W L (PyArray a) metric p
        = raise (AttributeError "2nd argument metric must be a string identifier or a function."))
  /\ (forall dt m n xs f, (m < 2)%nat ->
        pdist W L (PyArray (mk_ndarray dt [m; n] xs)) (PyFunction f) p
        = ret (zeros [0%nat]))
  /\ (forall dt m n xs s, (m < 2)%nat ->
        In s ["test_euclidean"; "test_cityblock"; "test_minkowski";
              "test_cosine"; "test_correlation"; "test_hamming";
              "test_jaccard"; "test_chebyshev"] ->
        pdist W L (PyArray (mk_ndarray dt [m; n] xs)) (PyStr s) p
        = ret (zeros [0%nat])).
Proof.
  split; [|split; [|split; [|split; [|split]]]].
  - intros X metric HX. destruct X; try reflexivity. now destruct (HX a).
  - intros a metric Hsh. unfold pdist.
    destruct (Nat.eqb_spec (length (shape a)) 2); [contradiction|reflexivity].
  - intros a s. apply pdist_unknown_metric.
  - intros a metric Hsh Hs Hf. unfold pdist. rewrite Hsh. simpl.
    destruct metric; try reflexivity; [now destruct (Hs s)|now destruct (Hf f)].
  - intros dt m n xs f Hm. unfold pdist.
    cbn [shape length Nat.eqb negb nrows]. cbv zeta.
    rewrite pdist_loop_few_rows by exact Hm.
    destruct m as [|[|m]]; [reflexivity|reflexivity|lia].
  - intros dt m n xs s Hm Hs. cbn [In] in Hs.
    repeat (destruct Hs as [<-|Hs];
            [exact (pdist_function_few_rows dt m n xs _ Hm)|]).
    contradiction.
Qed.

Lemma pdist_failure_modes_witness :
  pdist reference_wrap ∅ (PyInt 3) (PyStr "euclidean") (PyInt 2)
  = raise (AttributeError "The parameter passed must be an array.")
  /\ pdist reference_wrap ∅ (PyArray (vector [pzero])) (PyStr "euclidean") (PyInt 2)
     = raise (AttributeError "A matrix must be passed.")
  /\ pdist reference_wrap ∅ (PyArray (zeros [2%nat; 2%nat])) (PyStr "manhattan") (PyInt 2)
     = raise unknown_metric
  /\ pdist reference_wrap ∅ (PyArray (zeros [2%nat; 2%nat])) (PyInt 7) (PyInt 2)
     = raise (AttributeError "2nd argument metric must be a string identifier or a function.")
  /\ pdist reference_wrap ∅ (PyArray (mk_ndarray Float64 [1%nat; 2%nat] [pzero; pzero]))
       (PyFunction (fun u v => ret (hamming u v))) (PyInt 2)
     = ret (zeros [0%nat])
  /\ pdist reference_wrap ∅ (PyArray (mk_ndarray Float64 [1%nat; 2%nat] [pzero; pzero]))
       (PyStr "test_chebyshev") (PyInt 2)
     = ret (zeros [0%nat]).
Proof.
  destruct (pdist_failure_modes reference_wrap ∅ (PyInt 2))
    as (H1 & H2 & H3 & H4 & H5 & H6).
  split; [|split; [|split; [|split; [|split]]]].
  - apply H1. intros a. discriminate.
  - apply H2. simpl. lia.
  - apply H3; reflexivity.
  - apply H4; [reflexivity|intros s; discriminate|intros f; discriminate].
  - apply (H5 Float64 1%nat 2%nat [pzero; pzero]). lia.
  - apply (H6 Float64 1%nat 2%nat [pzero; pzero]); [lia|].
    cbn [In]. do 7 right. left. reflexivity.
Defined.

(** C7 as stated fails: a matrix with a single row is accepted, by a
    function metric and by a named one, and the empty vector is returned. *)
Lemma pdist_single_row_returns :
  pdist reference_wrap ∅
    (PyArray (mk_ndarray Float64 [1%nat; 2%nat] [of_int 1; of_int 2]))
    (PyFunction lambda_test_hamming) (PyInt 2)
  = ret (zeros [0%nat])
  /\ pdist reference_wrap ∅
       (PyArray (mk_ndarray Float64 [1%nat; 2%nat] [of_int 1; of_int 2]))
       (PyStr "test_euclidean") (PyInt 2)
     = ret (zeros [0%nat])
  /\ pdist reference_wrap ∅ (PyArray (mk_ndarray Float64 [0%nat; 2%nat] []))
       (PyStr "test_cityblock") (PyInt 2)
     = ret (zeros [0%nat]).
Proof. repeat split; vm_compute; reflexivity. Qed.

(** ** [pdist(X, 'jaccard')] *)

(** C1: on a double matrix the [jaccard] branch makes the very call of the
    [hamming] branch, so that [pdist(X, 'jaccard')] is the Hamming distance;
    on the rows (1, 0) and (0, 0) that is 1/2, where the stated quotient is
    1/1 and the module's own [test_jaccard] gives 1. *)
Theorem pdist_jaccard_runs_hamming_kernel :
  (forall (W : extension) (L : library) sh xs p,
     pdist W L (PyArray (mk_ndarray Float64 sh xs)) (PyStr "jaccard") p
     = pdist W L (PyArray (mk_ndarray Float64 sh xs)) (PyStr "hamming") p)
  /\ pdist reference_wrap ∅ (PyArray jaccard_example) (PyStr "jaccard") (PyInt 2)
     = ([ECall "pdist_hamming_wrap"],
        inr (vector [fdiv (of_int 1) (of_int 2)]))
  /\ jaccard (row jaccard_example 0) (row jaccard_example 1) = of_int 1
  /\ outcome (pdist reference_wrap ∅ (PyArray jaccard_example)
                (PyStr "test_jaccard") (PyInt 2))
     = inr (vector [of_int 1]).
Proof.
  split; [|repeat split; vm_compute; reflexivity].
  intros W L sh xs p. unfold pdist. simpl.
  destruct (negb (length sh =? 2)%nat); reflexivity.
Qed.

(** ** Doubles and ints *)

Lemma cond_Zopp_mul (s : bool) (a b : Z) :
  cond_Zopp s (a * b) = cond_Zopp s a * b.
Proof. destruct s; simpl; ring. Qed.

(** A double that is equal to the int [k] compares with an int as [k]
    does. *)
Lemma cmp_int_as_int (x : double) (k z : Z) :
  as_int x = Some k -> cmp_int x z = Some (k ?= z).
Proof.
  destruct x as [s|s| |s m e]; simpl; try discriminate.
  - intros [= <-]. reflexivity.
  - destruct (Z.leb_spec 0 e) as [He|He].
    + intros [= <-]. now rewrite cond_Zopp_mul.
    + destruct (Z.eqb_spec (Z.pos m mod 2 ^ (- e)) 0) as [Hm|Hm];
        [|discriminate].
      intros [= <-]. f_equal.
      assert (Hp : 0 < 2 ^ (- e)) by (apply Z.pow_pos_nonneg; lia).
      assert (Hd : Z.pos m = Z.pos m / 2 ^ (- e) * 2 ^ (- e)).
      { rewrite (Z.div_mod (Z.pos m) (2 ^ (- e))) at 1 by lia. lia. }
      rewrite Hd at 1. rewrite cond_Zopp_mul.
      symmetry. apply Zmult_compare_compat_r. lia.
Qed.

Lemma lt_int_as_int (x : double) (k z : Z) :
  as_int x = Some k -> lt_int x z = (k <? z).
Proof.
  intros H. unfold lt_int. rewrite (cmp_int_as_int _ _ _ H).
  unfold Z.ltb. now destruct (k ?= z).
Qed.

Lemma feq_true_cases (a b : double) :
  feq a b = true ->
  (is_zero a = true /\ is_zero b = true) \/ (a = b /\ is_nan a = false).
Proof.
  unfold feq, SFeqb.
  destruct a as [sa|sa| |sa ma ea], b as [sb|sb| |sb mb eb]; simpl;
    try discriminate; try (now left);
    try (destruct sa, sb; discriminate).
  - destruct sa, sb; try discriminate; intros _; right; split; reflexivity.
  - destruct sa, sb; try discriminate;
      destruct (Z.compare_spec ea eb) as [->| |]; try discriminate;
      destruct (Pos.compare_cont Eq ma mb) eqn:E; try discriminate;
      apply Pcompare_Eq_eq in E as ->; intros _; right; split; reflexivity.
Qed.

(** ** [totree] *)

Lemma fails_bind_returns {A B} (c : Py A) (k : A -> Py B) t a :
  c = (t, inr a) -> fails (k a) -> fails (bind c k).
Proof.
  intros -> [e He]. exists e. unfold bind, outcome in *.
  destruct (k a); simpl in *. exact He.
Qed.

Lemma trace_bind {A B} (c : Py A) (k : A -> Py B) :
  trace (bind c k)
  = trace c ++ match outcome c with inr a => trace (k a) | inl _ => [] end.
Proof.
  destruct c as [t [e|a]]; simpl.
  - now rewrite app_nil_r.
  - unfold trace. simpl. now destruct (k a).
Qed.

Lemma outcome_bind {A B} (c : Py A) (k : A -> Py B) :
  outcome (bind c k)
  = match outcome c with inr a => outcome (k a) | inl e => inl e end.
Proof.
  destruct c as [t [e|a]]; simpl; [reflexivity|].
  unfold outcome. simpl. now destruct (k a).
Qed.

(** The first loop: one leaf for each observation. *)
Lemma build_leaves (l : list nat) (d : gmap Z cnode) :
  for_each l leaves_body d
  = (map (fun i => ENode (leaf (Z.of_nat i))) l,
     inr (foldl (fun d i => <[Z.of_nat i := leaf (Z.of_nat i)]> d) d l)).
Proof.
  revert d. induction l as [|i l IH]; intros d; simpl; [reflexivity|].
  now rewrite IH.
Qed.

Lemma leaves_lookup (l : list nat) (d : gmap Z cnode) (k : Z) (x : cnode) :
  foldl (fun d i => <[Z.of_nat i := leaf (Z.of_nat i)]> d) d l !! k = Some x ->
  d !! k = Some x \/ (exists i, i ∈ l /\ k = Z.of_nat i /\ x = leaf k).
Proof.
  revert d. induction l as [|i l IH]; intros d; simpl; [now left|].
  intros H. apply IH in H as [H|(j & Hj & -> & ->)].
  - destruct (decide (Z.of_nat i = k)) as [<-|Hne].
    + rewrite lookup_insert_eq in H. inversion H. right. exists i.
      split; [left|split; reflexivity].
    + rewrite lookup_insert_ne in H by exact Hne. now left.
  - right. exists j. split; [now right|split; reflexivity].
Qed.

(** The test at the head of the second loop, on a row whose first id is
    the integer [k]: the row is turned away when [k] is below [n + i], and
    otherwise the dictionary, which holds the ids below [n + i], has no
    entry for it. *)
Lemma totree_row_defined_id (Zm : ndarray) (n : Z) (i : nat)
    (d : gmap Z cnode) (nd0 : option cnode) (k : Z) :
  as_int (get2 Zm i 0) = Some k -> k < n + Z.of_nat i ->
  totree_row Zm n i (d, nd0)
  = raise (AttributeError "Corrupt matrix Z. Index to derivative cluster is used before it is formed. See row %d, column 0").
Proof.
  intros Hk Hlt. unfold totree_row.
  rewrite (lt_int_as_int _ _ _ Hk).
  destruct (Z.ltb_spec k (Z.of_nat i + n)); [reflexivity|lia].
Qed.

Lemma totree_row_forward_id (Zm : ndarray) (n : Z) (i : nat)
    (d : gmap Z cnode) (nd0 : option cnode) (k : Z) :
  as_int (get2 Zm i 0) = Some k -> n + Z.of_nat i <= k ->
  (forall k', is_Some (d !! k') -> k' < n + Z.of_nat i) ->
  totree_row Zm n i (d, nd0) = raise KeyError.
Proof.
  intros Hk Hge Hd. unfold totree_row.
  rewrite (lt_int_as_int _ _ _ Hk).
  destruct (Z.ltb_spec k (Z.of_nat i + n)); [lia|].
  unfold dict_get, dict_get_int. simpl fst. rewrite Hk.
  destruct (d !! k) as [x|] eqn:E; [|reflexivity].
  specialize (Hd k ltac:(rewrite E; eauto)). lia.
Qed.

Lemma totree_row_fails (Zm : ndarray) (n : Z) (i : nat)
    (d : gmap Z cnode) (nd0 : option cnode) :
  (forall k', is_Some (d !! k') -> k' < n + Z.of_nat i) ->
  fails (totree_row Zm n i (d, nd0)).
Proof.
  intros Hd. destruct (as_int (get2 Zm i 0)) as [k|] eqn:Hk.
  - destruct (Z.lt_ge_cases k (n + Z.of_nat i)).
    + rewrite (totree_row_defined_id _ _ _ _ _ k) by assumption.
      apply raise_fails.
    + rewrite (totree_row_forward_id _ _ _ _ _ k) by assumption.
      apply raise_fails.
  - unfold totree_row.
    destruct (lt_int (get2 Zm i 0) (Z.of_nat i + n)); [apply raise_fails|].
    unfold dict_get. rewrite Hk. apply raise_fails.
Qed.

Lemma fails_bind_truth {B} (bs : list bool) (k : bool -> Py B) :
  (forall c, fails (k c)) -> fails (bind (truth bs) k).
Proof.
  intros Hk. destruct bs as [|b [|b' bs]]; simpl truth.
  - rewrite bind_ret_l. apply Hk.
  - rewrite bind_ret_l. apply Hk.
  - apply raise_fails.
Qed.

(** Whatever the entries, [totree] raises on an array with at least one
    row. *)
Lemma totree_rows_fail (dt : dtype) (r c : nat) (xs : list double) :
  fails (totree (PyArray (mk_ndarray dt [S r; c] xs))).
Proof.
  unfold totree.
  destruct dt; try apply raise_fails.
  cbn [is_double dtype_of negb shape length Nat.eqb ncols nrows].
  destruct (c =? 4)%nat; [|apply raise_fails]. cbn [negb].
  set (Zm := mk_ndarray Float64 [S r; c] xs).
  set (n := Z.of_nat (S r) + 1).
  apply fails_bind_truth. intros [|]; [apply raise_fails|].
  destruct (_ >? 0); [apply raise_fails|].
  destruct (_ >? 0); [apply raise_fails|].
  apply fails_bind_truth. intros [|]; [apply raise_fails|].
  apply fails_bind_truth. intros [|]; [apply raise_fails|].
  rewrite build_leaves.
  eapply fails_bind_returns; [reflexivity|].
  apply bind_fails.
  replace (Z.to_nat (n - 1)) with (S r) by (unfold n; lia).
  cbn [seq for_each]. apply bind_fails. apply totree_row_fails.
  intros k [x Hx]. apply leaves_lookup in Hx as [Hx|(j & Hj & -> & _)].
  - now rewrite lookup_empty in Hx.
  - apply list_elem_of_In, in_seq in Hj. unfold n in *. lia.
Qed.

(** C2: the count test compares the counts of the two children with the
    count of a node built without one, so that it never reads [Z[i, 3]] and
    turns away every pair of nodes [totree] can hold; [totree] raises on
    every matrix with a row, the linkage [[0, 1, 1, 2]] of two observations
    included. *)
Theorem totree_count_test_ignores_Z :
  (forall ia la ra ib lb rb id l r,
     count_check (CNode ia la ra default_dist default_count)
                 (CNode ib lb rb default_dist default_count)
                 (CNode id l r default_dist default_count)
     = raise (AttributeError "Corrupt matrix Z. The count Z[%d,3] is incorrect."))
  /\ (forall dt r c xs, fails (totree (PyArray (mk_ndarray dt [S r; c] xs))))
  /\ totree (PyArray linkage_example)
     = raise (ValueError "The truth value of an array with more than one element is ambiguous. Use a.any() or a.all()")
  /\ totree_row late_row_example 2 0 (two_leaves 5 6, None)
     = ([ENode (CNode 2 (Some (leaf 5)) (Some (leaf 6)) 0 1)],
        inl (AttributeError "Corrupt matrix Z. The count Z[%d,3] is incorrect.")).
Proof.
  split; [|split; [|split]].
  - reflexivity.
  - apply totree_rows_fail.
  - vm_compute. reflexivity.
  - vm_compute. reflexivity.
Qed.

(** A row whose first id passes the test at the head of the loop finds no
    entry for it in a dictionary that holds the ids below [n + i]. *)
Lemma totree_row_passes_test (Zm : ndarray) (n : Z) (i : nat)
    (d : gmap Z cnode) (nd0 : option cnode) :
  lt_int (get2 Zm i 0) (Z.of_nat i + n) = false ->
  (forall k', is_Some (d !! k') -> k' < n + Z.of_nat i) ->
  totree_row Zm n i (d, nd0) = raise KeyError.
Proof.
  intros Hlt Hd. unfold totree_row. rewrite Hlt.
  unfold dict_get, dict_get_int. cbn [fst].
  destruct (as_int (get2 Zm i 0)) as [k|] eqn:Hk; [|reflexivity].
  rewrite (lt_int_as_int _ _ _ Hk) in Hlt. apply Z.ltb_ge in Hlt.
  destruct (d !! k) as [x|] eqn:E; [|reflexivity].
  specialize (Hd k ltac:(rewrite E; eauto)). lia.
Qed.

Lemma totree_row_fails_test (Zm : ndarray) (n : Z) (i : nat)
    (st : gmap Z cnode * option cnode) :
  lt_int (get2 Zm i 0) (Z.of_nat i + n) = true ->
  totree_row Zm n i st = raise (used_before_formed 0).
Proof. intros Hlt. unfold totree_row. now rewrite Hlt. Qed.

Lemma leaves_keys (m : nat) (k : Z) :
  is_Some (foldl (fun d i => <[Z.of_nat i := leaf (Z.of_nat i)]> d)
             (∅ : gmap Z cnode) (seq 0 m) !! k) ->
  k < Z.of_nat m.
Proof.
  intros [x Hx]. apply leaves_lookup in Hx as [Hx|(j & Hj & -> & _)].
  - now rewrite lookup_empty in Hx.
  - apply list_elem_of_In, in_seq in Hj. lia.
Qed.

(** The two loops of [totree] on a matrix with [r] rows: the [r + 1] leaves
    are built; with no row [None] is returned, and otherwise the first row
    raises, the error of the test at the head of the loop when its first
    id is below [n], and else the [KeyError] of the dictionary. *)
Lemma totree_loops (Zm : ndarray) (r : nat) :
  let n := Z.of_nat r + 1 in
  (let* d := for_each (seq 0 (Z.to_nat n)) leaves_body ∅ in
   let* st := for_each (seq 0 (Z.to_nat (n - 1))) (totree_row Zm n) (d, None) in
   ret (snd st))
  = (leaves_built r,
     match r with
     | O => inr None
     | S _ => inl (if lt_int (get2 Zm 0 0) n then used_before_formed 0
                   else KeyError)
     end).
Proof.
  intros n. unfold leaves_built. rewrite build_leaves.
  replace (Z.to_nat n) with (S r) by (unfold n; lia).
  replace (Z.to_nat (n - 1)) with r by (unfold n; lia).
  erewrite bind_returns by reflexivity.
  destruct r as [|r].
  - reflexivity.
  - cbn [seq for_each].
    destruct (lt_int (get2 Zm 0 0) n) eqn:Hlt.
    + rewrite totree_row_fails_test by exact Hlt.
      rewrite !bind_raise. cbn [trace outcome raise fst snd].
      now rewrite app_nil_r.
    + rewrite totree_row_passes_test.
      * rewrite !bind_raise. cbn [trace outcome raise fst snd].
        now rewrite app_nil_r.
      * exact Hlt.
      * intros k' Hk'. pose proof (leaves_keys (S (S r)) k' Hk'). lia.
Qed.

(** The test of line 223 on a matrix with one row: the unique ids are
    either two, or one that is compared with [2 * (n - 1)]. *)
Lemma unique_pair (a b x : double) (k : Z) :
  unique [a; b] = [x] -> ne_int x k = false -> lt_int a k = false.
Proof.
  unfold unique. cbn [fold_right insert_sorted].
  assert (Hne : forall y, ne_int y k = false -> lt_int y k = false).
  { intros y. unfold ne_int, lt_int. now destruct (cmp_int y k) as [[| |]|]. }
  destruct (sorts_before a b); cbn [keep_changes].
  - destruct (fne b a); intros [= <-]; apply Hne.
  - destruct (fne a b) eqn:E; intros [= <-]. intros Hb.
    unfold fne in E. apply negb_false_iff in E.
    apply feq_true_cases in E as [[Ha Hb']|[-> _]]; [|now apply Hne].
    destruct a, b; try discriminate. now apply Hne.
Qed.

Ltac raises_early :=
  left; split; [reflexivity|];
  eexists; split; [reflexivity|split; discriminate].

Lemma leaves_at_most_truth (Zm : ndarray) (bs : list bool)
    (k : bool -> Py (option cnode)) :
  (forall c, leaves_at_most Zm (k c)) -> leaves_at_most Zm (bind (truth bs) k).
Proof.
  intros Hk. destruct bs as [|b [|b' bs]]; cbn [truth].
  - rewrite bind_ret_l. apply Hk.
  - rewrite bind_ret_l. apply Hk.
  - raises_early.
Qed.

Lemma totree_runs (Zm : ndarray) : leaves_at_most Zm (totree (PyArray Zm)).
Proof.
  unfold totree.
  destruct (negb (is_double Zm)); [raises_early|].
  destruct (negb (length (shape Zm) =? 2)%nat); [raises_early|].
  destruct (negb (ncols Zm =? 4)%nat); [raises_early|].
  cbv zeta. rewrite (totree_loops Zm (nrows Zm)).
  unfold id_columns, column.
  destruct (nrows Zm) as [|[|r]] eqn:Hr.
  - cbn [seq flat_map map unique fold_right truth].
    rewrite bind_ret_l. change (count_true [] >? 0) with false. cbv iota.
    rewrite !bind_ret_l.
    right. rewrite Hr. split; reflexivity.
  - cbn [seq flat_map map app].
    destruct (unique [get2 Zm 0 0; get2 Zm 0 1]) as [|x [|x' us]] eqn:Hu;
      cbn [map truth].
    + unfold unique in Hu. cbn [fold_right insert_sorted] in Hu.
      destruct (sorts_before _ _); discriminate.
    + rewrite bind_ret_l. destruct (ne_int x _) eqn:Hx; [raises_early|].
      destruct (_ >? 0); [raises_early|].
      destruct (_ >? 0); [raises_early|].
      rewrite bind_ret_l. destruct (lt_int _ 0); [raises_early|].
      rewrite bind_ret_l. destruct (lt_int _ 0); [raises_early|].
      assert (Hlt : lt_int (get2 Zm 0 0) (Z.of_nat 1 + 1) = false)
        by exact (unique_pair _ _ _ _ Hu Hx).
      rewrite Hlt.
      right. rewrite Hr. split; reflexivity.
    + raises_early.
  - apply leaves_at_most_truth. intros c. destruct c; [raises_early|].
    destruct (_ >? 0); [raises_early|].
    destruct (_ >? 0); [raises_early|].
    cbn [seq map truth]. raises_early.
Qed.

(** C4: a matrix with a forward reference, a row [i] that has in column 0
    or 1 an id of [n + i] or more, which no earlier row has formed, makes
    [totree] fail.  And [totree] raises 'Index to derivative cluster is
    used before it is formed' for no argument at all, so for no matrix
    whose ids of [n] or more were all formed by an earlier row: the ids
    that the test of line 223 lets through are equal to [2n - 2], which is
    not below [n]. *)
Theorem totree_forward_reference :
  (forall Zm i c,
     let n := Z.of_nat (nrows Zm) + 1 in
     (i < nrows Zm)%nat -> (c < 2)%nat ->
     ge_int (get2 Zm i c) n = true ->
     (forall i', (i' < i)%nat ->
        ne_int (get2 Zm i c) (n + Z.of_nat i') = true) ->
     fails (totree (PyArray Zm)))
  /\ (forall Zo e c,
        outcome (totree Zo) = inl e -> e <> used_before_formed c).
Proof.
  split.
  - intros Zm i c n Hi _ _ _.
    destruct (totree_runs Zm) as [(_ & e & He & _)|[_ Ho]].
    + now exists e.
    + destruct (nrows Zm); [lia|]. now exists KeyError.
  - intros Zo e c H.
    assert (Hc : e <> used_before_formed 0 /\ e <> used_before_formed 1).
    { destruct Zo as [| | | | |Zm|];
        try (injection H as <-; split; discriminate).
      destruct (totree_runs Zm) as [(_ & e' & He & Hne)|[_ Ho]].
      - rewrite He in H. now injection H as <-.
      - rewrite Ho in H. destruct (nrows Zm); [discriminate|].
        injection H as <-. split; discriminate. }
    destruct c as [|c]; [apply Hc|]. destruct Hc as [_ Hc]. exact Hc.
Qed.

Lemma totree_forward_reference_witness :
  fails (totree (PyArray self_reference_example))
  /\ outcome (totree (PyArray linkage_example))
     = inl (ValueError "The truth value of an array with more than one element is ambiguous. Use a.any() or a.all()")
  /\ ValueError "The truth value of an array with more than one element is ambiguous. Use a.any() or a.all()"
     <> used_before_formed 0.
Proof.
  destruct totree_forward_reference as [H1 H2]. split; [|split].
  - apply (H1 self_reference_example 0%nat 0%nat);
      [vm_compute; lia|lia|reflexivity|intros i' Hi'; lia].
  - vm_compute. reflexivity.
  - apply (H2 (PyArray linkage_example)). vm_compute. reflexivity.
Defined.

(** C5: on [[2, 2, 1, 2]] (two observations; the id 2 is out of range and
    is used twice) the tests made before the loops let the matrix through,
    the two leaves are built, and only then does [totree] raise. *)
Theorem totree_builds_leaves_before_rejecting :
  totree (PyArray self_reference_example)
  = ([ENode (leaf 0); ENode (leaf 1)], inl KeyError)
  /\ nodes_built (trace (totree (PyArray self_reference_example)))
     = [leaf 0; leaf 1].
Proof. split; vm_compute; reflexivity. Qed.

(** ** [linkage] *)

Lemma is_str_false (o : pyobj) (s : string) :
  o <> PyStr s -> is_str o s = false.
Proof.
  intros H. destruct o; try reflexivity. simpl.
  apply String.eqb_neq. intros ->. now apply H.
Qed.

Lemma euclid_method_lookups (method : string) :
  method ∈ ["centroid"; "median"; "ward"] ->
  cpy_non_euclid_methods !! method = None
  /\ bool_decide (method ∈ cpy_linkage_methods) = true
  /\ exists code, cpy_euclid_methods !! method = Some code.
Proof.
  intros H. repeat (apply elem_of_cons in H as [->|H]);
    [| | |now apply elem_of_nil in H];
    (split; [vm_compute; reflexivity|split; [vm_compute; reflexivity|]]);
    eexists; vm_compute; reflexivity.
Qed.

(** C8: with the method [centroid], [median] or [ward], [linkage] raises on
    every one-dimensional array, and on every two-dimensional array when
    the metric is not the string 'euclidean'; in both cases nothing has
    been printed, computed by [pdist] or passed to the C extension. *)
Theorem linkage_euclid_methods_fail (W : extension) (L : library)
    (method : string) :
  method ∈ ["centroid"; "median"; "ward"] ->
  (forall dt s0 xs metric, exists e,
     linkage W L (PyArray (mk_ndarray dt [s0] xs)) (PyStr method) metric
     = raise e)
  /\ (forall dt n m xs metric, metric <> PyStr "euclidean" -> exists e,
        linkage W L (PyArray (mk_ndarray dt [n; m] xs)) (PyStr method) metric
        = raise e).
Proof.
  intros Hm. destruct (euclid_method_lookups method Hm) as (Hnon & Hall & code & He).
  split.
  - intros dt s0 xs metric. unfold linkage.
    destruct dt; cbn [is_double dtype_of negb shape]; try (eexists; reflexivity).
    destruct (negb _); [eexists; reflexivity|].
    rewrite Hnon. eexists; reflexivity.
  - intros dt n m xs metric Hmetric. unfold linkage.
    destruct dt; cbn [is_double dtype_of negb shape]; try (eexists; reflexivity).
    rewrite Hall, Hnon, He, (is_str_false _ _ Hmetric).
    eexists; reflexivity.
Qed.

Lemma linkage_euclid_methods_fail_witness :
  linkage reference_wrap ∅ (PyArray (vector [of_int 1])) (PyStr "ward")
    (PyStr "euclidean")
  = raise (AttributeError "Valid methods when the raw observations are omitted are 'single', 'complete', 'weighted', and 'average'.")
  /\ linkage reference_wrap ∅ (PyArray jaccard_example) (PyStr "centroid")
       (PyStr "cityblock")
     = raise (TypeError "not all arguments converted during string formatting").
Proof.
  split.
  - destruct (linkage_euclid_methods_fail reference_wrap ∅ "ward"
                ltac:(repeat constructor)) as [H _].
    destruct (H Float64 1%nat [of_int 1] (PyStr "euclidean")) as [e He].
    unfold vector. simpl length. rewrite He. vm_compute in He.
    inversion He. reflexivity.
  - destruct (linkage_euclid_methods_fail reference_wrap ∅ "centroid"
                ltac:(repeat constructor)) as [_ H].
    destruct (H Float64 2%nat 2%nat (map of_int [1; 0; 0; 0])
                (PyStr "cityblock") ltac:(discriminate)) as [e He].
    unfold jaccard_example. rewrite He. vm_compute in He.
    inversion He. reflexivity.
Defined.

(** ** [cophenet] *)

Lemma binary_round_aux_sign (mx ex : Z) (lx : location) :
  sign_clear (binary_round_aux 53 1024 false mx ex lx).
Proof.
  unfold binary_round_aux.
  destruct (shr_fexp 53 1024 mx ex lx) as [mrs e'].
  destruct (shr_fexp 53 1024 _ e' loc_Exact) as [mrs' e''].
  destruct (shr_m mrs'); simpl; [reflexivity| |exact I].
  destruct (e'' <=? 1024 - 53); reflexivity.
Qed.

Lemma binary_round_sign (mx : positive) (ex : Z) :
  sign_clear (binary_round 53 1024 false mx ex).
Proof.
  unfold binary_round. destruct (shl_align _ _ _). apply binary_round_aux_sign.
Qed.

Lemma fmul_sign_clear (x y : double) :
  sign_clear x -> sign_clear y -> sign_clear (fmul x y).
Proof.
  unfold fmul.
  destruct x as [sx|sx| |sx mx ex], y as [sy|sy| |sy my ey]; simpl;
    intros Hx Hy; subst; try reflexivity; try exact I.
  apply binary_round_aux_sign.
Qed.

Lemma square_sign_clear (x : double) : sign_clear (fmul x x).
Proof.
  unfold fmul. destruct x as [s|s| |s m e]; simpl; try exact I.
  - now destruct s.
  - now destruct s.
  - replace (xorb s s) with false by now destruct s.
    apply binary_round_aux_sign.
Qed.

Lemma fadd_sign_clear (x y : double) :
  sign_clear x -> sign_clear y -> sign_clear (fadd x y).
Proof.
  unfold fadd.
  destruct x as [sx|sx| |sx mx ex], y as [sy|sy| |sy my ey]; simpl;
    intros Hx Hy; subst; try reflexivity; try exact I.
  unfold binary_normalize. cbn [cond_Zopp Z.add]. apply binary_round_sign.
Qed.

Lemma vsum_sign_clear (xs : list double) :
  Forall sign_clear xs -> sign_clear (vsum xs).
Proof.
  unfold vsum. destruct xs as [|x xs]; [reflexivity|].
  intros H. inversion H as [|? ? Hx Hxs]; subst. clear H.
  revert x Hx. induction Hxs as [|y ys Hy Hys IH]; intros x Hx; simpl.
  - exact Hx.
  - apply IH. now apply fadd_sign_clear.
Qed.

Lemma sum_of_squares_sign_clear (xs : list double) :
  sign_clear (vsum (squares xs)).
Proof.
  apply vsum_sign_clear. unfold squares. apply Forall_map, Forall_forall.
  intros x _. apply square_sign_clear.
Qed.

Lemma sign_clear_not_negative (x : double) : sign_clear x -> lt_int x 0 = false.
Proof.
  unfold lt_int. destruct x as [s|s| |s m e]; simpl; intros H; subst;
    try reflexivity.
  cbn [cond_Zopp]. destruct (0 <=? e); [|reflexivity].
  assert (0 <= Z.pos m * 2 ^ e) as H.
  { apply Z.mul_nonneg_nonneg; [lia|apply Z.pow_nonneg; lia]. }
  destruct (Z.compare_spec (Z.pos m * 2 ^ e) 0); try reflexivity. lia.
Qed.

(** The argument of [scipy.sqrt] in [cophenet] is never negative. *)
Lemma product_of_sums_of_squares_not_negative (xs ys : list double) :
  lt_int (fmul (vsum (squares xs)) (vsum (squares ys))) 0 = false.
Proof.
  apply sign_clear_not_negative, fmul_sign_clear;
    apply sum_of_squares_sign_clear.
Qed.

(** With a zero sum of squares the quotient is a NaN or an infinity. *)
Lemma degenerate_quotient (num A B : double) :
  sign_clear A -> sign_clear B -> is_zero A = true \/ is_zero B = true ->
  not_finite (fdiv num (fsqrt (fmul A B))).
Proof.
  unfold fdiv, fsqrt, fmul. intros HA HB [H|H].
  - destruct A as [sa|sa| |sa ma ea]; try discriminate. simpl in HA. subst.
    destruct B as [sb|sb| |sb mb eb]; simpl in HB; subst; simpl;
      destruct num as [s|s| |s m e]; simpl; exact I.
  - destruct B as [sb|sb| |sb mb eb]; try discriminate. simpl in HB. subst.
    destruct A as [sa|sa| |sa ma ea]; simpl in HA; subst; simpl;
      destruct num as [s|s| |s m e]; simpl; exact I.
Qed.

Lemma call_wrap_found (W : extension) (fn : string)
    (f : list pyobj -> list double) (args : list pyobj) (out : ndarray) :
  W !! fn = Some f ->
  call_wrap W fn args out = ([ECall fn], inr (write_back out (f args))).
Proof. intros H. unfold call_wrap. now rewrite H. Qed.

(** C6, as amended: [cophenet(Z, Y)] raises when the length of the vector
    [Y] is not n(n-1)/2; for every other [Y] it returns the quotient
    [sum((Y - mean Y)(zz - mean zz)) / sqrt(sum((Y - mean Y)^2) * sum((zz - mean zz)^2))]
    of double arithmetic, and when one of the two sums of squares is zero
    that quotient is a NaN or an infinity, not an exception. *)
Theorem cophenet_correlation_outcomes (W : extension)
    (kernel : list pyobj -> list double) (r : nat) (zs : list double)
    (dtY : dtype) (ys : list double) :
  W !! "cophenetic_distances_wrap" = Some kernel ->
  let Zm := mk_ndarray Float64 [r; 4%nat] zs in
  let Y := mk_ndarray dtY [length ys] ys in
  let n := Z.of_nat r + 1 in
  let zz := write_back (zeros [choose2 (Z.to_nat n)])
              (kernel [PyArray Zm; PyArray (zeros [choose2 (Z.to_nat n)]);
                       PyInt n]) in
  (Z.of_nat (length ys) <> n * (n - 1) / 2 ->
     outcome (cophenet W [PyArray Zm; PyArray Y])
     = inl (AttributeError "Incorrect size of Y. It must be a distance vector containing n*(n-1) elements."))
  /\ (Z.of_nat (length ys) = n * (n - 1) / 2 ->
        outcome (cophenet W [PyArray Zm; PyArray Y])
        = inr (PyFloat (correlation ys (data zz)))
        /\ (is_zero (vsum (squares (centered ys))) = true
            \/ is_zero (vsum (squares (centered (data zz)))) = true ->
            not_finite (correlation ys (data zz)))).
Proof.
  intros HW Zm Y n zz. unfold cophenet.
  cbn [is_double dtype_of Zm negb shape length Nat.eqb ncols nrows].
  fold n. rewrite (call_wrap_found _ _ _ _ _ HW). fold Zm. fold zz.
  rewrite bind_returns with (t := [ECall "cophenetic_distances_wrap"]) (a := zz)
    by reflexivity.
  cbn [outcome snd shape Y]. split.
  - intros Hne. apply Z.eqb_neq in Hne. rewrite Hne. reflexivity.
  - intros Heq. apply Z.eqb_eq in Heq. rewrite Heq. split; [reflexivity|].
    apply degenerate_quotient; apply sum_of_squares_sign_clear.
Qed.

Lemma cophenet_correlation_outcomes_witness :
  outcome (cophenet reference_wrap
             [PyArray three_point_linkage; PyArray (vector (map of_int [1; 3]))])
  = inl (AttributeError "Incorrect size of Y. It must be a distance vector containing n*(n-1) elements.")
  /\ outcome (cophenet reference_wrap
                [PyArray three_point_linkage;
                 PyArray (vector (map of_int [1; 3; 2]))])
     = inr (PyFloat (correlation (map of_int [1; 3; 2]) (map of_int [1; 2; 2]))).
Proof.
  assert (HW : reference_wrap !! "cophenetic_distances_wrap"
               = Some cophenetic_distances) by (vm_compute; reflexivity).
  split.
  - pose proof (cophenet_correlation_outcomes reference_wrap
                  cophenetic_distances 2 (map of_int [0; 1; 1; 2; 2; 3; 2; 3])
                  Float64 (map of_int [1; 3]) HW) as H.
    cbv zeta in H. destruct H as [H _]. apply H. vm_compute. discriminate.
  - pose proof (cophenet_correlation_outcomes reference_wrap
                  cophenetic_distances 2 (map of_int [0; 1; 1; 2; 2; 3; 2; 3])
                  Float64 (map of_int [1; 3; 2]) HW) as H.
    cbv zeta in H. destruct H as [_ H].
    destruct (H ltac:(vm_compute; reflexivity)) as [Hout _].
    match type of Hout with
    | _ = inr (PyFloat (correlation _ ?zz)) =>
        replace zz with (map of_int [1; 2; 2]) in Hout
          by (vm_compute; reflexivity)
    end.
    exact Hout.
Defined.

(** C6 as stated fails: with a constant [Y] the sum of squares of [Y] is
    zero, and [cophenet] returns a NaN. *)
Lemma cophenet_zero_variance_returns :
  cophenet reference_wrap
    [PyArray three_point_linkage; PyArray (vector (map of_int [1; 1; 1]))]
  = ([ECall "cophenetic_distances_wrap"], inr (PyFloat S754_nan))
  /\ vsum (squares (centered (map of_int [1; 1; 1]))) = pzero.
Proof. split; vm_compute; reflexivity. Qed.

(** ** Tables *)

Section Table.
Context {B : Type}.

Lemma length_table (r c : nat) (f : nat -> nat -> B) :
  length (table r c f) = (r * c)%nat.
Proof.
  unfold table. rewrite (flat_map_constant_length (c := c)).
  - now rewrite length_seq.
  - intros i _. now rewrite length_map, length_seq.
Qed.

Lemma table_from_lookup (c : nat) (f : nat -> nat -> B) (n a i j : nat) :
  (a <= i < a + n)%nat -> (j < c)%nat ->
  flat_map (fun i => map (f i) (seq 0 c)) (seq a n) !! ((i - a) * c + j)%nat
  = Some (f i j).
Proof.
  revert a. induction n as [|n IH]; intros a Hi Hj; [lia|]. simpl.
  destruct (decide (i = a)) as [->|Hne].
  - rewrite Nat.sub_diag. simpl.
    rewrite lookup_app_l by (rewrite length_map, length_seq; lia).
    now rewrite list_lookup_fmap, lookup_seq_lt by lia.
  - rewrite lookup_app_r by (rewrite length_map, length_seq; nia).
    rewrite length_map, length_seq.
    replace ((i - a) * c + j - c)%nat with ((i - S a) * c + j)%nat by nia.
    apply IH; lia.
Qed.

Lemma lookup_table (r c : nat) (f : nat -> nat -> B) (i j : nat) :
  (i < r)%nat -> (j < c)%nat ->
  table r c f !! (i * c + j)%nat = Some (f i j).
Proof.
  intros Hi Hj. unfold table.
  rewrite <- (table_from_lookup c f r 0 i j) by lia.
  now rewrite Nat.sub_0_r.
Qed.

Lemma table_ext (r c : nat) (f f' : nat -> nat -> B) :
  (forall i j, (i < r)%nat -> (j < c)%nat -> f i j = f' i j) ->
  table r c f = table r c f'.
Proof.
  intros H. unfold table.
  assert (Hin : forall i, In i (seq 0 r) -> (i < r)%nat)
    by (intros i Hi; apply in_seq in Hi; lia).
  revert Hin. generalize (seq 0 r). intros l.
  induction l as [|i l IH]; intros Hin; simpl; [reflexivity|].
  rewrite IH by (intros i' Hi'; apply Hin; now right). f_equal.
  apply map_ext_in. intros j Hj. apply in_seq in Hj.
  apply H; [apply Hin; now left|lia].
Qed.

Lemma elem_of_table (r c : nat) (f : nat -> nat -> B) (x : B) :
  x ∈ table r c f ->
  exists i j, (i < r)%nat /\ (j < c)%nat /\ x = f i j.
Proof.
  unfold table. rewrite list_elem_of_In, in_flat_map.
  intros (i & Hi & Hin). apply in_seq in Hi.
  apply in_map_iff in Hin as (j & <- & Hj). apply in_seq in Hj.
  exists i, j. repeat split; lia.
Qed.
End Table.

Lemma zip_with_table {B C D} (g : B -> C -> D) (r c : nat)
    (f1 : nat -> nat -> B) (f2 : nat -> nat -> C) :
  zip_with g (table r c f1) (table r c f2)
  = table r c (fun i j => g (f1 i j) (f2 i j)).
Proof.
  unfold table. generalize 0%nat at 2 4 6. induction r as [|r IH]; intros a; simpl;
    [reflexivity|].
  rewrite zip_with_app by now rewrite !length_map.
  rewrite IH. f_equal.
  generalize (seq 0 c). intros l. induction l as [|j l IHl]; simpl;
    [reflexivity|now rewrite IHl].
Qed.

Lemma get2_mk2 (r c : nat) (f : nat -> nat -> double) (i j : nat) :
  (i < r)%nat -> (j < c)%nat -> get2 (mk2 r c f) i j = f i j.
Proof.
  intros Hi Hj. unfold get2, mk2. cbn [ncols shape data].
  apply nth_lookup_Some with (d := pzero). now apply lookup_table.
Qed.

Lemma mk2_ext (r c : nat) (f f' : nat -> nat -> double) :
  (forall i j, (i < r)%nat -> (j < c)%nat -> f i j = f' i j) ->
  mk2 r c f = mk2 r c f'.
Proof. intros H. unfold mk2. f_equal. now apply table_ext. Qed.

Lemma transpose_mk2 (r c : nat) (f : nat -> nat -> double) :
  transpose (mk2 r c f) = mk2 c r (fun i j => f j i).
Proof.
  unfold transpose. cbn [ncols nrows shape mk2].
  apply mk2_ext. intros i j Hi Hj. now apply get2_mk2.
Qed.

(** A well-formed two-dimensional array is the table of its entries. *)
Lemma data_table (a : ndarray) (r c : nat) :
  shape a = [r; c] -> well_formed a -> data a = table r c (get2 a).
Proof.
  intros Hsh Hwf. unfold well_formed in Hwf. rewrite Hsh in Hwf.
  simpl in Hwf. rewrite Nat.mul_1_r in Hwf.
  apply list_eq. intros k.
  destruct (Nat.lt_ge_cases k (r * c)) as [Hk|Hk].
  - assert (Hc : (0 < c)%nat) by nia.
    pose proof (Nat.div_mod_eq k c) as Hdm.
    pose proof (Nat.mod_upper_bound k c ltac:(lia)) as Hmod.
    assert (Hdiv : (k / c < r)%nat) by (apply Nat.Div0.div_lt_upper_bound; lia).
    rewrite Hdm at 2. rewrite (Nat.mul_comm c).
    rewrite lookup_table by assumption.
    unfold get2, ncols. rewrite Hsh.
    rewrite (Nat.mul_comm (k / c)), <- Hdm.
    destruct (nth_lookup_or_length (data a) k pzero) as [H|H];
      [exact H|lia].
  - rewrite !lookup_ge_None_2; [reflexivity| |lia].
    rewrite length_table. lia.
Qed.

(** ** Equality of doubles *)

Lemma feq_refl (x : double) : is_nan x = false -> feq x x = true.
Proof.
  unfold feq, SFeqb. destruct x as [s|s| |s m e]; simpl; try discriminate;
    intros _; try reflexivity.
  - now destruct s.
  - destruct s; rewrite Z.compare_refl, Pcompare_refl; reflexivity.
Qed.

Lemma feq_zeros (a b : double) :
  is_zero a = true -> is_zero b = true -> feq a b = true.
Proof. destruct a, b; try discriminate. reflexivity. Qed.

Lemma fadd_pzero_r (x : double) : x <> nzero -> fadd x pzero = x.
Proof.
  unfold fadd, pzero, nzero. destruct x as [[|]| | |]; simpl; intros H;
    try reflexivity. now destruct H.
Qed.

Lemma fadd_pzero_l_zero (x : double) :
  is_zero x = true -> fadd pzero x = pzero.
Proof. destruct x as [[|]| | |]; try discriminate; reflexivity. Qed.

Lemma fadd_pzero_r_zero (x : double) :
  is_zero x = true -> fadd x pzero = pzero.
Proof. destruct x as [[|]| | |]; try discriminate; reflexivity. Qed.

Lemma fadd_pzero_l_nonzero (x : double) :
  is_zero x = false -> fadd pzero x = x.
Proof. destruct x; try discriminate; reflexivity. Qed.

Lemma fadd_pzero_r_nonzero (x : double) :
  is_zero x = false -> fadd x pzero = x.
Proof. destruct x; try discriminate; reflexivity. Qed.

Lemma feq_fadd_pzero_r (x : double) :
  is_nan x = false -> feq (fadd x pzero) x = true.
Proof.
  intros H. destruct (is_zero x) eqn:E.
  - rewrite fadd_pzero_r_zero by exact E. now apply feq_zeros.
  - rewrite fadd_pzero_r_nonzero by exact E. now apply feq_refl.
Qed.

Lemma feq_fadd_pzero_swap (x : double) :
  is_nan x = false -> feq (fadd x pzero) (fadd pzero x) = true.
Proof.
  intros H. destruct (is_zero x) eqn:E.
  - rewrite fadd_pzero_r_zero, fadd_pzero_l_zero by exact E. reflexivity.
  - rewrite fadd_pzero_r_nonzero, fadd_pzero_l_nonzero by exact E.
    now apply feq_refl.
Qed.

Lemma feq_fadd_pzero_swap' (x : double) :
  is_nan x = false -> feq (fadd pzero x) (fadd x pzero) = true.
Proof.
  intros H. destruct (is_zero x) eqn:E.
  - rewrite fadd_pzero_r_zero, fadd_pzero_l_zero by exact E. reflexivity.
  - rewrite fadd_pzero_r_nonzero, fadd_pzero_l_nonzero by exact E.
    now apply feq_refl.
Qed.

Lemma feq_fadd_pzero_l (a b : double) :
  feq a b = true -> feq (fadd pzero b) a = true.
Proof.
  intros H. apply feq_true_cases in H as [[Ha Hb]|[<- Hn]].
  - rewrite fadd_pzero_l_zero by exact Hb. now apply feq_zeros.
  - destruct (is_zero a) eqn:E.
    + rewrite fadd_pzero_l_zero by exact E. now apply feq_zeros.
    + rewrite fadd_pzero_l_nonzero by exact E. now apply feq_refl.
Qed.

Lemma ne_int_zero (x : double) : ne_int x 0 = false -> is_zero x = true.
Proof.
  unfold ne_int. destruct x as [s|s| |s m e]; simpl; try reflexivity.
  - now destruct s.
  - discriminate.
  - destruct (0 <=? e) eqn:He.
    + apply Z.leb_le in He.
      assert (0 < 2 ^ e) by (apply Z.pow_pos_nonneg; lia).
      destruct (Z.compare_spec (cond_Zopp s (Z.pos m) * 2 ^ e) 0) as [H0| |];
        try discriminate.
      destruct s; simpl in H0; nia.
    + rewrite Z.mul_0_l. destruct s; simpl; discriminate.
Qed.

(** ** The dimension [squareform] computes from a length *)

Lemma choose2_double (d : nat) :
  Z.of_nat (choose2 d) * 2 = Z.of_nat d * (Z.of_nat d - 1).
Proof.
  unfold choose2. destruct d as [|d]; [reflexivity|].
  replace (Z.of_nat (S d) - 1) with (Z.of_nat d) by lia.
  replace (Z.of_nat (S d) * Z.of_nat d)
    with (Z.of_nat d * (Z.of_nat d + 1)) by lia.
  rewrite Z2Nat.id by (apply Z.div_pos; nia).
  pose proof (triangle_double d). lia.
Qed.

Lemma ceil_sqrt_choose2 (d : nat) :
  (2 <= d)%nat -> ceil_sqrt (Z.of_nat (choose2 d) * 2) = Z.of_nat d.
Proof.
  intros Hd. rewrite choose2_double. unfold ceil_sqrt.
  assert (Hs : Z.sqrt (Z.of_nat d * (Z.of_nat d - 1)) = Z.of_nat d - 1)
    by (apply Z.sqrt_unique; nia).
  rewrite Hs.
  destruct (Z.eqb_spec ((Z.of_nat d - 1) * (Z.of_nat d - 1))
              (Z.of_nat d * (Z.of_nat d - 1))); nia.
Qed.

Lemma choose2_small (d : nat) : (d <= 1)%nat -> choose2 d = 0%nat.
Proof. intros H. destruct d as [|[|d]]; [reflexivity|reflexivity|lia]. Qed.

Lemma found_dimension_spec (d : nat) :
  ceil_sqrt (Z.of_nat (choose2 d) * 2) = Z.of_nat (found_dimension d)
  /\ choose2 (found_dimension d) = choose2 d.
Proof.
  unfold found_dimension. destruct (Nat.leb_spec d 1) as [H|H].
  - rewrite choose2_small by exact H. split; reflexivity.
  - split; [apply ceil_sqrt_choose2; lia|reflexivity].
Qed.

Lemma count_true_all (bs : list bool) :
  Forall (fun b => b = true) bs -> count_true bs = Z.of_nat (length bs).
Proof.
  intros H. unfold count_true. f_equal.
  induction H as [|b bs Hb Hbs IH]; [reflexivity|].
  rewrite filter_cons_True by exact Hb. simpl. now rewrite IH.
Qed.

(** ** [squareform] *)

Lemma write_back_full (out : ndarray) (new : list double) :
  length new = length (data out) ->
  write_back out new = mk_ndarray (dtype_of out) (shape out) new.
Proof.
  intros H. unfold write_back. f_equal.
  rewrite <- H, drop_ge, app_nil_r by lia. apply firstn_all.
Qed.

Lemma get2_zeros (r c i j : nat) : get2 (zeros [r; c]) i j = pzero.
Proof. unfold get2, zeros. cbn [data]. apply nth_repeat. Qed.

Lemma squareform_of_vector (W : extension) (v : list double) (d : nat) :
  W !! "to_squareform_from_vector_wrap" = Some to_squareform_from_vector ->
  ceil_sqrt (Z.of_nat (length v) * 2) = Z.of_nat d ->
  choose2 d = length v ->
  squareform W (PyArray (vector v)) "no" true
  = ([EPrint [Z.of_nat d; Z.of_nat (length v)];
      ECall "to_squareform_from_vector_wrap"],
     inr (mk2 d d (fun i j => fadd (upper d v i j) (upper d v j i)))).
Proof.
  intros HW Hd Hlen. unfold squareform.
  cbn [vector is_double dtype_of negb shape length Nat.eqb nrows].
  change (String.eqb "no" "tomatrix") with false. cbn [negb andb].
  rewrite Hd.
  assert (Hcheck : (Z.of_nat d * (Z.of_nat d - 1) / 2 =? Z.of_nat (length v)) = true).
  { apply Z.eqb_eq. rewrite <- Hlen. unfold choose2.
    rewrite Z2Nat.id; [reflexivity|]. apply Z.div_pos; nia. }
  rewrite Hcheck. cbn [negb]. rewrite Nat2Z.id.
  rewrite bind_tell. rewrite (call_wrap_found _ _ _ _ _ HW).
  rewrite bind_returns
    with (t := [ECall "to_squareform_from_vector_wrap"])
         (a := mk2 d d (upper d v)).
  - unfold add_arrays, same_shape. rewrite transpose_mk2.
    cbn [mk2 shape data]. rewrite bool_decide_eq_true_2 by reflexivity.
    rewrite zip_with_table. reflexivity.
  - f_equal. f_equal. unfold to_squareform_from_vector.
    cbn [zeros nrows shape].
    rewrite write_back_full.
    + cbn [dtype_of shape mk2 data]. unfold mk2. f_equal.
      apply table_ext. intros i j _ _. unfold upper.
      destruct (i <? j)%nat; [reflexivity|].
      apply (get2_zeros d d i j).
    + cbn [mk2 data]. rewrite length_table. unfold zeros. cbn [data].
      rewrite repeat_length. simpl. lia.
Qed.

Lemma squareform_of_matrix (W : extension) (M : ndarray) (d : nat) :
  W !! "to_vector_from_squareform_wrap" = Some to_vector_from_squareform ->
  dtype_of M = Float64 -> shape M = [d; d] -> well_formed M ->
  (forall i j, (i < d)%nat -> (j < d)%nat ->
     feq (get2 M i j) (get2 M j i) = true) ->
  (forall i, (i < d)%nat -> ne_int (get2 M i i) 0 = false) ->
  squareform W (PyArray M) "no" true
  = ([ECall "to_vector_from_squareform_wrap"],
     inr (mk_ndarray Float64 [choose2 d]
            (map (fun p => get2 M (fst p) (snd p)) (pairs d)))).
Proof.
  intros HW Hdt Hsh Hwf Hsym Hdiag. unfold squareform.
  unfold is_double, nrows, ncols. rewrite Hdt, Hsh.
  cbn [negb length Nat.eqb andb].
  change (String.eqb (lower "no") "tomatrix") with false.
  change (String.eqb (lower "no") "tovector") with false.
  cbn [negb andb]. rewrite Nat.eqb_refl. cbn [negb].
  assert (Hcount : (count_true (zip_with feq (data M) (data (transpose M)))
                    =? Z.of_nat (size_of [d; d])) = true).
  { apply Z.eqb_eq. unfold transpose, nrows, ncols. rewrite Hsh.
    rewrite (data_table M d d Hsh Hwf) at 1. cbn [mk2 data].
    rewrite zip_with_table, count_true_all.
    - rewrite length_table. simpl. f_equal. lia.
    - apply Forall_forall. intros b Hb.
      apply elem_of_table in Hb as (i & j & Hi & Hj & ->). now apply Hsym. }
  rewrite Hcount. cbn [negb].
  assert (Hex : existsb (fun i => ne_int (get2 M i i) 0) (seq 0 d) = false).
  { destruct (existsb _ _) eqn:E; [|reflexivity].
    apply existsb_exists in E as (i & Hi & Hne). apply in_seq in Hi.
    rewrite Hdiag in Hne by lia. discriminate. }
  rewrite Hex. rewrite bind_ret_l.
  rewrite (call_wrap_found _ _ _ _ _ HW). f_equal. f_equal.
  unfold to_vector_from_squareform, nrows. rewrite Hsh.
  rewrite write_back_full; [reflexivity|].
  cbn [zeros data]. rewrite length_map, length_pairs, repeat_length.
  simpl. lia.
Qed.

(** The condensed indices of the pairs, in order, count up from 0. *)
Lemma pairs_lookup_index (d k : nat) (p : nat * nat) :
  pairs d !! k = Some p ->
  Z.to_nat (condensed_index d (fst p) (snd p)) = k.
Proof.
  intros Hk. destruct p as [i j].
  assert (Hij : (i < j < d)%nat).
  { apply elem_of_pairs, list_elem_of_lookup. eauto. }
  apply (NoDup_lookup (pairs d) _ _ (i, j)); [apply NoDup_pairs| |exact Hk].
  now apply pairs_lookup.
Qed.

Lemma read_back_vector (d : nat) (v : list double) (g : double -> double) :
  length v = choose2 d ->
  map (fun p => g (nth (Z.to_nat (condensed_index d (fst p) (snd p))) v pzero))
      (pairs d)
  = map g v.
Proof.
  intros Hlen. apply list_eq. intros k. rewrite !list_lookup_fmap.
  destruct (pairs d !! k) as [p|] eqn:Ep; simpl.
  - rewrite (pairs_lookup_index _ _ _ Ep).
    apply lookup_lt_Some in Ep. rewrite length_pairs in Ep.
    destruct (nth_lookup_or_length v k pzero) as [H|H]; [|lia].
    now rewrite H.
  - apply lookup_ge_None in Ep. rewrite length_pairs in Ep.
    rewrite lookup_ge_None_2 by lia. reflexivity.
Qed.

Lemma feq_not_nan (a b : double) : feq a b = true -> is_nan a = false.
Proof.
  intros H. apply feq_true_cases in H as [[Ha _]|[_ Hn]]; [|exact Hn].
  now destruct a.
Qed.

Lemma nth_not_nan (v : list double) (k : nat) :
  Forall (fun x => is_nan x = false) v -> is_nan (nth k v pzero) = false.
Proof.
  intros H. destruct (nth_lookup_or_length v k pzero) as [Hk|Hk].
  - eapply Forall_lookup_1 in H; [exact H|exact Hk].
  - now rewrite nth_overflow by lia.
Qed.

Lemma upper_above (d : nat) (v : list double) (i j : nat) :
  (i < j)%nat ->
  upper d v i j = nth (Z.to_nat (condensed_index d i j)) v pzero
  /\ upper d v j i = pzero.
Proof.
  intros H. unfold upper.
  destruct (Nat.ltb_spec i j); [|lia]. destruct (Nat.ltb_spec j i); [lia|].
  split; reflexivity.
Qed.

Lemma upper_diagonal (d : nat) (v : list double) (i : nat) :
  upper d v i i = pzero.
Proof. unfold upper. now rewrite Nat.ltb_irrefl. Qed.

Lemma upper_symmetric (d : nat) (v : list double) (i j : nat) :
  Forall (fun x => is_nan x = false) v ->
  feq (fadd (upper d v i j) (upper d v j i))
      (fadd (upper d v j i) (upper d v i j)) = true.
Proof.
  intros Hv. destruct (lt_eq_lt_dec i j) as [[H| ->]|H].
  - destruct (upper_above d v i j H) as [-> ->].
    apply feq_fadd_pzero_swap. now apply nth_not_nan.
  - rewrite upper_diagonal. reflexivity.
  - destruct (upper_above d v j i H) as [-> ->].
    apply feq_fadd_pzero_swap'. now apply nth_not_nan.
Qed.

Lemma well_formed_mk2 (r c : nat) (f : nat -> nat -> double) :
  well_formed (mk2 r c f).
Proof.
  unfold well_formed, mk2. cbn [data shape]. rewrite length_table.
  simpl. lia.
Qed.

Lemma found_dimension_other (d : nat) : d <> 1%nat -> found_dimension d = d.
Proof.
  intros H. unfold found_dimension. destruct (Nat.leb_spec d 1); lia.
Qed.

(** The vector, converted to a matrix and back. *)
Lemma squareform_vector_round_trip (W : extension) (v : list double) (d : nat) :
  W !! "to_squareform_from_vector_wrap" = Some to_squareform_from_vector ->
  W !! "to_vector_from_squareform_wrap" = Some to_vector_from_squareform ->
  length v = choose2 d -> Forall (fun x => is_nan x = false) v ->
  outcome (squareform_twice W (PyArray (vector v)))
  = inr (vector (map (fun x => fadd x pzero) v)).
Proof.
  intros HW1 HW2 Hlen Hv. unfold squareform_twice.
  destruct (found_dimension_spec d) as [Hd Hc]. rewrite <- Hlen in Hd.
  set (d' := found_dimension d) in *.
  assert (Hlen' : choose2 d' = length v) by lia.
  rewrite outcome_bind, (squareform_of_vector W v d' HW1 Hd Hlen').
  cbn [outcome snd].
  rewrite (squareform_of_matrix W _ d' HW2).
  - cbn [outcome snd]. f_equal. unfold vector.
    rewrite length_map, Hlen'. f_equal.
    rewrite <- (read_back_vector d' v (fun x => fadd x pzero)) by lia.
    apply map_ext_in. intros [i j] Hin.
    apply list_elem_of_In, elem_of_pairs in Hin. cbn [fst snd].
    rewrite get2_mk2 by lia.
    destruct (upper_above d' v i j) as [-> ->]; [lia|reflexivity].
  - reflexivity.
  - reflexivity.
  - apply well_formed_mk2.
  - intros i j Hi Hj. rewrite !get2_mk2 by lia. now apply upper_symmetric.
  - intros i Hi. rewrite get2_mk2 by lia. rewrite upper_diagonal. reflexivity.
Qed.

(** The matrix, converted to a vector and back. *)
Lemma squareform_matrix_round_trip (W : extension) (M : ndarray) (d : nat) :
  W !! "to_squareform_from_vector_wrap" = Some to_squareform_from_vector ->
  W !! "to_vector_from_squareform_wrap" = Some to_vector_from_squareform ->
  dtype_of M = Float64 -> shape M = [d; d] -> well_formed M -> d <> 1%nat ->
  (forall i j, (i < d)%nat -> (j < d)%nat ->
     feq (get2 M i j) (get2 M j i) = true) ->
  (forall i, (i < d)%nat -> ne_int (get2 M i i) 0 = false) ->
  exists M',
    outcome (squareform_twice W (PyArray M)) = inr M'
    /\ dtype_of M' = Float64 /\ shape M' = [d; d] /\ well_formed M'
    /\ forall i j, (i < d)%nat -> (j < d)%nat ->
         feq (get2 M' i j) (get2 M i j) = true.
Proof.
  intros HW1 HW2 Hdt Hsh Hwf Hd Hsym Hdiag. unfold squareform_twice.
  set (vs := map (fun p => get2 M (fst p) (snd p)) (pairs d)).
  assert (Hlen : length vs = choose2 d)
    by (unfold vs; now rewrite length_map, length_pairs).
  destruct (found_dimension_spec d) as [Hfd _].
  rewrite found_dimension_other, <- Hlen in Hfd by exact Hd.
  exists (mk2 d d (fun i j => fadd (upper d vs i j) (upper d vs j i))).
  split; [|split; [reflexivity|split; [reflexivity|split]]].
  - rewrite outcome_bind,
      (squareform_of_matrix W M d HW2 Hdt Hsh Hwf Hsym Hdiag).
    cbn [outcome snd]. fold vs. rewrite <- Hlen. fold (vector vs).
    now rewrite (squareform_of_vector W vs d HW1 Hfd (eq_sym Hlen)).
  - apply well_formed_mk2.
  - intros i j Hi Hj. rewrite get2_mk2 by lia.
    assert (Hread : forall a b, (a < b)%nat -> (b < d)%nat ->
              nth (Z.to_nat (condensed_index d a b)) vs pzero = get2 M a b).
    { intros a b Hab Hb. apply nth_lookup_Some with (d := pzero). unfold vs.
      rewrite list_lookup_fmap, pairs_lookup by lia. reflexivity. }
    destruct (lt_eq_lt_dec i j) as [[H| ->]|H].
    + destruct (upper_above d vs i j H) as [-> ->]. rewrite Hread by lia.
      apply feq_fadd_pzero_r. apply (feq_not_nan _ (get2 M j i)).
      now apply Hsym.
    + rewrite upper_diagonal. apply feq_zeros; [reflexivity|].
      now apply ne_int_zero, Hdiag.
    + destruct (upper_above d vs j i H) as [-> ->]. rewrite Hread by lia.
      apply feq_fadd_pzero_l. now apply Hsym.
Qed.

Lemma fadd_pzero_numerically (v : list double) :
  Forall (fun x => is_nan x = false) v ->
  Forall2 (fun a b => feq a b = true) (map (fun x => fadd x pzero) v) v.
Proof.
  intros H. induction H as [|x v Hx Hv IH]; simpl; constructor;
    [now apply feq_fadd_pzero_r|exact IH].
Qed.

Lemma fadd_pzero_identically (v : list double) :
  Forall (fun x => x <> nzero) v -> map (fun x => fadd x pzero) v = v.
Proof.
  intros H. induction H as [|x v Hx Hv IH]; simpl; [reflexivity|].
  now rewrite fadd_pzero_r, IH.
Qed.

(** C3, as amended: with the two copying kernels of the specification, a
    condensed vector of length d(d-1)/2 without NaN comes back from
    [squareform(squareform(v))] with each entry [x] replaced by [x + 0.0]:
    equal to [v] under [==], and identical to [v] when no entry is [-0.0];
    a symmetric, zero-diagonal d-by-d matrix with d other than 1 comes back
    as a d-by-d matrix equal to it under [==]. *)
Theorem squareform_round_trip (W : extension) :
  W !! "to_squareform_from_vector_wrap" = Some to_squareform_from_vector ->
  W !! "to_vector_from_squareform_wrap" = Some to_vector_from_squareform ->
  (forall (v : list double) (d : nat),
     length v = choose2 d -> Forall (fun x => is_nan x = false) v ->
     outcome (squareform_twice W (PyArray (vector v)))
     = inr (vector (map (fun x => fadd x pzero) v))
     /\ Forall2 (fun a b => feq a b = true) (map (fun x => fadd x pzero) v) v
     /\ (Forall (fun x => x <> nzero) v -> map (fun x => fadd x pzero) v = v))
  /\ (forall (M : ndarray) (d : nat),
        dtype_of M = Float64 -> shape M = [d; d] -> well_formed M ->
        d <> 1%nat ->
        (forall i j, (i < d)%nat -> (j < d)%nat ->
           feq (get2 M i j) (get2 M j i) = true) ->
        (forall i, (i < d)%nat -> ne_int (get2 M i i) 0 = false) ->
        exists M',
          outcome (squareform_twice W (PyArray M)) = inr M'
          /\ dtype_of M' = Float64 /\ shape M' = [d; d] /\ well_formed M'
          /\ forall i j, (i < d)%nat -> (j < d)%nat ->
               feq (get2 M' i j) (get2 M i j) = true).
Proof.
  intros HW1 HW2. split.
  - intros v d Hlen Hv. split; [|split].
    + now apply (squareform_vector_round_trip W v d).
    + now apply fadd_pzero_numerically.
    + apply fadd_pzero_identically.
  - intros M d. now apply squareform_matrix_round_trip.
Qed.

Lemma squareform_round_trip_witness :
  outcome (squareform_twice reference_wrap
             (PyArray (vector (map of_int [2; 3; 5]))))
  = inr (vector (map of_int [2; 3; 5]))
  /\ exists M',
       outcome (squareform_twice reference_wrap (PyArray distance_example))
       = inr M'
       /\ shape M' = [3%nat; 3%nat]
       /\ feq (get2 M' 1 2) (get2 distance_example 1 2) = true.
Proof.
  destruct (squareform_round_trip reference_wrap
              ltac:(vm_compute; reflexivity) ltac:(vm_compute; reflexivity))
    as [Hvec Hmat].
  split.
  - destruct (Hvec (map of_int [2; 3; 5]) 3%nat) as (Hout & _ & Hsame).
    + reflexivity.
    + repeat constructor.
    + rewrite Hout, Hsame; [reflexivity|].
      repeat constructor; intros H; vm_compute in H; discriminate.
  - destruct (Hmat distance_example 3%nat) as (M' & Hout & _ & Hsh & _ & Heq).
    + reflexivity.
    + reflexivity.
    + vm_compute. reflexivity.
    + discriminate.
    + intros i j Hi Hj.
      destruct i as [|[|[|i]]]; destruct j as [|[|[|j]]]; try lia;
        vm_compute; reflexivity.
    + intros i Hi. destruct i as [|[|[|i]]]; try lia; vm_compute; reflexivity.
    + exists M'. split; [exact Hout|split; [exact Hsh|]]. apply Heq; lia.
Defined.

(** C3 as stated fails: the entry [-0.0] of a vector comes back as [0.0],
    a vector with a NaN is turned away on the way back, and the matrix
    with the single entry 0 comes back with no entry at all. *)
Lemma squareform_round_trip_counterexamples :
  outcome (squareform_twice reference_wrap (PyArray (vector [nzero])))
  = inr (vector [pzero])
  /\ vector [pzero] <> vector [nzero]
  /\ outcome (squareform_twice reference_wrap (PyArray (vector [S754_nan])))
     = inl (AttributeError "The distance matrix must be symmetrical.")
  /\ outcome (squareform_twice reference_wrap
                (PyArray (mk_ndarray Float64 [1%nat; 1%nat] [pzero])))
     = inr (mk_ndarray Float64 [0%nat; 0%nat] []).
Proof.
  split; [vm_compute; reflexivity|].
  split; [discriminate|].
  split; vm_compute; reflexivity.
Qed.

(** ** The length of a condensed vector *)

Lemma ceil_sqrt_nonneg (k : Z) : 0 <= ceil_sqrt k.
Proof.
  unfold ceil_sqrt. pose proof (Z.sqrt_nonneg k).
  destruct (_ =? _); lia.
Qed.

(** The test [d * (d - 1) / 2 == s0] on the dimension found from the length
    [s0]: it holds for the lengths d(d-1)/2 ... *)
Lemma binomial_test_passes (d : nat) :
  (2 <= d)%nat ->
  ceil_sqrt (Z.of_nat (choose2 d) * 2) = Z.of_nat d
  /\ (Z.of_nat d * (Z.of_nat d - 1) / 2 =? Z.of_nat (choose2 d)) = true.
Proof.
  intros Hd. split; [now apply ceil_sqrt_choose2|].
  apply Z.eqb_eq. unfold choose2.
  rewrite Z2Nat.id; [reflexivity|]. apply Z.div_pos; nia.
Qed.

(** ... and for no other. *)
Lemma binomial_test_fails (s0 : nat) :
  (forall d : nat, choose2 d <> s0) ->
  let d := ceil_sqrt (Z.of_nat s0 * 2) in
  (d * (d - 1) / 2 =? Z.of_nat s0) = false.
Proof.
  intros H d. apply Z.eqb_neq. intros E.
  apply (H (Z.to_nat d)). unfold choose2.
  rewrite Z2Nat.id by apply ceil_sqrt_nonneg. fold d. rewrite E.
  apply Nat2Z.id.
Qed.

(** ** [linkage] on a condensed vector *)

(** X1: for a condensed vector of doubles of length d(d-1)/2, [d >= 2], and
    one of the methods [single], [complete], [average] and [weighted],
    [linkage] enters [linkage_wrap] once, with the vector, a (d-1)-by-4
    array of zeros, [d] and the code of the method, and returns that array,
    which is still (d-1)-by-4; it does not look at the metric. *)
Theorem linkage_condensed_vector (W : extension) (L : library)
    (kernel : list pyobj -> list double) (ys : list double) (d : nat)
    (method : string) (code : Z) (metric : pyobj) :
  W !! "linkage_wrap" = Some kernel ->
  cpy_non_euclid_methods !! method = Some code ->
  (2 <= d)%nat -> length ys = choose2 d ->
  let y := PyArray (vector ys) in
  let Z0 := zeros [(d - 1)%nat; 4%nat] in
  let Zm := write_back Z0
              (kernel [y; PyArray Z0; PyInt (Z.of_nat d); PyInt code]) in
  linkage W L y (PyStr method) metric = ([ECall "linkage_wrap"], inr Zm)
  /\ shape Zm = [(d - 1)%nat; 4%nat]
  /\ length (data Zm) = ((d - 1) * 4)%nat.
Proof.
  intros HW Hm Hd Hlen y Z0 Zm. split; [|split].
  - unfold linkage, y, vector.
    cbn [is_double dtype_of negb shape]. rewrite Hlen.
    destruct (binomial_test_passes d Hd) as [-> ->]. cbn [negb].
    rewrite Hm. unfold zeros_rows_minus_one.
    destruct (Z.ltb_spec (Z.of_nat d - 1) 0) as [?|_]; [lia|].
    rewrite bind_ret_l.
    replace (Z.to_nat (Z.of_nat d - 1)) with (d - 1)%nat by lia.
    rewrite <- Hlen. now apply call_wrap_found.
  - reflexivity.
  - unfold Zm, write_back. cbn [data]. rewrite length_take, length_app, length_drop.
    unfold Z0, zeros. cbn [data size_of fold_right].
    rewrite repeat_length. lia.
Qed.

Lemma linkage_condensed_vector_witness :
  linkage (<["linkage_wrap" := fun _ => map of_int [0; 1; 5; 2]]> ∅) ∅
    (PyArray (vector [of_int 5])) (PyStr "average") PyNone
  = ([ECall "linkage_wrap"],
     inr (mk_ndarray Float64 [1%nat; 4%nat] (map of_int [0; 1; 5; 2]))).
Proof.
  pose proof (linkage_condensed_vector
                (<["linkage_wrap" := fun _ => map of_int [0; 1; 5; 2]]> ∅) ∅
                (fun _ => map of_int [0; 1; 5; 2]) [of_int 5] 2 "average" 2
                PyNone ltac:(apply lookup_insert_eq) ltac:(vm_compute; reflexivity)
                ltac:(lia) ltac:(reflexivity)) as H.
  cbv zeta in H. destruct H as [H _]. exact H.
Defined.

(** X2: a vector of doubles whose length is no d(d-1)/2 is turned away by
    [linkage] with 'Incompatible vector size', before the method is looked
    at and before anything else is done; the empty vector passes that test
    (0 = 0 * (0 - 1) / 2) and fails when the array of -1 rows is
    allocated. *)
Theorem linkage_vector_size_test (W : extension) (L : library)
    (method : string) (metric : pyobj) :
  (forall ys : list double,
     (forall d : nat, choose2 d <> length ys) ->
     linkage W L (PyArray (vector ys)) (PyStr method) metric
     = raise (AttributeError "Incompatible vector size. It must be a binomial coefficient."))
  /\ (is_Some (cpy_non_euclid_methods !! method) ->
      linkage W L (PyArray (vector [])) (PyStr method) metric
      = raise (ValueError "negative dimensions are not allowed")).
Proof.
  split.
  - intros ys H. unfold linkage, vector. cbn [is_double dtype_of negb shape].
    now rewrite (binomial_test_fails _ H).
  - intros [code Hm]. unfold linkage, vector.
    cbn [is_double dtype_of negb shape length]. now rewrite Hm.
Qed.

Lemma linkage_vector_size_test_witness :
  linkage reference_wrap ∅ (PyArray (vector (map of_int [1; 2])))
    (PyStr "single") (PyStr "euclidean")
  = raise (AttributeError "Incompatible vector size. It must be a binomial coefficient.")
  /\ linkage reference_wrap ∅ (PyArray (vector [])) (PyStr "single")
       (PyStr "euclidean")
     = raise (ValueError "negative dimensions are not allowed").
Proof.
  destruct (linkage_vector_size_test reference_wrap ∅ "single"
              (PyStr "euclidean")) as [H1 H2].
  split.
  - apply (H1 (map of_int [1; 2])). intros d. cbn [length map].
    destruct d as [|[|[|[|d]]]]; try (vm_compute; lia).
    unfold choose2. intros E.
    assert (Z.of_nat (S (S (S (S d)))) * (Z.of_nat (S (S (S (S d)))) - 1) / 2
            >= 3) by (apply Z.le_ge, Z.div_le_lower_bound; nia).
    lia.
  - apply H2. eexists. vm_compute. reflexivity.
Defined.

(** ** [linkage] on an observation matrix *)

(** X3: on an n-by-m matrix of doubles, [n >= 1], with one of the methods
    [single], [complete], [average] and [weighted] and a function as the
    metric, [linkage] first calls the function on every pair of rows in the
    canonical order, then enters [linkage_wrap] once with the condensed
    vector of the values, an (n-1)-by-4 array of zeros, [n] and the code of
    the method, and returns that array. *)
Theorem linkage_observations_function_metric (W : extension) (L : library)
    (kernel : list pyobj -> list double) (n m : nat) (xs : list double)
    (g : list double -> list double -> double) (method : string) (code : Z) :
  W !! "linkage_wrap" = Some kernel ->
  cpy_non_euclid_methods !! method = Some code ->
  (1 <= n)%nat ->
  let X := mk_ndarray Float64 [n; m] xs in
  let dm := mk_ndarray Float64 [choose2 n]
              (map (fun p => g (row X (fst p)) (row X (snd p))) (pairs n)) in
  let Z0 := zeros [(n - 1)%nat; 4%nat] in
  linkage W L (PyArray X) (PyStr method) (PyFunction (fun u v => ret (g u v)))
  = (map (fun p => EMetric (row X (fst p)) (row X (snd p))) (pairs n)
     ++ [ECall "linkage_wrap"],
     inr (write_back Z0
            (kernel [PyArray dm; PyArray Z0; PyInt (Z.of_nat n); PyInt code]))).
Proof.
  intros HW Hm Hn X dm Z0.
  assert (Hin : bool_decide (method ∈ cpy_linkage_methods) = true).
  { apply bool_decide_eq_true. unfold cpy_linkage_methods.
    apply elem_of_union_l, elem_of_dom. eauto. }
  assert (Hdist : pdist W L (PyArray X) (PyFunction (fun u v => ret (g u v)))
                    (PyInt 2)
                  = (map (fun p => EMetric (row X (fst p)) (row X (snd p)))
                         (pairs n), inr dm)).
  { unfold pdist. cbn [shape length Nat.eqb negb nrows X].
    apply pdist_loop_pure. }
  unfold linkage. cbn [is_double dtype_of negb shape X].
  rewrite Hin, Hm. cbn [negb]. fold X.
  rewrite (bind_returns _ _ _ _ Hdist).
  unfold zeros_rows_minus_one.
  destruct (Z.ltb_spec (Z.of_nat n - 1) 0) as [?|_]; [lia|].
  rewrite bind_ret_l.
  replace (Z.to_nat (Z.of_nat n - 1)) with (n - 1)%nat by lia. fold Z0.
  rewrite (call_wrap_found _ _ _ _ _ HW). reflexivity.
Qed.

Lemma linkage_observations_function_metric_witness :
  linkage (<["linkage_wrap" := fun _ => map of_int [0; 1; 5; 2]]> ∅) ∅
    (PyArray jaccard_example) (PyStr "single")
    (PyFunction (fun u v => ret (hamming u v)))
  = ([EMetric (map of_int [1; 0]) (map of_int [0; 0]); ECall "linkage_wrap"],
     inr (mk_ndarray Float64 [1%nat; 4%nat] (map of_int [0; 1; 5; 2]))).
Proof.
  pose proof (linkage_observations_function_metric
                (<["linkage_wrap" := fun _ => map of_int [0; 1; 5; 2]]> ∅) ∅
                (fun _ => map of_int [0; 1; 5; 2]) 2 2
                (map of_int [1; 0; 0; 0]) hamming "single" 0
                ltac:(apply lookup_insert_eq) ltac:(vm_compute; reflexivity)
                ltac:(lia)) as H.
  cbv zeta in H. exact H.
Defined.

(** ** The argument [force] of [squareform] *)

(** X4: [squareform] with [force='tomatrix'] raises on every argument, a
    vector included; with [force='tovector'] (in any case of the letters)
    it raises on every argument that is not a one-dimensional array, a
    square matrix included, and a one-dimensional array is converted to a
    matrix as it is without [force]. *)
Theorem squareform_force_converts_nothing (W : extension) (checks : bool) :
  (forall X, fails (squareform W X "tomatrix" checks))
  /\ (forall X force,
        lower force = "tovector" ->
        (forall a, X = PyArray a -> length (shape a) <> 1%nat) ->
        fails (squareform W X force checks))
  /\ (forall a, length (shape a) = 1%nat ->
        squareform W (PyArray a) "tovector" checks
        = squareform W (PyArray a) "no" checks).
Proof.
  split; [|split].
  - intros X. unfold squareform. destruct X; try apply raise_fails.
    destruct (negb (is_double a)); [apply raise_fails|].
    change (lower "tomatrix") with "tomatrix".
    change (String.eqb "tomatrix" "tomatrix") with true.
    change (String.eqb "tomatrix" "tovector") with false.
    cbn [negb]. rewrite andb_false_r, !andb_true_r.
    destruct (Nat.eqb_spec (length (shape a)) 1) as [E|_]; cbn [negb];
      [|apply raise_fails].
    rewrite E. apply raise_fails.
  - intros X force Hf HX. unfold squareform. destruct X; try apply raise_fails.
    destruct (negb (is_double a)); [apply raise_fails|].
    rewrite Hf.
    change (String.eqb "tovector" "tomatrix") with false.
    change (String.eqb "tovector" "tovector") with true.
    cbn [negb]. rewrite !andb_false_r.
    destruct (Nat.eqb_spec (length (shape a)) 1) as [E|_];
      [now destruct (HX a eq_refl)|].
    cbn [andb]. apply raise_fails.
  - intros a Ha. unfold squareform. rewrite Ha. reflexivity.
Qed.

Lemma squareform_force_converts_nothing_witness :
  fails (squareform reference_wrap (PyArray (vector (map of_int [2; 3; 5])))
           "tomatrix" true)
  /\ fails (squareform reference_wrap (PyArray distance_example) "ToVector" true)
  /\ squareform reference_wrap (PyArray (vector (map of_int [2; 3; 5])))
       "tovector" true
     = squareform reference_wrap (PyArray (vector (map of_int [2; 3; 5])))
         "no" true.
Proof.
  destruct (squareform_force_converts_nothing reference_wrap true)
    as (H1 & H2 & H3).
  split; [apply H1|split].
  - apply H2; [reflexivity|]. intros a [= <-]. discriminate.
  - apply H3. reflexivity.
Defined.

(** ** The matrix [squareform] makes of a vector *)

Lemma fadd_comm (x y : double) : fadd x y = fadd y x.
Proof.
  unfold fadd, SFadd.
  destruct x as [sx|sx| |sx mx ex], y as [sy|sy| |sy my ey];
    try reflexivity; try (destruct sx, sy; reflexivity).
  rewrite (Z.min_comm ey ex). f_equal. apply Z.add_comm.
Qed.

Lemma length_write_back (out : ndarray) (new : list double) :
  length (data (write_back out new)) = length (data out).
Proof.
  unfold write_back. cbn [data].
  rewrite length_take, length_app, length_drop. lia.
Qed.

(** X5: whatever [to_squareform_from_vector_wrap] writes, a matrix that
    [squareform] returns for a vector is square, of the dimension [d] with
    d(d-1)/2 the length of the vector, and symmetric entry for entry: it is
    the sum of the matrix the extension filled and of its transpose. *)
Theorem squareform_of_vector_symmetric (W : extension) (v : list double)
    (force : string) (checks : bool) (M : ndarray) :
  outcome (squareform W (PyArray (vector v)) force checks) = inr M ->
  exists d : nat,
    shape M = [d; d] /\ length (data M) = (d * d)%nat
    /\ choose2 d = length v
    /\ forall i j, (i < d)%nat -> (j < d)%nat -> get2 M i j = get2 M j i.
Proof.
  unfold squareform, vector.
  cbn [is_double dtype_of negb shape length Nat.eqb nrows andb].
  destruct (String.eqb force "tomatrix") eqn:Ef; cbn [negb].
  - apply String.eqb_eq in Ef. subst force.
    change (String.eqb (lower "tomatrix") "tomatrix") with true.
    discriminate.
  - rewrite bind_tell. cbn [outcome snd].
    set (s0 := Z.of_nat (length v)). set (dz := ceil_sqrt (s0 * 2)).
    destruct (Z.eqb_spec (dz * (dz - 1) / 2) s0) as [Hd|_]; cbn [negb];
      [|discriminate].
    set (d := Z.to_nat dz).
    destruct (W !! "to_squareform_from_vector_wrap") as [f|] eqn:HW;
      [|unfold call_wrap; rewrite HW; discriminate].
    rewrite (call_wrap_found _ _ _ _ _ HW).
    rewrite (bind_returns _ _ _ _ eq_refl). cbn [outcome snd].
    set (M' := write_back (zeros [d; d]) _).
    assert (Hsh : shape M' = [d; d]) by reflexivity.
    assert (Hlen : length (data M') = (d * d)%nat).
    { unfold M'. rewrite length_write_back. unfold zeros. cbn [data size_of fold_right].
      rewrite repeat_length. lia. }
    assert (Hwf : well_formed M').
    { unfold well_formed. rewrite Hlen, Hsh. simpl. lia. }
    clearbody M'.
    unfold add_arrays, same_shape, transpose, ncols, nrows. rewrite Hsh.
    cbn [mk2 shape]. rewrite bool_decide_eq_true_2 by reflexivity.
    intros [= <-]. exists d. cbn [shape data].
    rewrite (data_table M' d d Hsh Hwf), zip_with_table.
    split; [reflexivity|split; [|split]].
    + apply length_table.
    + unfold choose2, d. rewrite Z2Nat.id by apply ceil_sqrt_nonneg.
      fold dz. rewrite Hd. apply Nat2Z.id.
    + intros i j Hi Hj.
      change (mk_ndarray Float64 [d; d]
                (table d d (fun i j => fadd (get2 M' i j) (get2 M' j i))))
        with (mk2 d d (fun i j => fadd (get2 M' i j) (get2 M' j i))).
      rewrite !get2_mk2 by assumption. apply fadd_comm.
Qed.

Lemma squareform_of_vector_symmetric_witness :
  exists M d,
    outcome (squareform reference_wrap (PyArray (vector (map of_int [2; 3; 5])))
               "no" true) = inr M
    /\ shape M = [d; d] /\ choose2 d = 3%nat
    /\ get2 M 0 2 = get2 M 2 0.
Proof.
  destruct (squareform reference_wrap (PyArray (vector (map of_int [2; 3; 5])))
              "no" true) as [t [e|M]] eqn:E; [vm_compute in E; discriminate|].
  destruct (squareform_of_vector_symmetric reference_wrap (map of_int [2; 3; 5])
              "no" true M) as (d & Hsh & _ & Hd & Hsym).
  - rewrite E. reflexivity.
  - exists M, d. split; [reflexivity|split; [exact Hsh|split; [exact Hd|]]].
    assert (d = 3%nat) as ->.
    { destruct d as [|[|[|[|d]]]]; try (vm_compute in Hd; lia).
      exfalso. revert Hd. unfold choose2. cbn [map length]. intros Hd.
      assert (Z.of_nat (S (S (S (S d)))) * (Z.of_nat (S (S (S (S d)))) - 1) / 2
              >= 4) by (apply Z.le_ge, Z.div_le_lower_bound; nia).
      lia. }
    apply Hsym; lia.
Defined.

(** ** The tests [squareform] makes *)

Lemma count_true_below (bs : list bool) :
  false ∈ bs -> count_true bs < Z.of_nat (length bs).
Proof.
  intros H. unfold count_true. apply inj_lt.
  apply (length_filter_lt _ _ false); [exact H|discriminate].
Qed.

(** X6: with its checks on, [squareform] turns away every square matrix of
    doubles with a NaN among its entries, on the diagonal or off it, as
    'not symmetrical': the test counts the entries with [X == X.T], and a
    NaN is equal to nothing. *)
Theorem squareform_rejects_nan (W : extension) (X : ndarray) (d i j : nat) :
  dtype_of X = Float64 -> shape X = [d; d] -> well_formed X ->
  (i < d)%nat -> (j < d)%nat -> is_nan (get2 X i j) = true ->
  squareform W (PyArray X) "no" true
  = raise (AttributeError "The distance matrix must be symmetrical.").
Proof.
  intros Hdt Hsh Hwf Hi Hj Hnan. unfold squareform, is_double, nrows, ncols.
  rewrite Hdt, Hsh. cbn [negb length Nat.eqb andb].
  change (String.eqb (lower "no") "tomatrix") with false.
  change (String.eqb (lower "no") "tovector") with false.
  cbn [negb andb]. rewrite Nat.eqb_refl. cbn [negb].
  assert (Hcount : (count_true (zip_with feq (data X) (data (transpose X)))
                    =? Z.of_nat (size_of [d; d])) = false).
  { apply Z.eqb_neq. unfold transpose, nrows, ncols. rewrite Hsh.
    rewrite (data_table X d d Hsh Hwf) at 1. cbn [mk2 data].
    rewrite zip_with_table.
    pose proof (count_true_below
                  (table d d (fun i j => feq (get2 X i j) (get2 X j i)))) as Hlt.
    rewrite length_table in Hlt. cbn [size_of fold_right].
    rewrite Nat.mul_1_r. enough (false ∈ table d d
      (fun i j => feq (get2 X i j) (get2 X j i))) by (specialize (Hlt H); lia).
    apply list_elem_of_lookup. exists (i * d + j)%nat.
    rewrite lookup_table by assumption. f_equal.
    destruct (get2 X i j); try discriminate. reflexivity. }
  rewrite Hcount. reflexivity.
Qed.

Lemma squareform_rejects_nan_witness :
  squareform reference_wrap
    (PyArray (mk_ndarray Float64 [2%nat; 2%nat]
                [pzero; S754_nan; S754_nan; pzero])) "no" true
  = raise (AttributeError "The distance matrix must be symmetrical.").
Proof.
  apply (squareform_rejects_nan reference_wrap _ 2 0 1);
    try reflexivity; lia.
Defined.

(** X7: a vector of doubles whose length is no d(d-1)/2 is turned away by
    [squareform] with 'Incompatible vector size', after the dimension it
    tried and the length have been printed and before the extension is
    entered. *)
Theorem squareform_vector_size_test (W : extension) (v : list double)
    (force : string) (checks : bool) :
  force <> "tomatrix" ->
  (forall d : nat, choose2 d <> length v) ->
  squareform W (PyArray (vector v)) force checks
  = ([EPrint [ceil_sqrt (Z.of_nat (length v) * 2); Z.of_nat (length v)]],
     inl (AttributeError "Incompatible vector size. It must be a binomial coefficient n choose 2 for some integer n >= 2.")).
Proof.
  intros Hf Hd. unfold squareform, vector.
  cbn [is_double dtype_of negb shape length Nat.eqb nrows andb].
  apply String.eqb_neq in Hf. rewrite Hf. cbn [negb].
  rewrite bind_tell, (binomial_test_fails _ Hd). reflexivity.
Qed.

Lemma squareform_vector_size_test_witness :
  squareform reference_wrap (PyArray (vector (map of_int [1; 2]))) "no" true
  = ([EPrint [2; 2]],
     inl (AttributeError "Incompatible vector size. It must be a binomial coefficient n choose 2 for some integer n >= 2.")).
Proof.
  apply (squareform_vector_size_test reference_wrap (map of_int [1; 2]) "no" true).
  - discriminate.
  - intros d. cbn [length map].
    destruct d as [|[|[|[|d]]]]; try (vm_compute; lia).
    unfold choose2. intros E.
    assert (Z.of_nat (S (S (S (S d)))) * (Z.of_nat (S (S (S (S d)))) - 1) / 2
            >= 3) by (apply Z.le_ge, Z.div_le_lower_bound; nia).
    lia.
Defined.

(** ** The names of the metrics of [pdist] *)

Lemma exact_names_not_lowered (s : string) :
  mem_str s exact_metric_names = true -> mem_str s metric_names = false.
Proof.
  unfold mem_str, exact_metric_names. cbn [existsb]. intros H.
  repeat (apply orb_true_iff in H as [H|H];
          [apply String.eqb_eq in H; subst s; reflexivity|]).
  discriminate.
Qed.

(** X8: the names of the metrics computed by the C extension (and
    ['cosine'], ['stub_mahalanobis']) are read without regard to the case
    of the letters: two strings with the same lower-case form give the same
    call of [pdist].  The names ['test_*'] and ['mahalanobis'] are compared
    as they are written, and in any other case of the letters they are an
    unknown metric. *)
Theorem pdist_metric_name_case (W : extension) (L : library) (p : pyobj) :
  (forall X m1 m2,
     lower m1 = lower m2 -> mem_str (lower m1) metric_names = true ->
     pdist W L X (PyStr m1) p = pdist W L X (PyStr m2) p)
  /\ (forall a s,
        length (shape a) = 2%nat ->
        mem_str (lower s) exact_metric_names = true ->
        mem_str s exact_metric_names = false ->
        pdist W L (PyArray a) (PyStr s) p = raise unknown_metric).
Proof.
  split.
  - intros X m1 m2 Hlow Hin. unfold pdist.
    destruct X; try reflexivity.
    destruct (negb _); [reflexivity|]. cbv zeta. rewrite <- Hlow.
    repeat match goal with
           | |- context [if mem_str (lower m1) ?l then _ else _] =>
               destruct (mem_str (lower m1) l) eqn:?; [reflexivity|]
           end.
    unfold metric_names in Hin. rewrite !mem_str_app in Hin.
    repeat match goal with
           | H : mem_str (lower m1) _ = false |- _ => rewrite H in Hin; clear H
           end.
    discriminate.
  - intros a s Hsh Hlow Hs. apply pdist_unknown_metric; [exact Hsh|].
    unfold recognized. now rewrite (exact_names_not_lowered _ Hlow), Hs.
Qed.

Lemma pdist_metric_name_case_witness :
  pdist reference_wrap ∅ (PyArray jaccard_example) (PyStr "Hamming") (PyInt 2)
  = pdist reference_wrap ∅ (PyArray jaccard_example) (PyStr "hamming") (PyInt 2)
  /\ pdist reference_wrap ∅ (PyArray jaccard_example) (PyStr "Test_Hamming")
       (PyInt 2)
     = raise unknown_metric.
Proof.
  destruct (pdist_metric_name_case reference_wrap ∅ (PyInt 2)) as [H1 H2].
  split.
  - apply H1; reflexivity.
  - apply H2; reflexivity.
Defined.

(** X9: [pdist] reads its third argument [p] for the metrics ['minkowski']
    (['mi'], ['m']) and ['test_minkowski'] only: for any other metric, a
    string or not, two values of [p] give the same call. *)
Theorem pdist_reads_p_for_minkowski_only (W : extension) (L : library)
    (X metric p p' : pyobj) :
  (forall s, metric = PyStr s ->
     mem_str (lower s) ["minkowski"; "mi"; "m"] = false
     /\ String.eqb s "test_minkowski" = false) ->
  pdist W L X metric p = pdist W L X metric p'.
Proof.
  intros H. unfold pdist.
  destruct X as [| | | | |a|];
    [reflexivity|reflexivity|reflexivity|reflexivity|reflexivity| |reflexivity].
  destruct (negb _); [reflexivity|]. cbv zeta.
  destruct metric as [| | |s| | |];
    [reflexivity|reflexivity|reflexivity| |reflexivity|reflexivity|reflexivity].
  destruct (H s eq_refl) as [H1 H2]. rewrite H1, H2.
  repeat match goal with
         | |- context [if mem_str (lower s) ?l then _ else _] =>
             destruct (mem_str (lower s) l); [reflexivity|]
         end.
  repeat match goal with
         | |- context [if String.eqb s ?t then _ else _] =>
             destruct (String.eqb s t); [reflexivity|]
         end.
  reflexivity.
Qed.

Lemma pdist_reads_p_for_minkowski_only_witness :
  pdist reference_wrap ∅ (PyArray jaccard_example) (PyStr "hamming") (PyInt 2)
  = pdist reference_wrap ∅ (PyArray jaccard_example) (PyStr "hamming") PyNone.
Proof.
  apply pdist_reads_p_for_minkowski_only.
  intros s [= <-]. split; reflexivity.
Defined.

(** ** The metrics ['test_*'] of [pdist] *)

Lemma pdist_loop_ext (f f' : list double -> list double -> Py double)
    (X : ndarray) (m : nat) (dm : ndarray) :
  (forall u v, f u v = f' u v) ->
  pdist_loop f X m dm = pdist_loop f' X m dm.
Proof.
  intros H. unfold pdist_loop. f_equal.
  apply for_each_ext. intros i st. apply for_each_ext. intros j st'.
  now rewrite H.
Qed.

Lemma pdist_function_pure (dt : dtype) (m n : nat) (xs : list double)
    (g : list double -> list double -> double) :
  let X := mk_ndarray dt [m; n] xs in
  pdist_function (PyArray X) (fun u v => ret (g u v))
  = (map (fun q => EMetric (row X (fst q)) (row X (snd q))) (pairs m),
     inr (mk_ndarray Float64 [choose2 m]
            (map (fun q => g (row X (fst q)) (row X (snd q))) (pairs m)))).
Proof. intros X. unfold pdist_function. simpl. apply pdist_loop_pure. Qed.

Lemma count_true_nonneg (bs : list bool) : 0 <= count_true bs.
Proof. unfold count_true. lia. Qed.

Lemma count_true_and_le (a b : list bool) :
  count_true (zip_with andb a b) <= count_true b.
Proof.
  unfold count_true. apply inj_le.
  revert b. induction a as [|x a IH]; intros [|y b]; simpl; try lia.
  rewrite !filter_cons. specialize (IH b).
  destruct x, y; simpl; repeat case_decide; simpl; try congruence; lia.
Qed.

(** X10: every entry of [pdist(X, 'test_jaccard')] is 0.0 or 1.0.  The two
    counts in the [lambda] are integers and their quotient is the integer
    quotient: 1 when every component with a non-zero entry differs, 0
    otherwise.  The call raises for no matrix, and does not enter the C
    extension. *)
Theorem pdist_test_jaccard_zero_or_one (W : extension) (L : library)
    (dt : dtype) (m n : nat) (xs : list double) (p : pyobj) :
  let X := mk_ndarray dt [m; n] xs in
  exists dm : list double,
    pdist W L (PyArray X) (PyStr "test_jaccard") p
    = (map (fun q => EMetric (row X (fst q)) (row X (snd q))) (pairs m),
       inr (mk_ndarray Float64 [choose2 m] dm))
    /\ length dm = choose2 m
    /\ Forall (fun x => x = of_int 0 \/ x = of_int 1) dm.
Proof.
  intros X.
  set (g := fun u v : list double =>
    let nonzero := zip_with orb (vne_int u 0) (vne_int v 0) in
    let num := count_true (zip_with andb (vne u v) nonzero) in
    let den := count_true nonzero in
    of_int (if den =? 0 then 0 else num / den)).
  exists (map (fun q => g (row X (fst q)) (row X (snd q))) (pairs m)).
  split; [|split].
  - exact (pdist_function_pure dt m n xs g).
  - now rewrite length_map, length_pairs.
  - apply Forall_map, Forall_forall. intros q _. unfold g. cbv zeta.
    set (nonzero := zip_with orb _ _).
    pose proof (count_true_and_le (vne (row X (fst q)) (row X (snd q))) nonzero).
    pose proof (count_true_nonneg
                  (zip_with andb (vne (row X (fst q)) (row X (snd q))) nonzero)).
    destruct (Z.eqb_spec (count_true nonzero) 0) as [_|Hne]; [now left|].
    destruct (Z.eq_dec (count_true (zip_with andb
                (vne (row X (fst q)) (row X (snd q))) nonzero))
              (count_true nonzero)) as [->|Hlt].
    + right. now rewrite Z_div_same_full.
    + left. now rewrite Z.div_small by lia.
Qed.

Lemma zip_with_same {A B} (f : A -> A -> B) (l : list A) :
  zip_with f l l = map (fun x => f x x) l.
Proof. induction l as [|x l IH]; simpl; [reflexivity|now rewrite IH]. Qed.

(** X11: [pdist(X, 'test_euclidean')] raises for no matrix.  The argument of
    [scipy.sqrt] in the [lambda] is a sum of squares, which is never
    negative, so that the entry for the rows [u] and [v] is the square root
    of the sum of the squares of [u - v]; the entries are computed in the
    canonical order and the C extension is not entered. *)
Theorem pdist_test_euclidean_never_fails (W : extension) (L : library)
    (dt : dtype) (m n : nat) (xs : list double) (p : pyobj) :
  let X := mk_ndarray dt [m; n] xs in
  pdist W L (PyArray X) (PyStr "test_euclidean") p
  = (map (fun q => EMetric (row X (fst q)) (row X (snd q))) (pairs m),
     inr (mk_ndarray Float64 [choose2 m]
            (map (fun q => fsqrt (vsum (squares
                             (vsub (row X (fst q)) (row X (snd q))))))
                 (pairs m)))).
Proof.
  intros X.
  pose proof (pdist_function_pure dt m n xs
                (fun u v => fsqrt (vsum (squares (vsub u v))))) as H.
  cbv zeta in H. fold X in H. rewrite <- H. clear H.
  change (pdist W L (PyArray X) (PyStr "test_euclidean") p)
    with (pdist_function (PyArray X) lambda_test_euclidean).
  unfold pdist_function. cbn [shape X length Nat.eqb negb nrows].
  apply pdist_loop_ext. intros u v. unfold lambda_test_euclidean, scipy_sqrt.
  unfold vmul. rewrite zip_with_same. fold (squares (vsub u v)).
  now rewrite (sign_clear_not_negative _ (sum_of_squares_sign_clear _)).
Qed.

(** ** The arguments of [cophenet] after the second *)

(** The cases of a call [cophenet(Z, Y, ...)]: the tests on [Z], the call
    of the extension, the tests on [Y]. *)
Ltac cophenet_cases Zo Y leaf :=
  unfold cophenet;
  destruct Zo; try solve [leaf];
  repeat match goal with
         | |- context [if negb ?b then _ else _] =>
             destruct (negb b); try solve [leaf]
         end;
  match goal with
  | |- context [call_wrap ?W ?fn ?args ?out] =>
      destruct (call_wrap W fn args out) as [? [?|?]]
  end;
  try solve [leaf];
  destruct Y; try solve [leaf];
  match goal with
  | |- context [match shape ?a with _ => _ end] =>
      destruct (shape a) as [|? [|? ?]]
  end;
  try solve [leaf];
  repeat match goal with
         | |- context [if negb ?b then _ else _] =>
             destruct (negb b); try solve [leaf]
         end.

(** X12: [cophenet(Z, Y, x)] does what [cophenet(Z, Y)] does, whatever [x]
    is: it fails with the same exception when that call fails, and when
    that call returns [c] it returns the pair [(c, zz)] with [zz] the
    vector [cophenet(Z)] returns; it enters the C extension as often. *)
Theorem cophenet_third_argument_unread (W : extension) (Zo Y x : pyobj) :
  trace (cophenet W [Zo; Y; x]) = trace (cophenet W [Zo; Y])
  /\ (forall e, outcome (cophenet W [Zo; Y]) = inl e ->
        outcome (cophenet W [Zo; Y; x]) = inl e)
  /\ (forall c, outcome (cophenet W [Zo; Y]) = inr c ->
        exists zz, outcome (cophenet W [Zo]) = inr zz
                   /\ outcome (cophenet W [Zo; Y; x]) = inr (PyTuple [c; zz])).
Proof.
  cophenet_cases Zo Y
    ltac:(split; [reflexivity|split; [intros ? H; exact H|intros ? H;
          discriminate]]).
  split; [reflexivity|split; [intros e' H; discriminate|]].
  intros c [= <-]. eexists. split; reflexivity.
Qed.

Lemma cophenet_third_argument_unread_witness :
  exists c zz,
    outcome (cophenet reference_wrap
               [PyArray three_point_linkage;
                PyArray (vector (map of_int [1; 3; 2]))]) = inr c
    /\ outcome (cophenet reference_wrap [PyArray three_point_linkage]) = inr zz
    /\ outcome (cophenet reference_wrap
                  [PyArray three_point_linkage;
                   PyArray (vector (map of_int [1; 3; 2])); PyNone])
       = inr (PyTuple [c; zz]).
Proof.
  destruct (outcome (cophenet reference_wrap
                       [PyArray three_point_linkage;
                        PyArray (vector (map of_int [1; 3; 2]))]))
    as [e|c] eqn:E; [vm_compute in E; discriminate|].
  destruct (cophenet_third_argument_unread reference_wrap
              (PyArray three_point_linkage)
              (PyArray (vector (map of_int [1; 3; 2]))) PyNone)
    as (_ & _ & H).
  destruct (H c E) as (zz & Hzz & Ht).
  exists c, zz. split; [reflexivity|split; assumption].
Defined.

(** X13: with four arguments or more, [cophenet] does all that
    [cophenet(Z, Y)] does and, when that call returns, returns [None]: no
    [return] is reached. *)
Theorem cophenet_more_arguments_return_none (W : extension)
    (Zo Y x x' : pyobj) (more : list pyobj) (c : pyobj) :
  outcome (cophenet W [Zo; Y]) = inr c ->
  cophenet W (Zo :: Y :: x :: x' :: more)
  = (trace (cophenet W [Zo; Y]), inr PyNone).
Proof.
  cophenet_cases Zo Y ltac:(intros H; discriminate). reflexivity.
Qed.

Lemma cophenet_more_arguments_return_none_witness :
  outcome (cophenet reference_wrap
             [PyArray three_point_linkage;
              PyArray (vector (map of_int [1; 3; 2])); PyNone; PyNone])
  = inr PyNone.
Proof.
  destruct (outcome (cophenet reference_wrap
                       [PyArray three_point_linkage;
                        PyArray (vector (map of_int [1; 3; 2]))]))
    as [e|c] eqn:E; [vm_compute in E; discriminate|].
  rewrite (cophenet_more_arguments_return_none reference_wrap
             (PyArray three_point_linkage)
             (PyArray (vector (map of_int [1; 3; 2]))) PyNone PyNone [] c E).
  reflexivity.
Defined.

(** ** [randdm] *)

(** X14: [randdm(pnts)] raises for [pnts < 2] without drawing a number; for
    [pnts >= 2] it asks [scipy.rand] for pnts(pnts-1)/2 numbers, and the
    vector of that length it gets is one that [squareform] accepts and
    turns into a pnts-by-pnts matrix. *)
Theorem randdm_feeds_squareform (W : extension) (L : library) (pnts : Z) :
  (pnts < 2 ->
   randdm L pnts
   = raise (AttributeError "The number of points in the distance matrix must be at least 2."))
  /\ (forall rnd kernel xs,
        2 <= pnts ->
        L !! "rand" = Some rnd ->
        W !! "to_squareform_from_vector_wrap" = Some kernel ->
        rnd [PyInt (pnts * (pnts - 1) / 2)] = ret (PyArray (vector xs)) ->
        Z.of_nat (length xs) = pnts * (pnts - 1) / 2 ->
        exists M,
          squareform_of_randdm W L pnts
          = ([EPrint [pnts; pnts * (pnts - 1) / 2];
              ECall "to_squareform_from_vector_wrap"], inr M)
          /\ shape M = [Z.to_nat pnts; Z.to_nat pnts]).
Proof.
  split.
  - intros H. unfold randdm.
    destruct (Z.leb_spec 2 pnts); [lia|reflexivity].
  - intros rnd kernel xs Hp HL HW Hrnd Hlen.
    unfold squareform_of_randdm, randdm, call_lib.
    destruct (Z.leb_spec 2 pnts); [|lia]. rewrite HL, Hrnd, bind_ret_l.
    set (d := Z.to_nat pnts).
    assert (Hd : (2 <= d)%nat) by (unfold d; lia).
    assert (Hc : length xs = choose2 d).
    { apply Nat2Z.inj. rewrite Hlen. unfold choose2, d.
      rewrite !Z2Nat.id; [reflexivity|lia|]. apply Z.div_pos; nia. }
    destruct (binomial_test_passes d Hd) as [Hs Ht].
    unfold squareform, vector.
    cbn [is_double dtype_of negb shape length Nat.eqb nrows andb].
    change (String.eqb "no" "tomatrix") with false. cbn [negb].
    rewrite Hc, Hs, Ht. cbn [negb].
    rewrite bind_tell, (call_wrap_found _ _ _ _ _ HW).
    rewrite (bind_returns _ _ _ _ eq_refl).
    rewrite Nat2Z.id.
    unfold add_arrays, same_shape, transpose, ncols, nrows.
    cbn [write_back zeros shape mk2].
    rewrite bool_decide_eq_true_2 by reflexivity.
    eexists. split.
    + cbn [trace outcome fst snd app ret].
      rewrite <- Hc, Hlen. unfold d. rewrite Z2Nat.id by lia. reflexivity.
    + reflexivity.
Qed.

Lemma randdm_feeds_squareform_witness :
  randdm ∅ 1
  = raise (AttributeError "The number of points in the distance matrix must be at least 2.")
  /\ exists M,
       squareform_of_randdm reference_wrap
         (<["rand" := fun _ => ret (PyArray (vector (map of_int [2; 3; 5])))]> ∅) 3
       = ([EPrint [3; 3]; ECall "to_squareform_from_vector_wrap"], inr M)
       /\ shape M = [3%nat; 3%nat].
Proof.
  split.
  - apply (randdm_feeds_squareform ∅ ∅ 1). lia.
  - apply (proj2 (randdm_feeds_squareform reference_wrap
                    (<["rand" := fun _ => ret (PyArray (vector (map of_int [2; 3; 5])))]> ∅) 3)
             (fun _ => ret (PyArray (vector (map of_int [2; 3; 5]))))
             to_squareform_from_vector (map of_int [2; 3; 5]));
      [lia|apply lookup_insert_eq|vm_compute; reflexivity|reflexivity|reflexivity].
Defined.

(** ** What [totree] returns *)

(** X15: [totree] returns for a matrix with no row and four columns only:
    it builds the node of the single observation and returns [None].  For
    every other argument it raises, so that it returns a tree for none. *)
Theorem totree_returns_no_tree :
  (forall xs,
     totree (PyArray (mk_ndarray Float64 [0%nat; 4%nat] xs))
     = ([ENode (leaf 0)], inr None))
  /\ (forall Zo r,
        outcome (totree Zo) = inr r ->
        r = None
        /\ exists xs, Zo = PyArray (mk_ndarray Float64 [0%nat; 4%nat] xs)).
Proof.
  split; [reflexivity|].
  intros Zo r H.
  destruct Zo as [| | | | |[dt sh xs]|]; try discriminate.
  destruct dt; try discriminate.
  destruct sh as [|n [|c [|c' sh]]]; try discriminate.
  destruct n as [|n].
  - destruct (Nat.eqb_spec c 4) as [->|Hc].
    + injection H as <-. split; [reflexivity|]. now exists xs.
    + unfold totree in H. cbn [is_double dtype_of negb shape length Nat.eqb ncols] in H.
      apply Nat.eqb_neq in Hc. rewrite Hc in H. discriminate.
  - destruct (totree_rows_fail Float64 n c xs) as [e He].
    rewrite He in H. discriminate.
Qed.

Lemma totree_returns_no_tree_witness :
  totree (PyArray (zeros [0%nat; 4%nat])) = ([ENode (leaf 0)], inr None)
  /\ outcome (totree (PyArray three_point_linkage))
     = inl (ValueError "The truth value of an array with more than one element is ambiguous. Use a.any() or a.all()").
Proof.
  split.
  - apply (proj1 totree_returns_no_tree).
  - destruct (outcome (totree (PyArray three_point_linkage))) as [e|r] eqn:E.
    + vm_compute in E. injection E as <-. reflexivity.
    + destruct (proj2 totree_returns_no_tree _ _ E) as [_ [xs Hxs]].
      discriminate.
Defined.

(** ** The nodes [totree] builds *)



(** ** Rows, columns and [hstack] *)

Lemma flat_map_ext_seq {A} (f g : nat -> list A) (a n : nat) :
  (forall i, (a <= i < a + n)%nat -> f i = g i) ->
  flat_map f (seq a n) = flat_map g (seq a n).
Proof.
  revert a. induction n as [|n IH]; intros a H; simpl; [reflexivity|].
  rewrite H by lia. f_equal. apply IH. intros i Hi. apply H. lia.
Qed.

Lemma map_of_flat_map {A B C} (f : B -> C) (g : A -> list B) (l : list A) :
  map f (flat_map g l) = flat_map (fun x => map f (g x)) l.
Proof.
  induction l as [|x l IH]; simpl; [reflexivity|]. now rewrite map_app, IH.
Qed.

(** The [i]-th of the pieces of length [k] that were put end to end. *)
Lemma piece_of_flat_map {A} (g : nat -> list A) (k a n i : nat) :
  (forall j, length (g j) = k) -> (i < n)%nat ->
  take k (drop (i * k) (flat_map g (seq a n))) = g (a + i)%nat.
Proof.
  intros Hg. revert a i. induction n as [|n IH]; intros a i Hi; [lia|].
  simpl flat_map. destruct i as [|i].
  - cbn [Nat.mul]. rewrite drop_0, take_app_length' by (symmetry; apply Hg).
    now rewrite Nat.add_0_r.
  - replace (S i * k)%nat with (k + i * k)%nat by lia.
    rewrite <- drop_drop, drop_app_length' by (symmetry; apply Hg).
    rewrite IH by lia. f_equal. lia.
Qed.

Lemma block_of_rows (dt : dtype) (r c : nat) (sh : list nat)
    (g : nat -> list double) (i : nat) :
  (forall j, length (g j) = (c * size_of sh)%nat) -> (i < r)%nat ->
  block (mk_ndarray dt (r :: c :: sh) (flat_map g (seq 0 r))) i = g i.
Proof.
  intros Hg Hi. unfold block, block_size. cbn [shape tail data size_of fold_right].
  fold (size_of sh). now rewrite piece_of_flat_map.
Qed.

(** A row of a well-formed matrix with three columns. *)
Lemma block_of_three_columns (a : ndarray) (r i : nat) :
  shape a = [r; 3%nat] -> well_formed a -> (i < r)%nat ->
  block a i = [get2 a i 0; get2 a i 1; get2 a i 2].
Proof.
  intros Hsh Hwf Hi. unfold block, block_size. rewrite Hsh.
  cbn [tail size_of fold_right Nat.mul Nat.add].
  rewrite (data_table a r 3 Hsh Hwf). unfold table.
  now rewrite piece_of_flat_map.
Qed.

Lemma ids_of_three_columns (a : ndarray) (r : nat) :
  shape a = [r; 3%nat] -> well_formed a ->
  slice_columns a 0 2
  = mk_ndarray (dtype_of a) [r; 2%nat]
      (flat_map (fun i => [get2 a i 0; get2 a i 1]) (seq 0 r)).
Proof.
  intros Hsh Hwf. unfold slice_columns. rewrite Hsh.
  cbn [Nat.min Nat.sub size_of fold_right Nat.mul Nat.add]. f_equal.
  apply flat_map_ext_seq. intros i Hi.
  now rewrite (block_of_three_columns a r i Hsh Hwf) by lia.
Qed.

Lemma distances_of_three_columns (a : ndarray) (r : nat) :
  shape a = [r; 3%nat] -> well_formed a ->
  select_column a 2
  = mk_ndarray (dtype_of a) [r]
      (flat_map (fun i => [get2 a i 2]) (seq 0 r)).
Proof.
  intros Hsh Hwf. unfold select_column. rewrite Hsh.
  cbn [size_of fold_right Nat.mul Nat.add]. f_equal.
  apply flat_map_ext_seq. intros i Hi.
  now rewrite (block_of_three_columns a r i Hsh Hwf) by lia.
Qed.

Lemma shape_slice_columns (a : ndarray) (r c : nat) (sh : list nat)
    (lo hi : nat) :
  shape a = r :: c :: sh ->
  shape (slice_columns a lo hi)
  = r :: (Nat.min hi c - Nat.min lo (Nat.min hi c))%nat :: sh.
Proof. intros H. unfold slice_columns. now rewrite H. Qed.

Lemma shape_select_column (a : ndarray) (r c : nat) (sh : list nat) (j : nat) :
  shape a = r :: c :: sh -> shape (select_column a j) = r :: sh.
Proof. intros H. unfold select_column. now rewrite H. Qed.

Lemma atleast_1d_same (a : ndarray) : shape a <> [] -> atleast_1d a = a.
Proof. unfold atleast_1d. now destruct (shape a). Qed.

(** ** [to_mlab_linkage] *)

(** X16: [to_mlab_linkage] returns for no argument.  An array of doubles
    with four columns and at least one row passes the tests, and the call
    of [hstack] then raises: [Z[:, 0:2] + 1] has one dimension more than
    [Z[:, 2]]. *)
Theorem to_mlab_linkage_never_returns :
  (forall Zo, fails (to_mlab_linkage Zo))
  /\ (forall r sh xs,
        (1 <= r)%nat ->
        to_mlab_linkage (PyArray (mk_ndarray Float64 (r :: 4%nat :: sh) xs))
        = raise (ValueError "arrays must have same number of dimensions")).
Proof.
  assert (Hstack : forall a r c sh,
            shape a = r :: c :: sh ->
            hstack [add_int (slice_columns a 0 2) 1; select_column a 2]
            = raise (ValueError "arrays must have same number of dimensions")).
  { intros a r c sh Hsh.
    set (A := add_int (slice_columns a 0 2) 1). set (B := select_column a 2).
    assert (HA : shape A
                 = r :: (Nat.min 2 c - Nat.min 0 (Nat.min 2 c))%nat :: sh)
      by apply (shape_slice_columns a r c sh 0 2 Hsh).
    assert (HB : shape B = r :: sh)
      by apply (shape_select_column a r c sh 2 Hsh).
    unfold hstack. cbn [map].
    rewrite !atleast_1d_same by (first [rewrite HA|rewrite HB]; discriminate).
    cbn [forallb]. unfold same_ndim. rewrite HA, HB. cbn [length].
    replace (S (length sh) =? S (S (length sh)))%nat with false
      by (symmetry; apply Nat.eqb_neq; lia).
    reflexivity. }
  split.
  - intros Zo. unfold to_mlab_linkage. destruct Zo; try apply raise_fails.
    destruct (negb (is_double a)); [apply raise_fails|].
    destruct (shape a) as [|r [|c sh]] eqn:Hsh; try apply raise_fails.
    destruct (negb (c =? 4)%nat); [apply raise_fails|].
    destruct (r <? 1)%nat; [apply raise_fails|].
    rewrite (Hstack a r c sh Hsh). apply raise_fails.
  - intros r sh xs Hr. unfold to_mlab_linkage.
    cbn [is_double dtype_of negb shape Nat.eqb].
    destruct (Nat.ltb_spec r 1); [lia|].
    now apply (Hstack _ r 4%nat sh).
Qed.

Lemma to_mlab_linkage_never_returns_witness :
  to_mlab_linkage (PyArray linkage_example)
  = raise (ValueError "arrays must have same number of dimensions").
Proof.
  apply (proj2 to_mlab_linkage_never_returns 1%nat [] (map of_int [0; 1; 1; 2])).
  lia.
Defined.

(** ** [from_mlab_linkage] *)

Lemma take_one_drop (l : list double) (i : nat) :
  (i < length l)%nat -> take 1 (drop i l) = [nth i l pzero].
Proof.
  intros Hi. destruct (drop i l) as [|x l'] eqn:E.
  - apply (f_equal length) in E. rewrite length_drop in E. simpl in E. lia.
  - simpl. rewrite take_0. f_equal.
    rewrite nth_lookup. replace (l !! i) with (drop i l !! 0%nat)
      by (rewrite lookup_drop; f_equal; lia).
    now rewrite E.
Qed.

(** X17: on an r-by-3 matrix of doubles, [r >= 1], [from_mlab_linkage]
    raises 'The format of the indices is not 1..N' only when the smallest
    id is not 1 and the largest is not 2r, so that a matrix whose smallest
    id is 1 is let through whatever its other ids are.  A matrix let
    through gives the r-by-4 matrix whose row [i] holds the two ids of row
    [i] less 1, its distance, and the size that
    [calculate_cluster_sizes_wrap] wrote for it when it was entered with
    the first three columns of that result and [r + 1]. *)
Theorem from_mlab_linkage_layout (W : extension)
    (kernel : list pyobj -> list double) (r : nat) (zs : list double) :
  W !! "calculate_cluster_sizes_wrap" = Some kernel ->
  (1 <= r)%nat -> length zs = (r * 3)%nat ->
  let Zm := mk_ndarray Float64 [r; 3%nat] zs in
  let ids := flat_map (fun i => [get2 Zm i 0; get2 Zm i 1]) (seq 0 r) in
  let H := mk_ndarray Float64 [r; 3%nat]
             (flat_map (fun i => [fsub (get2 Zm i 0) (of_int 1);
                                  fsub (get2 Zm i 1) (of_int 1);
                                  get2 Zm i 2]) (seq 0 r)) in
  let CS := write_back (zeros [r; 1%nat])
              (kernel [PyArray H; PyArray (zeros [r; 1%nat]);
                       PyInt (Z.of_nat r + 1)]) in
  (forall lo, array_min ids = ret lo -> feq lo (of_int 1) = true ->
     not_one_to_n ids r = ret false)
  /\ (not_one_to_n ids r = ret true ->
      from_mlab_linkage W (PyArray Zm)
      = raise (AttributeError "The format of the indices is not 1..N"))
  /\ (not_one_to_n ids r = ret false ->
      from_mlab_linkage W (PyArray Zm)
      = ([ECall "calculate_cluster_sizes_wrap"],
         inr (mk_ndarray Float64 [r; 4%nat]
                (flat_map (fun i => [fsub (get2 Zm i 0) (of_int 1);
                                     fsub (get2 Zm i 1) (of_int 1);
                                     get2 Zm i 2;
                                     get1 CS i]) (seq 0 r))))).
Proof.
  intros HW Hr Hlen Zm ids H CS.
  assert (Hsh : shape Zm = [r; 3%nat]) by reflexivity.
  assert (Hwf : well_formed Zm).
  { unfold well_formed. cbn [Zm data shape size_of fold_right]. lia. }
  assert (Hstart : forall bad, not_one_to_n ids r = ret bad ->
            from_mlab_linkage W (PyArray Zm)
            = if bad
              then raise (AttributeError "The format of the indices is not 1..N")
              else
                let Zpart := mk_ndarray Float64 [r; 2%nat]
                               (map (fun x => fsub x (of_int 1)) ids) in
                let Zd := mk_ndarray Float64 [r; 1%nat]
                            (flat_map (fun i => [get2 Zm i 2]) (seq 0 r)) in
                getattr_wrap W "calculate_cluster_sizes_wrap" ;;;
                let* H := hstack [Zpart; Zd] in
                let* CS := call_wrap W "calculate_cluster_sizes_wrap"
                             [PyArray H; PyArray (zeros [r; 1%nat]);
                              PyInt (Z.of_nat r + 1)] (zeros [r; 1%nat]) in
                hstack [Zpart; Zd; CS]).
  { intros bad Hbad. unfold from_mlab_linkage.
    rewrite Hsh. cbn [is_double dtype_of Zm negb Nat.eqb].
    destruct (Nat.ltb_spec r 1); [lia|].
    rewrite (ids_of_three_columns Zm r Hsh Hwf),
            (distances_of_three_columns Zm r Hsh Hwf).
    unfold reshape. cbn [shape size_of fold_right dtype_of Zm data].
    replace (r * (1 * 1) =? r * 1)%nat with true
      by (symmetry; apply Nat.eqb_eq; lia).
    rewrite bind_ret_l. fold ids. rewrite Hbad, bind_ret_l.
    destruct bad; reflexivity. }
  split; [|split].
  - intros lo Hlo Hone. unfold not_one_to_n. rewrite Hlo, bind_ret_l.
    unfold fne. unfold feq in Hone. now rewrite Hone.
  - intros Hbad. now rewrite (Hstart true Hbad).
  - intros Hbad. rewrite (Hstart false Hbad). cbv zeta.
    unfold getattr_wrap. rewrite HW, bind_ret_l.
    unfold ids. rewrite map_of_flat_map. cbn [map].
    set (Zpart := mk_ndarray Float64 [r; 2%nat] _).
    set (Zd := mk_ndarray Float64 [r; 1%nat] _).
    assert (HZpart : forall i, (i < r)%nat ->
              block Zpart i = [fsub (get2 Zm i 0) (of_int 1);
                               fsub (get2 Zm i 1) (of_int 1)]).
    { intros i Hi. unfold Zpart.
      now rewrite (block_of_rows Float64 r 2 [] _ i) by (reflexivity || lia). }
    assert (HZd : forall i, (i < r)%nat -> block Zd i = [get2 Zm i 2]).
    { intros i Hi. unfold Zd.
      now rewrite (block_of_rows Float64 r 1 [] _ i) by (reflexivity || lia). }
    assert (HH : hstack [Zpart; Zd] = ret H).
    { unfold hstack, atleast_1d, same_ndim, same_but_second_axis.
      cbn [map shape Zpart Zd forallb length Nat.eqb andb negb head tail].
      rewrite bool_decide_eq_true_2 by (split; reflexivity).
      cbn [andb negb fold_right nth Nat.add]. unfold H.
      apply (f_equal (fun d => ret (mk_ndarray Float64 [r; 3%nat] d))).
      apply flat_map_ext_seq. intros i Hi. cbn [flat_map].
      rewrite HZpart, HZd by lia. reflexivity. }
    rewrite HH, bind_ret_l, (call_wrap_found _ _ _ _ _ HW).
    rewrite (bind_returns _ _ _ _ eq_refl). fold CS.
    assert (HCS : forall i, (i < r)%nat -> block CS i = [get1 CS i]).
    { intros i Hi. unfold block, block_size, get1.
      cbn [CS write_back shape tail size_of fold_right Nat.mul Nat.add].
      rewrite Nat.mul_1_r. apply take_one_drop.
      fold (write_back (zeros [r; 1%nat])
              (kernel [PyArray H; PyArray (zeros [r; 1%nat]);
                       PyInt (Z.of_nat r + 1)])).
      change (length (data CS) > i)%nat. unfold CS.
      rewrite length_write_back. unfold zeros. cbn [data size_of fold_right].
      rewrite repeat_length. lia. }
    assert (Hlast : hstack [Zpart; Zd; CS]
                    = ret (mk_ndarray Float64 [r; 4%nat]
                             (flat_map (fun i => [fsub (get2 Zm i 0) (of_int 1);
                                                  fsub (get2 Zm i 1) (of_int 1);
                                                  get2 Zm i 2;
                                                  get1 CS i]) (seq 0 r)))).
    { unfold hstack, atleast_1d, same_ndim, same_but_second_axis.
      cbn [map shape Zpart Zd CS write_back zeros forallb length Nat.eqb
           andb negb head tail].
      rewrite !bool_decide_eq_true_2 by (split; reflexivity).
      cbn [andb negb fold_right nth Nat.add].
      apply (f_equal (fun d => ret (mk_ndarray Float64 [r; 4%nat] d))).
      apply flat_map_ext_seq. intros i Hi. cbn [flat_map].
      fold (write_back (zeros [r; 1%nat])
              (kernel [PyArray H; PyArray (zeros [r; 1%nat]);
                       PyInt (Z.of_nat r + 1)])).
      fold CS. rewrite HZpart, HZd, HCS by lia. reflexivity. }
    rewrite Hlast. reflexivity.
Qed.

Lemma from_mlab_linkage_layout_witness :
  from_mlab_linkage (<["calculate_cluster_sizes_wrap" := fun _ => [of_int 2]]> ∅)
    (PyArray mlab_odd_example)
  = ([ECall "calculate_cluster_sizes_wrap"],
     inr (mk_ndarray Float64 [1%nat; 4%nat] (map of_int [0; 6; 3; 2]))).
Proof.
  pose proof (from_mlab_linkage_layout
                (<["calculate_cluster_sizes_wrap" := fun _ => [of_int 2]]> ∅)
                (fun _ => [of_int 2]) 1 (map of_int [1; 7; 3])
                ltac:(apply lookup_insert_eq) ltac:(lia) ltac:(reflexivity))
    as H.
  cbv zeta in H. destruct H as (_ & _ & H).
  unfold mlab_odd_example. rewrite H by (vm_compute; reflexivity).
  vm_compute. reflexivity.
Defined.

(** ** The type of the elements and [pdist] *)

Lemma mem_str_In (x : string) (l : list string) :
  mem_str x l = true -> In x l.
Proof.
  unfold mem_str. intros H. apply existsb_exists in H as (y & Hy & E).
  apply String.eqb_eq in E. now subst.
Qed.

(** X18: [pdist] makes no test on the type of the elements for the metrics
    ['euclidean'], ['cityblock'] and ['chebyshev'] (and their short names):
    the statement that builds the exception 'A double array must be
    passed.' does not raise it, and a matrix of any type is handed to the C
    function, whose result is returned. *)
Theorem pdist_makes_no_dtype_test (W : extension) (L : library) (a : ndarray)
    (s fn : string) (kernel : list pyobj -> list double) (p : pyobj) :
  length (shape a) = 2%nat ->
  (mem_str (lower s) ["euclidean"; "euclid"; "eu"; "e"] = true
   /\ fn = "pdist_euclidean_wrap")
  \/ (mem_str (lower s) ["cityblock"; "cblock"; "cb"; "c"] = true
      /\ fn = "pdist_city_block_wrap")
  \/ (mem_str (lower s) ["chebyshev"; "cheby"; "cheb"; "ch"] = true
      /\ fn = "pdist_chebyshev_wrap") ->
  W !! fn = Some kernel ->
  let dm := zeros [choose2 (nrows a)] in
  pdist W L (PyArray a) (PyStr s) p
  = ([ECall fn], inr (write_back dm (kernel [PyArray a; PyArray dm]))).
Proof.
  intros Hsh Hs HW dm. unfold pdist. rewrite Hsh.
  cbn [Nat.eqb negb]. cbv zeta. fold dm.
  revert Hs. generalize (lower s). intros mstr Hs.
  destruct Hs as [[Hs ->]|[[Hs ->]|[Hs ->]]];
    apply mem_str_In in Hs; cbn [In] in Hs;
    repeat (destruct Hs as [<-|Hs]; [simpl; now apply call_wrap_found|]);
    contradiction.
Qed.

Lemma pdist_makes_no_dtype_test_witness :
  pdist (<["pdist_euclidean_wrap" := fun _ => [of_int 1]]> ∅) ∅
    (PyArray (mk_ndarray Bool8 [2%nat; 2%nat] (map of_int [1; 0; 0; 0])))
    (PyStr "Euclid") (PyInt 2)
  = ([ECall "pdist_euclidean_wrap"], inr (vector [of_int 1])).
Proof.
  pose proof (pdist_makes_no_dtype_test
                (<["pdist_euclidean_wrap" := fun _ => [of_int 1]]> ∅) ∅
                (mk_ndarray Bool8 [2%nat; 2%nat] (map of_int [1; 0; 0; 0]))
                "Euclid" "pdist_euclidean_wrap" (fun _ => [of_int 1]) (PyInt 2)
                ltac:(reflexivity)
                ltac:(left; split; reflexivity)
                ltac:(apply lookup_insert_eq)) as H.
  cbv zeta in H. exact H.
Defined.

(** ** A matrix without columns *)

(** X19: on a matrix with [m >= 2] rows and no column, the metrics
    ['test_*'] differ: ['test_cityblock'] gives the distance 0.0 for every
    pair, ['test_hamming'] gives a NaN for every pair (the mean of no
    element), and ['test_chebyshev'] raises at the first pair, the builtin
    [max] having no element to return. *)
Theorem pdist_without_columns (W : extension) (L : library) (dt : dtype)
    (m : nat) (xs : list double) (p : pyobj) :
  (2 <= m)%nat ->
  let X := PyArray (mk_ndarray dt [m; 0%nat] xs) in
  outcome (pdist W L X (PyStr "test_cityblock") p)
  = inr (mk_ndarray Float64 [choose2 m] (map (fun _ => pzero) (pairs m)))
  /\ outcome (pdist W L X (PyStr "test_hamming") p)
     = inr (mk_ndarray Float64 [choose2 m] (map (fun _ => S754_nan) (pairs m)))
  /\ pdist W L X (PyStr "test_chebyshev") p
     = ([EMetric [] []], inl (ValueError "max() arg is an empty sequence")).
Proof.
  intros Hm X. split; [|split].
  - change (pdist W L X (PyStr "test_cityblock") p)
      with (pdist_function X (fun u v => ret (vsum (vabs (vsub u v))))).
    unfold X.
    pose proof (pdist_function_pure dt m 0 xs
                  (fun u v => vsum (vabs (vsub u v)))) as H.
    cbv zeta in H. rewrite H. reflexivity.
  - change (pdist W L X (PyStr "test_hamming") p)
      with (pdist_function X (fun u v =>
              ret (fdiv (of_int (count_true (vne u v)))
                        (of_int (Z.of_nat (length u)))))).
    unfold X.
    pose proof (pdist_function_pure dt m 0 xs
                  (fun u v => fdiv (of_int (count_true (vne u v)))
                                   (of_int (Z.of_nat (length u))))) as H.
    cbv zeta in H. rewrite H. reflexivity.
  - change (pdist W L X (PyStr "test_chebyshev") p)
      with (pdist_function X lambda_test_chebyshev).
    unfold X, pdist_function, pdist_loop.
    cbn [shape length Nat.eqb negb nrows].
    destruct m as [|[|m]]; [lia|lia|]. reflexivity.
Qed.

Lemma pdist_without_columns_witness :
  outcome (pdist reference_wrap ∅ (PyArray (mk_ndarray Float64 [2%nat; 0%nat] []))
             (PyStr "test_hamming") (PyInt 2))
  = inr (vector [S754_nan])
  /\ pdist reference_wrap ∅ (PyArray (mk_ndarray Float64 [2%nat; 0%nat] []))
       (PyStr "test_chebyshev") (PyInt 2)
     = ([EMetric [] []], inl (ValueError "max() arg is an empty sequence")).
Proof.
  destruct (pdist_without_columns reference_wrap ∅ Float64 2 [] (PyInt 2)
              ltac:(lia)) as (_ & H2 & H3).
  split; [exact H2|exact H3].
Defined.

(** ** The diagonal of a matrix given to [squareform] *)

(** X20: with its checks on, [squareform] turns away a symmetric square
    matrix of doubles that has an entry other than zero on its diagonal,
    with 'must have zeros along the diagonal'; the extension is not
    entered. *)
Theorem squareform_rejects_nonzero_diagonal (W : extension) (X : ndarray)
    (d i : nat) :
  dtype_of X = Float64 -> shape X = [d; d] -> well_formed X ->
  (forall a b, (a < d)%nat -> (b < d)%nat ->
     feq (get2 X a b) (get2 X b a) = true) ->
  (i < d)%nat -> ne_int (get2 X i i) 0 = true ->
  squareform W (PyArray X) "no" true
  = raise (AttributeError "The distance matrix must have zeros along the diagonal.").
Proof.
  intros Hdt Hsh Hwf Hsym Hi Hne. unfold squareform, is_double, nrows, ncols.
  rewrite Hdt, Hsh. cbn [negb length Nat.eqb andb].
  change (String.eqb (lower "no") "tomatrix") with false.
  change (String.eqb (lower "no") "tovector") with false.
  cbn [negb andb]. rewrite Nat.eqb_refl. cbn [negb].
  assert (Hcount : (count_true (zip_with feq (data X) (data (transpose X)))
                    =? Z.of_nat (size_of [d; d])) = true).
  { apply Z.eqb_eq. unfold transpose, nrows, ncols. rewrite Hsh.
    rewrite (data_table X d d Hsh Hwf) at 1. cbn [mk2 data].
    rewrite zip_with_table, count_true_all.
    - rewrite length_table. simpl. f_equal. lia.
    - apply Forall_forall. intros b Hb.
      apply elem_of_table in Hb as (a & c & Ha & Hc & ->). now apply Hsym. }
  rewrite Hcount. cbn [negb].
  assert (Hex : existsb (fun i => ne_int (get2 X i i) 0) (seq 0 d) = true).
  { apply existsb_exists. exists i. split; [apply in_seq; lia|exact Hne]. }
  rewrite Hex. reflexivity.
Qed.

Lemma squareform_rejects_nonzero_diagonal_witness :
  squareform reference_wrap
    (PyArray (mk_ndarray Float64 [2%nat; 2%nat] (map of_int [0; 3; 3; 1])))
    "no" true
  = raise (AttributeError "The distance matrix must have zeros along the diagonal.").
Proof.
  apply (squareform_rejects_nonzero_diagonal reference_wrap _ 2 1);
    try reflexivity; try lia.
  intros a b Ha Hb.
  destruct a as [|[|a]]; destruct b as [|[|b]]; try lia; reflexivity.
Defined.

(** ** The dimensions of an argument of the MATLAB conversions *)

(** X21: the two conversions read [Z.shape[1]] before they know that [Z]
    has two dimensions: on an array of doubles with fewer than two
    dimensions both raise an [IndexError], not the 'must be a
    two-dimensional array' of their first test.  On an array with more
    than two dimensions, three columns and at least one row,
    [from_mlab_linkage] fails when it reshapes the third column, unless
    the dimensions after the second are all 1. *)
Theorem mlab_conversions_read_second_dimension (W : extension) (a : ndarray) :
  is_double a = true ->
  ((length (shape a) < 2)%nat ->
   from_mlab_linkage W (PyArray a) = raise (IndexError "tuple index out of range")
   /\ to_mlab_linkage (PyArray a) = raise (IndexError "tuple index out of range"))
  /\ (forall r sh,
        shape a = r :: 3%nat :: sh -> (1 <= r)%nat -> size_of sh <> 1%nat ->
        from_mlab_linkage W (PyArray a)
        = raise (ValueError "total size of new array must be unchanged")).
Proof.
  intros Hd. split.
  - intros Hsh. unfold from_mlab_linkage, to_mlab_linkage. rewrite Hd.
    cbn [negb]. destruct (shape a) as [|r [|c sh]]; simpl in Hsh;
      [split; reflexivity|split; reflexivity|lia].
  - intros r sh Hsh Hr Hsize. unfold from_mlab_linkage. rewrite Hd, Hsh.
    cbn [negb Nat.eqb]. destruct (Nat.ltb_spec r 1); [lia|].
    unfold reshape. rewrite (shape_select_column a r 3 sh 2 Hsh).
    cbn [size_of fold_right]. fold (size_of sh).
    destruct (Nat.eqb_spec (r * (1 * 1)) (r * size_of sh)) as [E|_];
      [|reflexivity].
    exfalso. apply Hsize. nia.
Qed.

Lemma mlab_conversions_read_second_dimension_witness :
  from_mlab_linkage ∅ (PyArray (vector (map of_int [1; 2; 3])))
  = raise (IndexError "tuple index out of range")
  /\ to_mlab_linkage (PyArray (vector (map of_int [1; 2; 3])))
     = raise (IndexError "tuple index out of range").
Proof.
  apply (mlab_conversions_read_second_dimension ∅
           (vector (map of_int [1; 2; 3])) eq_refl).
  simpl. lia.
Defined.

(** ** [linkage] with a Euclidean method *)

(** X22: on an n-by-m matrix of doubles, [n >= 1], with the method
    [centroid], [median] or [ward] and the metric ['euclidean'] written so,
    [linkage] enters [pdist_euclidean_wrap] and then
    [linkage_euclid_wrap], once each; the second call gets the condensed
    distances, an (n-1)-by-4 array of zeros, the matrix, the number of
    columns [m], the number of rows [n] and the code 3, 4 or 5 of the
    method, and the array it filled is returned. *)
Theorem linkage_euclid_methods_compose (W : extension) (L : library)
    (distances merges : list pyobj -> list double) (n m : nat)
    (xs : list double) (method : string) (code : Z) :
  W !! "pdist_euclidean_wrap" = Some distances ->
  W !! "linkage_euclid_wrap" = Some merges ->
  (method, code) ∈ [("centroid", 3); ("median", 4); ("ward", 5)] ->
  (1 <= n)%nat ->
  let X := PyArray (mk_ndarray Float64 [n; m] xs) in
  let dm0 := zeros [choose2 n] in
  let dm := write_back dm0 (distances [X; PyArray dm0]) in
  let Z0 := zeros [(n - 1)%nat; 4%nat] in
  linkage W L X (PyStr method) (PyStr "euclidean")
  = ([ECall "pdist_euclidean_wrap"; ECall "linkage_euclid_wrap"],
     inr (write_back Z0
            (merges [PyArray dm; PyArray Z0; X; PyInt (Z.of_nat m);
                     PyInt (Z.of_nat n); PyInt code]))).
Proof.
  intros HW1 HW2 Hm Hn X dm0 dm Z0.
  assert (Hdist : pdist W L X (PyStr "euclidean") (PyInt 2)
                  = ([ECall "pdist_euclidean_wrap"], inr dm)).
  { unfold pdist, X. cbn [shape length Nat.eqb negb nrows]. cbv zeta.
    change (mem_str (lower "euclidean") ["euclidean"; "euclid"; "eu"; "e"])
      with true. cbv iota.
    now apply call_wrap_found. }
  assert (Hmethod : bool_decide (method ∈ cpy_linkage_methods) = true
                    /\ cpy_non_euclid_methods !! method = None
                    /\ cpy_euclid_methods !! method = Some code).
  { repeat (apply elem_of_cons in Hm as [[= -> ->]|Hm];
            [repeat split; vm_compute; reflexivity|]).
    now apply elem_of_nil in Hm. }
  destruct Hmethod as (Hin & Hnon & Heu).
  unfold linkage. cbn [X is_double dtype_of negb shape].
  rewrite Hin, Hnon, Heu. cbn [negb is_str].
  change (String.eqb "euclidean" "euclidean") with true. cbn [negb].
  fold X. rewrite (bind_returns _ _ _ _ Hdist).
  unfold zeros_rows_minus_one.
  destruct (Z.ltb_spec (Z.of_nat n - 1) 0) as [?|_]; [lia|].
  rewrite bind_ret_l.
  replace (Z.to_nat (Z.of_nat n - 1)) with (n - 1)%nat by lia. fold Z0.
  rewrite (call_wrap_found _ _ _ _ _ HW2). reflexivity.
Qed.

Lemma linkage_euclid_methods_compose_witness :
  linkage (<["pdist_euclidean_wrap" := fun _ => [of_int 1]]>
           (<["linkage_euclid_wrap" := fun _ => map of_int [0; 1; 1; 2]]> ∅)) ∅
    (PyArray jaccard_example) (PyStr "ward") (PyStr "euclidean")
  = ([ECall "pdist_euclidean_wrap"; ECall "linkage_euclid_wrap"],
     inr linkage_example).
Proof.
  pose proof (linkage_euclid_methods_compose
                (<["pdist_euclidean_wrap" := fun _ => [of_int 1]]>
                 (<["linkage_euclid_wrap" := fun _ => map of_int [0; 1; 1; 2]]> ∅))
                ∅ (fun _ => [of_int 1]) (fun _ => map of_int [0; 1; 1; 2])
                2 2 (map of_int [1; 0; 0; 0]) "ward" 5
                ltac:(apply lookup_insert_eq)
                ltac:(vm_compute; reflexivity)
                ltac:(repeat constructor) ltac:(lia)) as H.
  cbv zeta in H. exact H.
Defined.

(** ** A metric that raises *)

Lemma for_each_ext_in {A S} (xs : list A) (body body' : A -> S -> Py S) (s : S) :
  (forall x s, In x xs -> body x s = body' x s) ->
  for_each xs body s = for_each xs body' s.
Proof.
  revert s. induction xs as [|x xs IH]; intros s E; simpl; [reflexivity|].
  rewrite E by now left.
  destruct (body' x s) as [t [e|s']]; simpl; [reflexivity|].
  rewrite IH; [reflexivity|]. intros y s0 Hy. apply E. now right.
Qed.

(** The two nested loops of [pdist] are one loop over the pairs. *)
Lemma pdist_loop_over_pairs (f : list double -> list double -> Py double)
    (X : ndarray) (m : nat) (dm : ndarray) :
  pdist_loop f X m dm
  = let* st := for_each (pairs m) (fun q st =>
                 tell (EMetric (row X (fst q)) (row X (snd q))) ;;;
                 let* x := f (row X (fst q)) (row X (snd q)) in
                 let* dm' := setitem1 (snd st) (fst st) x in
                 ret (S (fst st), dm')) (0%nat, dm) in
    ret (snd st).
Proof.
  unfold pdist_loop, pairs. rewrite for_each_flat_map. f_equal.
  apply for_each_ext. intros i st. now rewrite for_each_map.
Qed.

(** X23: when the function given as the metric raises on a pair of rows,
    having returned for the pairs before it, [pdist] raises that exception:
    the function has been called on the pairs up to that one, in the
    canonical order, and on no pair after it. *)
Theorem pdist_stops_at_failing_pair (W : extension) (L : library)
    (dt : dtype) (m n : nat) (xs : list double)
    (f : list double -> list double -> Py double)
    (g : list double -> list double -> double) (e : exn)
    (before after : list (nat * nat)) (q : nat * nat) (p : pyobj) :
  let X := mk_ndarray dt [m; n] xs in
  pairs m = before ++ q :: after ->
  (forall q', In q' before ->
     f (row X (fst q')) (row X (snd q')) = ret (g (row X (fst q')) (row X (snd q')))) ->
  f (row X (fst q)) (row X (snd q)) = raise e ->
  pdist W L (PyArray X) (PyFunction f) p
  = (map (fun q' => EMetric (row X (fst q')) (row X (snd q'))) (before ++ [q]),
     inl e).
Proof.
  intros X Hpairs Hbefore Hq. unfold pdist.
  cbn [shape X length Nat.eqb negb nrows]. fold X.
  rewrite pdist_loop_over_pairs, Hpairs, for_each_app.
  rewrite (for_each_ext_in before _
             (fun q' st =>
                tell (EMetric (row X (fst q')) (row X (snd q'))) ;;;
                let* x := ret (g (row X (fst q')) (row X (snd q'))) in
                let* dm' := setitem1 (snd st) (fst st) x in
                ret (S (fst st), dm')))
    by (intros q' st Hin; now rewrite (Hbefore q' Hin)).
  rewrite (pdist_inner_loop g X before 0).
  - cbn [for_each]. rewrite Hq, map_app. reflexivity.
  - unfold zeros. cbn [data size_of fold_right]. rewrite repeat_length.
    rewrite Nat.mul_1_r, <- length_pairs, Hpairs, length_app. simpl. lia.
Qed.

Lemma pdist_stops_at_failing_pair_witness :
  pdist reference_wrap ∅
    (PyArray (mk_ndarray Float64 [3%nat; 0%nat] []))
    (PyFunction lambda_test_chebyshev) (PyInt 2)
  = ([EMetric [] []], inl (ValueError "max() arg is an empty sequence")).
Proof.
  apply (pdist_stops_at_failing_pair reference_wrap ∅ Float64 3 0 []
           lambda_test_chebyshev (fun _ _ => pzero)
           (ValueError "max() arg is an empty sequence")
           [] [(0%nat, 2%nat); (1%nat, 2%nat)] (0%nat, 1%nat) (PyInt 2)).
  - reflexivity.
  - intros q' [].
  - reflexivity.
Defined.
